(** * DFR-MoistureTracker: a shallow embedding of the control core

  The development follows the C sources module by module:
  [adc_manager.c], [battery_monitor.c], [soil_moisture.c],
  [mqtt_publisher.c], [factory_reset.c], [wifi_credentials.c],
  [wifi_provisioning.c] and [main.c].

  Conventions.
  - C [int], [uint32_t] and [esp_err_t] values are integers in [Z]; the
    wrap-around of unsigned arithmetic is written out ([u32]).
  - C [float] is IEEE-754 binary32, modelled with the executable
    specification floats of the standard library at precision 24.
  - Pointers and opaque ESP-IDF handles are integers, [0] being [NULL].
  - Static variables of a translation unit are the fields of that
    module's [state] record; functions pass the state explicitly.
  - Calls into ESP-IDF (ADC driver, NVS, GPIO, timers) are answered by an
    environment value handed to the function that makes the call. *)

From Stdlib Require Import ZArith QArith Qabs Lia Bool Ascii String.
From Stdlib Require Import Floats.SpecFloat.
From stdpp Require Import base list gmap strings.

Local Open Scope Z_scope.

(** ** ESP-IDF error codes ([esp_err.h], [nvs.h]) *)

Module Esp.

Definition esp_err_t := Z.

Definition ESP_OK : esp_err_t := 0.
Definition ESP_FAIL : esp_err_t := -1.
Definition ESP_ERR_NO_MEM : esp_err_t := 257.          (* 0x101 *)
Definition ESP_ERR_INVALID_ARG : esp_err_t := 258.     (* 0x102 *)
Definition ESP_ERR_INVALID_STATE : esp_err_t := 259.   (* 0x103 *)
Definition ESP_ERR_NVS_NO_FREE_PAGES : esp_err_t := 4365.     (* 0x1100 + 0x0d *)
Definition ESP_ERR_NVS_NEW_VERSION_FOUND : esp_err_t := 4368. (* 0x1100 + 0x10 *)

(** [NULL] and the test [if (p)] on a pointer or handle. *)
Definition NULL : Z := 0.
Definition non_null (p : Z) : bool := negb (p =? NULL).

(** Reduction of an integer to [uint32_t] and to [int] (two's complement). *)
Definition u32 (z : Z) : Z := z mod 2 ^ 32.
Definition i32 (z : Z) : Z := (z + 2 ^ 31) mod 2 ^ 32 - 2 ^ 31.

End Esp.
Import Esp.

(** ** binary32 arithmetic *)

Module F32.

Definition prec : Z := 24.
Definition emax : Z := 128.

Definition float := spec_float.

(** Conversion [(float) z] of an integer, round to nearest even. *)
Definition of_int (z : Z) : float := binary_normalize prec emax z 0 false.

Definition mul : float -> float -> float := SFmul prec emax.
Definition div : float -> float -> float := SFdiv prec emax.
Definition ltb : float -> float -> bool := SFltb.

Definition zero : float := S754_zero false.

(** Conversion [(int) x]: truncation toward zero.  C leaves the
    conversion of NaN, infinities and out-of-range values undefined; the
    model returns the truncated integer, and [0] for non-finite values. *)
Definition to_int (x : float) : Z :=
  match x with
  | S754_finite s m e =>
      let a := match e with
               | Z0 => Zpos m
               | Zpos _ => Z.shiftl (Zpos m) e
               | Zneg p => Z.shiftr (Zpos m) (Zpos p)
               end in
      if s then - a else a
  | _ => 0
  end.

(** The rational number a finite float denotes. *)
Definition to_Q (x : float) : Q :=
  match x with
  | S754_finite s m e =>
      let n := if s then Zneg m else Zpos m in
      match e with
      | Z0 => inject_Z n
      | Zpos _ => inject_Z (n * 2 ^ e)
      | Zneg p => Qmake n (2 ^ p)%positive
      end
  | _ => 0%Q
  end.

Definition is_finite (x : float) : bool :=
  match x with
  | S754_finite _ _ _ | S754_zero _ => true
  | _ => false
  end.

End F32.

(** ** Bounded universal checks over integer ranges *)

Fixpoint Zall_from (p : Z -> bool) (lo : Z) (n : nat) : bool :=
  match n with
  | O => true
  | S k => p lo && Zall_from p (lo + 1) k
  end.

(** ** The ESP-IDF ADC driver, as seen by the sensors

    [adc_oneshot_read] answers the [i]-th read of a sampling loop on a
    channel with an error code and the raw value it stores;
    [adc_cali_raw_to_voltage] maps a calibration handle and a raw value to
    an error code and the millivolts it stores.  The enumerators are those
    of [hal/adc_types.h]. *)

Module AdcDriver.

Definition ADC_CHANNEL_0 : Z := 0.
Definition ADC_CHANNEL_1 : Z := 1.
Definition ADC_ATTEN_DB_12 : Z := 3.

Record env := {
  adc_oneshot_read : Z -> Z -> nat -> esp_err_t * Z;
  adc_cali_raw_to_voltage : Z -> Z -> esp_err_t * Z
}.

End AdcDriver.

(** ** adc_manager.c *)

Module AdcManager.

Definition adc_channel_t := Z.
Definition adc_atten_t := Z.
Definition adc_cali_handle_t := Z.
Definition adc_oneshot_unit_handle_t := Z.

Definition MAX_CALI_HANDLES : nat := 4.

Record cali_entry_t := {
  channel : adc_channel_t;
  atten : adc_atten_t;
  handle : adc_cali_handle_t;
  in_use : bool
}.

(** The statics [adc_handle], [initialized] and [cali_handles]. *)
Record state := {
  adc_handle : adc_oneshot_unit_handle_t;
  initialized : bool;
  cali_handles : list cali_entry_t
}.

(** [cali_handles[MAX_CALI_HANDLES] = {0}]. *)
Definition zero_entry : cali_entry_t :=
  {| channel := 0; atten := 0; handle := NULL; in_use := false |}.

Definition boot_state : state :=
  {| adc_handle := NULL; initialized := false;
     cali_handles := replicate MAX_CALI_HANDLES zero_entry |}.

(** [adc_manager_init]; [new_unit] is the answer of [adc_oneshot_new_unit]:
    its error code and the content of [adc_handle] after the call. *)
Definition adc_manager_init (new_unit : esp_err_t * Z) (st : state)
  : esp_err_t * state :=
  if initialized st then (ESP_OK, st)
  else
    let '(err, h) := new_unit in
    let st1 := {| adc_handle := h; initialized := initialized st;
                  cali_handles := cali_handles st |} in
    if negb (err =? ESP_OK) then (err, st1)
    else (ESP_OK, {| adc_handle := h; initialized := true;
                     cali_handles := cali_handles st |}).

Definition adc_manager_get_handle (st : state) : adc_oneshot_unit_handle_t :=
  adc_handle st.

(** The test of the loop body of [adc_manager_get_cali_handle]. *)
Definition entry_matches (c : adc_channel_t) (a : adc_atten_t)
  (e : cali_entry_t) : bool :=
  in_use e && (channel e =? c) && (atten e =? a).

(** The scan [for (i = 0; i < MAX_CALI_HANDLES; i++)] over the array. *)
Fixpoint get_cali_scan (c : adc_channel_t) (a : adc_atten_t)
  (slots : list cali_entry_t) : adc_cali_handle_t :=
  match slots with
  | [] => NULL
  | e :: rest => if entry_matches c a e then handle e else get_cali_scan c a rest
  end.

Definition adc_manager_get_cali_handle (channel : adc_channel_t)
  (atten : adc_atten_t) (st : state) : adc_cali_handle_t :=
  get_cali_scan channel atten (cali_handles st).

(** The free-slot loop of [adc_manager_create_cali]: the first index [i]
    (counted from [i0]) whose slot is not in use, [-1] when there is none. *)
Fixpoint find_free_slot (i0 : Z) (slots : list cali_entry_t) : Z :=
  match slots with
  | [] => -1
  | e :: rest => if negb (in_use e) then i0 else find_free_slot (i0 + 1) rest
  end.

(** [adc_manager_create_cali].  The out-parameter [cali_handle] is [None]
    for a [NULL] pointer and [Some v] for a pointer to a cell holding [v];
    the second component of the result is the cell after the call.
    [scheme] is the answer of [adc_cali_create_scheme_curve_fitting]: its
    error code and the content of the cell after that call. *)
Definition adc_manager_create_cali (channel : adc_channel_t)
  (atten : adc_atten_t) (cali_handle : option adc_cali_handle_t)
  (scheme : esp_err_t * adc_cali_handle_t) (st : state)
  : esp_err_t * option adc_cali_handle_t * state :=
  match cali_handle with
  | None => (ESP_ERR_INVALID_ARG, None, st)
  | Some _ =>
      let existing := adc_manager_get_cali_handle channel atten st in
      if non_null existing then (ESP_OK, Some existing, st)
      else
        let free_slot := find_free_slot 0 (cali_handles st) in
        if free_slot =? -1 then (ESP_ERR_NO_MEM, cali_handle, st)
        else
          let '(err, h) := scheme in
          if negb (err =? ESP_OK) then (err, Some h, st)
          else
            let entry := Build_cali_entry_t channel atten h true in
            (ESP_OK, Some h,
             {| adc_handle := adc_handle st; initialized := initialized st;
                cali_handles := <[Z.to_nat free_slot := entry]> (cali_handles st) |})
  end.

(** One call of [adc_manager_create_cali] as the sensors make it, with the
    answer the driver gives to it. *)
Record request := {
  req_channel : adc_channel_t;
  req_atten : adc_atten_t;
  req_out : option adc_cali_handle_t;
  req_scheme : esp_err_t * adc_cali_handle_t
}.

Definition serve (st : state) (r : request) : state :=
  snd (adc_manager_create_cali (req_channel r) (req_atten r) (req_out r)
         (req_scheme r) st).

(** The registry after a sequence of calls made since boot. *)
Definition run (rs : list request) : state := fold_left serve rs boot_state.

(** The driver's contract: a scheme created with [ESP_OK] has a non-[NULL]
    handle. *)
Definition scheme_ok (r : request) : Prop :=
  fst (req_scheme r) = ESP_OK -> snd (req_scheme r) <> NULL.

(** At most one slot in use per (channel, attenuation) pair. *)
Definition registry_unique (st : state) : Prop :=
  forall (i j : nat) (ei ej : cali_entry_t),
    cali_handles st !! i = Some ei -> cali_handles st !! j = Some ej ->
    in_use ei = true -> in_use ej = true ->
    channel ei = channel ej -> atten ei = atten ej -> i = j.

(** A slot of [st] in use is unchanged in [st']. *)
Definition entries_kept (st st' : state) : Prop :=
  forall (i : nat) (e : cali_entry_t),
    cali_handles st !! i = Some e -> in_use e = true ->
    cali_handles st' !! i = Some e.

Definition registry_full (st : state) : Prop :=
  forall (i : nat) (e : cali_entry_t),
    cali_handles st !! i = Some e -> in_use e = true.

(** No slot holds the pair (c, a). *)
Definition pair_absent (c : adc_channel_t) (a : adc_atten_t) (st : state) : Prop :=
  forall (i : nat) (e : cali_entry_t),
    cali_handles st !! i = Some e -> ~ (channel e = c /\ atten e = a).

(** Slots in use hold a non-[NULL] handle. *)
Definition handles_live (slots : list cali_entry_t) : Prop :=
  forall (i : nat) (e : cali_entry_t),
    slots !! i = Some e -> in_use e = true -> handle e <> NULL.

Definition registry_inv (st : state) : Prop :=
  length (cali_handles st) = MAX_CALI_HANDLES /\
  registry_unique st /\
  handles_live (cali_handles st).

(** Successive calls of [adc_manager_init], one per driver answer. *)
Definition init_run (answers : list (esp_err_t * Z)) (st : state) : state :=
  fold_left (fun s a => snd (adc_manager_init a s)) answers st.

(** The handle of the first answer that carries [ESP_OK]. *)
Fixpoint first_ok (answers : list (esp_err_t * Z)) : option Z :=
  match answers with
  | [] => None
  | (err, h) :: rest => if err =? ESP_OK then Some h else first_ok rest
  end.

(** Number of slots in use. *)
Definition in_use_count (st : state) : nat :=
  length (List.filter in_use (cali_handles st)).

End AdcManager.

(** ** The sampling loop of the two sensors

    [battery_monitor_read_voltage] (lines 71-91) and
    [soil_moisture_read_voltage] (lines 170-190) run the same loop, on
    their own channel. *)

Module Sampling.

(** [for (i = i0; i < i0 + n; i++)], accumulating [value_sum] (a
    [uint32_t]) and [valid_samples]. *)
Fixpoint sample_loop (read : nat -> esp_err_t * Z) (i : nat) (n : nat)
  (value_sum valid_samples : Z) : Z * Z :=
  match n with
  | O => (value_sum, valid_samples)
  | S n' =>
      let '(err, raw_value) := read i in
      if err =? ESP_OK
      then sample_loop read (S i) n' (u32 (value_sum + raw_value)) (valid_samples + 1)
      else sample_loop read (S i) n' value_sum valid_samples
  end.

(** The loop followed by [if (valid_samples == 0) ...] and
    [int avg_raw = value_sum / valid_samples]: [None] when every read
    failed.  The division is unsigned, its result is converted to [int]. *)
Definition average_raw (read : nat -> esp_err_t * Z) (sample_count : nat)
  : option Z :=
  let '(value_sum, valid_samples) := sample_loop read 0 sample_count 0 0 in
  if valid_samples =? 0 then None
  else Some (i32 (value_sum / u32 valid_samples)).

(** The raw values of the reads that succeeded, in order. *)
Fixpoint valid_values (read : nat -> esp_err_t * Z) (i : nat) (n : nat) : list Z :=
  match n with
  | O => []
  | S n' =>
      if fst (read i) =? ESP_OK
      then snd (read i) :: valid_values read (S i) n'
      else valid_values read (S i) n'
  end.

Definition sum_list (l : list Z) : Z := fold_right Z.add 0 l.

(** Raw values are non-negative [int]s and their sum fits [uint32_t]. *)
Definition no_overflow (l : list Z) : Prop :=
  Forall (fun r => 0 <= r < 2 ^ 31) l /\ sum_list l < 2 ^ 32.

(** A caller can tell a total read failure from a reading by the value
    [reader] returns: no run in which every read fails returns what some
    run with a valid read returns.  [reads] gives the reads of a run. *)
Definition failure_distinguishable {R : Type} (reader : AdcDriver.env -> R)
  (reads : AdcDriver.env -> nat -> esp_err_t * Z) (sample_count : nat) : Prop :=
  forall e1 e2 : AdcDriver.env,
    valid_values (reads e1) 0 sample_count = [] ->
    valid_values (reads e2) 0 sample_count <> [] ->
    reader e1 <> reader e2.

End Sampling.

(** ** battery_monitor.c *)

Module BatteryMonitor.

Definition BAT_ADC_CHAN : Z := AdcDriver.ADC_CHANNEL_0.
Definition ADC_ATTEN : Z := AdcDriver.ADC_ATTEN_DB_12.
Definition VOLTAGE_DIVIDER : F32.float := F32.of_int 2.
Definition SAMPLE_COUNT : nat := 10.

(** The statics [cali_handle] and [initialized]. *)
Record state := { cali_handle : Z; initialized : bool }.

Definition boot_state : state := {| cali_handle := NULL; initialized := false |}.

(** Answers of [adc_oneshot_config_channel] and of the scheme creation
    behind [adc_manager_create_cali]. *)
Record init_env := {
  config_channel : esp_err_t;
  create_scheme : esp_err_t * Z
}.

Definition battery_monitor_init (env : init_env) (adc : AdcManager.state)
  (st : state) : esp_err_t * AdcManager.state * state :=
  if initialized st then (ESP_OK, adc, st)
  else
    let adc_handle := AdcManager.adc_manager_get_handle adc in
    if negb (non_null adc_handle) then (ESP_ERR_INVALID_STATE, adc, st)
    else
      let err := config_channel env in
      if negb (err =? ESP_OK) then (err, adc, st)
      else
        let '(err, out, adc') :=
          AdcManager.adc_manager_create_cali BAT_ADC_CHAN ADC_ATTEN
            (Some (cali_handle st)) (create_scheme env) adc in
        let h := default (cali_handle st) out in
        if negb (err =? ESP_OK)
        then (err, adc', {| cali_handle := h; initialized := false |})
        else (ESP_OK, adc', {| cali_handle := h; initialized := true |}).

(** Lines 93-107 of [battery_monitor_read_voltage]: calibration of the
    average, then [(float)voltage_mV * VOLTAGE_DIVIDER / 1000.0f]. *)
Definition voltage_of_raw (env : AdcDriver.env) (st : state) (avg_raw : Z)
  : F32.float :=
  let '(err, voltage_mV) :=
    AdcDriver.adc_cali_raw_to_voltage env (cali_handle st) avg_raw in
  if negb (err =? ESP_OK) then F32.zero
  else F32.div (F32.mul (F32.of_int voltage_mV) VOLTAGE_DIVIDER) (F32.of_int 1000).

Definition battery_monitor_read_voltage (env : AdcDriver.env)
  (adc : AdcManager.state) (st : state) : F32.float :=
  if negb (initialized st) then F32.zero
  else
    let adc_handle := AdcManager.adc_manager_get_handle adc in
    if negb (non_null adc_handle) then F32.zero
    else
      match Sampling.average_raw
              (AdcDriver.adc_oneshot_read env adc_handle BAT_ADC_CHAN) SAMPLE_COUNT with
      | None => F32.zero
      | Some avg_raw => voltage_of_raw env st avg_raw
      end.

(** [battery_monitor_deinit]. *)
Definition battery_monitor_deinit (st : state) : esp_err_t * state :=
  if negb (initialized st) then (ESP_OK, st)
  else (ESP_OK, {| cali_handle := NULL; initialized := false |}).

(** Checker: the float the conversion gives for [m] millivolts is finite,
    within [2^-21] of [2 m / 1000], and not above the one for [m + 1]. *)
Definition volts_of_mV (m : Z) : F32.float :=
  F32.div (F32.mul (F32.of_int m) VOLTAGE_DIVIDER) (F32.of_int 1000).

Definition volts_ok (m : Z) : bool :=
  F32.is_finite (volts_of_mV m)
  && Qle_bool (Qabs (F32.to_Q (volts_of_mV m) - inject_Z (2 * m) / 1000)) (1 # 2 ^ 21)
  && Qle_bool (F32.to_Q (volts_of_mV m)) (F32.to_Q (volts_of_mV (m + 1))).

End BatteryMonitor.

(** ** soil_moisture.c *)

Module SoilMoisture.

Definition SOIL_ADC_CHAN : Z := AdcDriver.ADC_CHANNEL_1.
Definition ADC_ATTEN : Z := AdcDriver.ADC_ATTEN_DB_12.
Definition SAMPLE_COUNT : nat := 10.

Definition SENSOR_DRY_MV : Z := 2950.
Definition SENSOR_WET_MV : Z := 851.

(** The statics [cali_handle] and [initialized]. *)
Record state := { cali_handle : Z; initialized : bool }.

Definition boot_state : state := {| cali_handle := NULL; initialized := false |}.

Record init_env := {
  config_channel : esp_err_t;
  create_scheme : esp_err_t * Z
}.

Definition soil_moisture_init (env : init_env) (adc : AdcManager.state)
  (st : state) : esp_err_t * AdcManager.state * state :=
  if initialized st then (ESP_OK, adc, st)
  else
    let adc_handle := AdcManager.adc_manager_get_handle adc in
    if negb (non_null adc_handle) then (ESP_ERR_INVALID_STATE, adc, st)
    else
      let err := config_channel env in
      if negb (err =? ESP_OK) then (err, adc, st)
      else
        let '(err, out, adc') :=
          AdcManager.adc_manager_create_cali SOIL_ADC_CHAN ADC_ATTEN
            (Some (cali_handle st)) (create_scheme env) adc in
        let h := default (cali_handle st) out in
        if negb (err =? ESP_OK)
        then (err, adc', {| cali_handle := h; initialized := false |})
        else (ESP_OK, adc', {| cali_handle := h; initialized := true |}).

(** Lines 192-204 of [soil_moisture_read_voltage]: calibration of the
    average, then [(float)voltage_mV / 1000.0f]. *)
Definition voltage_of_raw (env : AdcDriver.env) (st : state) (avg_raw : Z)
  : F32.float :=
  let '(err, voltage_mV) :=
    AdcDriver.adc_cali_raw_to_voltage env (cali_handle st) avg_raw in
  if negb (err =? ESP_OK) then F32.zero
  else F32.div (F32.of_int voltage_mV) (F32.of_int 1000).

Definition soil_moisture_read_voltage (env : AdcDriver.env)
  (adc : AdcManager.state) (st : state) : F32.float :=
  if negb (initialized st) then F32.zero
  else
    let adc_handle := AdcManager.adc_manager_get_handle adc in
    if negb (non_null adc_handle) then F32.zero
    else
      match Sampling.average_raw
              (AdcDriver.adc_oneshot_read env adc_handle SOIL_ADC_CHAN) SAMPLE_COUNT with
      | None => F32.zero
      | Some avg_raw => voltage_of_raw env st avg_raw
      end.

(** Lines 260-277 of [soil_moisture_read_percentage]: the interpolation
    and the clamp, as a function of the local [voltage_mV]. *)
Definition percentage_of_mV (voltage_mV : Z) : F32.float :=
  let percentage :=
    if voltage_mV >=? SENSOR_DRY_MV then F32.zero
    else if voltage_mV <=? SENSOR_WET_MV then F32.of_int 100
    else F32.div (F32.mul (F32.of_int 100) (F32.of_int (SENSOR_DRY_MV - voltage_mV)))
                 (F32.of_int (SENSOR_DRY_MV - SENSOR_WET_MV)) in
  let percentage := if F32.ltb percentage F32.zero then F32.zero else percentage in
  let percentage := if F32.ltb (F32.of_int 100) percentage then F32.of_int 100 else percentage in
  percentage.

(** Line 255: [int voltage_mV = (int)(voltage * 1000.0f)]. *)
Definition mV_of_voltage (voltage : F32.float) : Z :=
  F32.to_int (F32.mul voltage (F32.of_int 1000)).

Definition soil_moisture_read_percentage (env : AdcDriver.env)
  (adc : AdcManager.state) (st : state) : F32.float :=
  if negb (initialized st) then F32.zero
  else
    let voltage := soil_moisture_read_voltage env adc st in
    let voltage_mV := mV_of_voltage voltage in
    percentage_of_mV voltage_mV.

(** The value the interpolation formula denotes over the rationals. *)
Definition interpolation (voltage_mV : Z) : Q :=
  (inject_Z (100 * (SENSOR_DRY_MV - voltage_mV))
   / inject_Z (SENSOR_DRY_MV - SENSOR_WET_MV))%Q.

(** The interpolation branch before the clamp. *)
Definition interpolated (voltage_mV : Z) : F32.float :=
  F32.div (F32.mul (F32.of_int 100) (F32.of_int (SENSOR_DRY_MV - voltage_mV)))
          (F32.of_int (SENSOR_DRY_MV - SENSOR_WET_MV)).

(** Checker: in the interpolation range the clamp changes nothing and the
    float result is within [2^-18] of the exact quotient. *)
Definition mid_ok (v : Z) : bool :=
  negb (F32.ltb (interpolated v) F32.zero)
  && negb (F32.ltb (F32.of_int 100) (interpolated v))
  && F32.is_finite (interpolated v)
  && Qle_bool (Qabs (F32.to_Q (interpolated v) - interpolation v)) (1 # 2 ^ 18)
  && Qle_bool 0 (F32.to_Q (interpolated v))
  && Qle_bool (F32.to_Q (interpolated v)) 100.

(** Checker: line 255 gives back the calibrated millivolts or one less. *)
Definition round_trip_ok (m : Z) : bool :=
  let m' := mV_of_voltage (F32.div (F32.of_int m) (F32.of_int 1000)) in
  (m' =? m) || (m' =? m - 1).

(** Checker: one millivolt more never gives a larger percentage. *)
Definition step_ok (v : Z) : bool :=
  Qle_bool (F32.to_Q (percentage_of_mV (v + 1))) (F32.to_Q (percentage_of_mV v)).

(** [soil_moisture_deinit]. *)
Definition soil_moisture_deinit (st : state) : esp_err_t * state :=
  if negb (initialized st) then (ESP_OK, st)
  else (ESP_OK, {| cali_handle := NULL; initialized := false |}).

(** Checker: the float the conversion gives for [m] millivolts is finite,
    within [2^-22] of [m / 1000], and not above the one for [m + 1]. *)
Definition volts_of_mV (m : Z) : F32.float :=
  F32.div (F32.of_int m) (F32.of_int 1000).

Definition volts_ok (m : Z) : bool :=
  F32.is_finite (volts_of_mV m)
  && Qle_bool (Qabs (F32.to_Q (volts_of_mV m) - inject_Z m / 1000)) (1 # 2 ^ 22)
  && Qle_bool (F32.to_Q (volts_of_mV m)) (F32.to_Q (volts_of_mV (m + 1))).

(** Checker: end to end, one calibrated millivolt more never gives a
    larger percentage. *)
Definition end_to_end (m : Z) : F32.float :=
  percentage_of_mV (mV_of_voltage (volts_of_mV m)).

Definition end_to_end_step_ok (m : Z) : bool :=
  Qle_bool (F32.to_Q (end_to_end (m + 1))) (F32.to_Q (end_to_end m)).






End SoilMoisture.

(** ** C [switch] statements

    A [switch] body is a list of arms in source order.  Control enters at
    the arm whose [case] label equals the scrutinee, or at [default] when
    there is none, and runs the arms from there until one ends in
    [break]. *)

Module Switch.

Inductive label := Case (v : Z) | Default.

Record arm (S : Type) := {
  arm_label : label;
  arm_body : S -> S;
  arm_break : bool
}.
Arguments arm_label {S}.
Arguments arm_body {S}.
Arguments arm_break {S}.

Fixpoint run_from {S : Type} (arms : list (arm S)) (st : S) : S :=
  match arms with
  | [] => st
  | a :: rest =>
      let st' := arm_body a st in
      if arm_break a then st' else run_from rest st'
  end.

Fixpoint find_case {S : Type} (v : Z) (arms : list (arm S)) : option (list (arm S)) :=
  match arms with
  | [] => None
  | a :: rest =>
      match arm_label a with
      | Case w => if w =? v then Some arms else find_case v rest
      | Default => find_case v rest
      end
  end.

Fixpoint find_default {S : Type} (arms : list (arm S)) : option (list (arm S)) :=
  match arms with
  | [] => None
  | a :: rest =>
      match arm_label a with
      | Default => Some arms
      | Case _ => find_default rest
      end
  end.

Definition switch {S : Type} (v : Z) (arms : list (arm S)) (st : S) : S :=
  match find_case v arms with
  | Some entry => run_from entry st
  | None =>
      match find_default arms with
      | Some entry => run_from entry st
      | None => st
      end
  end.

End Switch.

(** ** mqtt_publisher.c *)

Module MqttPublisher.

(** [esp_mqtt_event_id_t] ([mqtt_client.h]). *)
Definition MQTT_EVENT_ERROR : Z := 0.
Definition MQTT_EVENT_CONNECTED : Z := 1.
Definition MQTT_EVENT_DISCONNECTED : Z := 2.

(** The statics [client], [mqtt_connected] and [base_topic]. *)
Record state := {
  client : Z;
  mqtt_connected : bool;
  base_topic : option string
}.

Definition boot_state : state :=
  {| client := NULL; mqtt_connected := false; base_topic := None |}.

Definition set_connected (b : bool) (st : state) : state :=
  {| client := client st; mqtt_connected := b; base_topic := base_topic st |}.

(** The body of the [switch] of [mqtt_event_handler], lines 16-37.  The
    [MQTT_EVENT_CONNECTED] arm has no [break]: the one on line 24 is
    commented out. *)
Definition handler_arms : list (Switch.arm state) :=
  [ {| Switch.arm_label := Switch.Case MQTT_EVENT_CONNECTED;
       Switch.arm_body := set_connected true;
       Switch.arm_break := false |};
    {| Switch.arm_label := Switch.Case MQTT_EVENT_DISCONNECTED;
       Switch.arm_body := set_connected false;
       Switch.arm_break := true |};
    {| Switch.arm_label := Switch.Case MQTT_EVENT_ERROR;
       Switch.arm_body := fun st => st;
       Switch.arm_break := true |};
    {| Switch.arm_label := Switch.Default;
       Switch.arm_body := fun st => st;
       Switch.arm_break := true |} ].

Definition mqtt_event_handler (event_id : Z) (st : state) : state :=
  Switch.switch event_id handler_arms st.

Definition mqtt_publisher_is_connected (st : state) : bool := mqtt_connected st.

(** Answers of [esp_mqtt_client_init], [esp_mqtt_client_register_event]
    and [esp_mqtt_client_start]. *)
Record init_env := {
  client_init : Z;
  register_event : esp_err_t;
  client_start : esp_err_t
}.

(** [mqtt_publisher_init]; [config] is [None] for a [NULL] pointer and
    otherwise carries the base topic of the configuration. *)
Definition mqtt_publisher_init (env : init_env) (config : option string)
  (st : state) : esp_err_t * state :=
  match config with
  | None => (ESP_ERR_INVALID_ARG, st)
  | Some topic =>
      let st1 := {| client := client_init env;
                    mqtt_connected := mqtt_connected st;
                    base_topic := Some topic |} in
      if negb (non_null (client st1)) then (ESP_FAIL, st1)
      else if negb (register_event env =? ESP_OK) then (register_event env, st1)
      else if negb (client_start env =? ESP_OK) then (client_start env, st1)
      else (ESP_OK, st1)
  end.

(** A telemetry message handed to the client: topic and the three values
    the payload is formatted from. *)
Record message := {
  msg_topic : string;
  msg_battery : F32.float;
  msg_soil_moisture : F32.float;
  msg_device : string
}.

(** Answers of [snprintf] (the length of the formatted payload) and of
    [esp_mqtt_client_publish] (the message id). *)
Record publish_env := {
  snprintf_len : Z;
  publish_msg_id : Z
}.

Definition mqtt_publisher_publish_telemetry (env : publish_env)
  (battery_voltage soil_moisture : F32.float) (device_name : string)
  (st : state) : esp_err_t * option message :=
  if negb (non_null (client st)) || negb (mqtt_connected st) then (ESP_FAIL, None)
  else
    match base_topic st with
    | None => (ESP_ERR_INVALID_STATE, None)
    | Some topic =>
        let len := snprintf_len env in
        if (len <? 0) || (len >=? 192) then (ESP_FAIL, None)
        else
          let msg := {| msg_topic := topic; msg_battery := battery_voltage;
                        msg_soil_moisture := soil_moisture;
                        msg_device := device_name |} in
          if publish_msg_id env <? 0 then (ESP_FAIL, Some msg)
          else (ESP_OK, Some msg)
    end.

(** The state after the handler has run on each event of a sequence. *)
Definition deliver (events : list Z) (st : state) : state :=
  fold_left (fun s e => mqtt_event_handler e s) events st.

(** The intended handler: every arm ends in [break]. *)
Definition intended_arms : list (Switch.arm state) :=
  [ {| Switch.arm_label := Switch.Case MQTT_EVENT_CONNECTED;
       Switch.arm_body := set_connected true;
       Switch.arm_break := true |};
    {| Switch.arm_label := Switch.Case MQTT_EVENT_DISCONNECTED;
       Switch.arm_body := set_connected false;
       Switch.arm_break := true |};
    {| Switch.arm_label := Switch.Case MQTT_EVENT_ERROR;
       Switch.arm_body := fun st => st;
       Switch.arm_break := true |};
    {| Switch.arm_label := Switch.Default;
       Switch.arm_body := fun st => st;
       Switch.arm_break := true |} ].

End MqttPublisher.

(** ** The NVS key-value store of ESP-IDF

    One namespace is a finite map from keys to values.  Every API call can
    be made to fail: [faults] gives the error a call returns, [ESP_OK] for
    a call that goes through.  A write that goes through is in the store
    at once; a failing call leaves the store as it is. *)

Module Nvs.

Inductive value := Str (s : string) | U8 (v : Z).

Abbreviation store := (gmap string value).

Inductive call :=
| Open
| SetStr (key : string)
| SetU8 (key : string)
| GetStr (key : string)
| GetU8 (key : string)
| Commit
| EraseAll.

Definition faults := call -> esp_err_t.

Definition no_faults : faults := fun _ => ESP_OK.

Definition ESP_ERR_NVS_NOT_FOUND : esp_err_t := 4354.       (* 0x1100 + 0x02 *)
Definition ESP_ERR_NVS_INVALID_LENGTH : esp_err_t := 4364.  (* 0x1100 + 0x0c *)

Definition nvs_open (f : faults) : esp_err_t := f Open.

Definition nvs_set_str (f : faults) (key v : string) (s : store)
  : esp_err_t * store :=
  if f (SetStr key) =? ESP_OK then (ESP_OK, <[key := Str v]> s)
  else (f (SetStr key), s).

Definition nvs_set_u8 (f : faults) (key : string) (v : Z) (s : store)
  : esp_err_t * store :=
  if f (SetU8 key) =? ESP_OK then (ESP_OK, <[key := U8 v]> s)
  else (f (SetU8 key), s).

(** [out] is the content of the output variable before the call. *)
Definition nvs_get_u8 (f : faults) (key : string) (out : Z) (s : store)
  : esp_err_t * Z :=
  if f (GetU8 key) =? ESP_OK then
    match s !! key with
    | Some (U8 v) => (ESP_OK, v)
    | _ => (ESP_ERR_NVS_NOT_FOUND, out)
    end
  else (f (GetU8 key), out).

(** [len] is the size of the caller's buffer; the string and its
    terminator must fit. *)
Definition nvs_get_str (f : faults) (key : string) (len : nat) (s : store)
  : esp_err_t * option string :=
  if f (GetStr key) =? ESP_OK then
    match s !! key with
    | Some (Str v) =>
        if (String.length v <? len)%nat then (ESP_OK, Some v)
        else (ESP_ERR_NVS_INVALID_LENGTH, None)
    | _ => (ESP_ERR_NVS_NOT_FOUND, None)
    end
  else (f (GetStr key), None).

Definition nvs_erase_all (f : faults) (s : store) : esp_err_t * store :=
  if f EraseAll =? ESP_OK then (ESP_OK, ∅) else (f EraseAll, s).

Definition nvs_commit (f : faults) : esp_err_t := f Commit.

End Nvs.

(** ** wifi_credentials.c *)

Module WifiCredentials.

Definition NVS_KEY_SSID : string := "ssid".
Definition NVS_KEY_PASSWORD : string := "password".
Definition NVS_KEY_PROVISIONED : string := "provisioned".
Definition NVS_KEY_DEVICE_ID : string := "device_id".

Definition wifi_credentials_is_provisioned (f : Nvs.faults) (s : Nvs.store) : bool :=
  if negb (Nvs.nvs_open f =? ESP_OK) then false
  else
    let '(err, prov_flag) := Nvs.nvs_get_u8 f NVS_KEY_PROVISIONED 0 s in
    (err =? ESP_OK) && (prov_flag =? 1).

Definition wifi_credentials_save (f : Nvs.faults) (ssid password : string)
  (s : Nvs.store) : esp_err_t * Nvs.store :=
  if negb (Nvs.nvs_open f =? ESP_OK) then (Nvs.nvs_open f, s)
  else
    let '(err, s1) := Nvs.nvs_set_str f NVS_KEY_SSID ssid s in
    if negb (err =? ESP_OK) then (err, s1)
    else
      let '(err, s2) := Nvs.nvs_set_str f NVS_KEY_PASSWORD password s1 in
      if negb (err =? ESP_OK) then (err, s2)
      else
        let '(err, s3) := Nvs.nvs_set_u8 f NVS_KEY_PROVISIONED 1 s2 in
        if negb (err =? ESP_OK) then (err, s3)
        else (Nvs.nvs_commit f, s3).

Definition wifi_credentials_save_device_id (f : Nvs.faults) (device_id : string)
  (s : Nvs.store) : esp_err_t * Nvs.store :=
  if negb (Nvs.nvs_open f =? ESP_OK) then (Nvs.nvs_open f, s)
  else
    let '(err, s1) := Nvs.nvs_set_str f NVS_KEY_DEVICE_ID device_id s in
    if negb (err =? ESP_OK) then (err, s1)
    else (Nvs.nvs_commit f, s1).

(** [None] for the result [false]. *)
Definition wifi_credentials_load_device_id (f : Nvs.faults) (device_id_len : nat)
  (s : Nvs.store) : option string :=
  if negb (Nvs.nvs_open f =? ESP_OK) then None
  else
    let '(err, v) := Nvs.nvs_get_str f NVS_KEY_DEVICE_ID device_id_len s in
    if negb (err =? ESP_OK) then None else v.

Definition wifi_credentials_clear (f : Nvs.faults) (s : Nvs.store)
  : esp_err_t * Nvs.store :=
  if negb (Nvs.nvs_open f =? ESP_OK) then (Nvs.nvs_open f, s)
  else
    let '(err, s1) := Nvs.nvs_erase_all f s in
    if err =? ESP_OK then (Nvs.nvs_commit f, s1) else (err, s1).

(** [wifi_credentials_load]: the two buffers when the result is [true],
    [None] when it is [false]. *)
Definition wifi_credentials_load (f : Nvs.faults) (ssid_len pass_len : nat)
  (s : Nvs.store) : option (string * string) :=
  if negb (Nvs.nvs_open f =? ESP_OK) then None
  else
    let '(err, ssid) := Nvs.nvs_get_str f NVS_KEY_SSID ssid_len s in
    if negb (err =? ESP_OK) then None
    else
      let '(err, password) := Nvs.nvs_get_str f NVS_KEY_PASSWORD pass_len s in
      if negb (err =? ESP_OK) then None
      else
        match ssid, password with
        | Some a, Some b => Some (a, b)
        | _, _ => None
        end.

End WifiCredentials.

(** ** The persisted identity *)

Module Identity.

Import WifiCredentials.

(** The stored provisioned flag is 1. *)
Definition provisioned (s : Nvs.store) : Prop :=
  s !! NVS_KEY_PROVISIONED = Some (Nvs.U8 1).

(** The keys [ssid] and [password] hold strings. *)
Definition credentials_present (s : Nvs.store) : Prop :=
  exists ssid password : string,
    s !! NVS_KEY_SSID = Some (Nvs.Str ssid) /\
    s !! NVS_KEY_PASSWORD = Some (Nvs.Str password).

(** The keys [ssid] and [password] hold non-empty strings. *)
Definition credentials_nonempty (s : Nvs.store) : Prop :=
  exists ssid password : string,
    s !! NVS_KEY_SSID = Some (Nvs.Str ssid) /\
    s !! NVS_KEY_PASSWORD = Some (Nvs.Str password) /\
    ssid <> EmptyString /\ password <> EmptyString.

(** The invariant the firmware keeps. *)
Definition identity_inv (s : Nvs.store) : Prop :=
  provisioned s -> credentials_present s.

End Identity.

(** ** wifi_provisioning.c *)

Module WifiProvisioning.

(** A buffer as C reads it: the bytes before the first NUL. *)
Fixpoint c_str (buf : string) : string :=
  match buf with
  | EmptyString => EmptyString
  | String c rest =>
      if Ascii.eqb c "000"%char then EmptyString else String c (c_str rest)
  end.

(** [strstr]: the suffix of [haystack] at the first occurrence of
    [needle], [None] for [NULL]. *)
Fixpoint strstr (haystack needle : string) : option string :=
  if String.prefix needle haystack then Some haystack
  else
    match haystack with
    | EmptyString => None
    | String _ rest => strstr rest needle
    end.

(** The bytes of [s] before the first ['&'], all of [s] when it has none:
    [end ? end - start : strlen(start)] with [end = strchr(start, '&')]. *)
Fixpoint before_amp (s : string) : string :=
  match s with
  | EmptyString => EmptyString
  | String c rest =>
      if Ascii.eqb c "&"%char then EmptyString else String c (before_amp rest)
  end.

(** [start += key_len]. *)
Fixpoint advance (n : nat) (s : string) : string :=
  match n, s with
  | O, _ => s
  | S n', String _ rest => advance n' rest
  | S _, EmptyString => EmptyString
  end.

(** [url_decode]: ['+'] becomes a space, nothing else is decoded. *)
Fixpoint url_decode (str : string) : string :=
  match str with
  | EmptyString => EmptyString
  | String c rest =>
      String (if Ascii.eqb c "+"%char then " "%char else c) (url_decode rest)
  end.

(** [copy_form_field]: the content of [dst] when the result is [true],
    [None] when it is [false]. *)
Definition copy_form_field (start : string) (key_len : nat) (dst_len : nat)
  : option string :=
  let start := advance key_len start in
  let field := before_amp start in
  if (dst_len <=? String.length field)%nat then None else Some field.

(** [parse_form_fields]: the three buffers when the result is [true]. *)
Definition parse_form_fields (buf : string) (ssid_len pass_len device_id_len : nat)
  : option (string * string * string) :=
  match strstr buf "ssid=", strstr buf "password=", strstr buf "device_id=" with
  | Some ssid_start, Some pass_start, Some device_id_start =>
      match copy_form_field ssid_start 5 ssid_len with
      | None => None
      | Some ssid =>
          match copy_form_field pass_start 9 pass_len with
          | None => None
          | Some password =>
              match copy_form_field device_id_start 10 device_id_len with
              | None => None
              | Some device_id =>
                  Some (url_decode ssid, url_decode password, url_decode device_id)
              end
          end
      end
  | _, _, _ => None
  end.

(** A POST to [/save]: the declared content length (a [size_t]), whether
    [malloc] succeeds, and the bytes the connection delivers for the
    body ([None] when a call of [httpd_req_recv] fails outright). *)
Record request := {
  content_len : Z;
  malloc_ok : bool;
  body : option string
}.

(** What [save_post_handler] leaves behind: its result, the HTTP status
    sent, the store, and whether it went on to set
    [provisioning_complete] and restart. *)
Record response := {
  result : esp_err_t;
  status : Z;
  store_after : Nvs.store;
  restarted : bool
}.

Definition failure (s : Nvs.store) : response :=
  {| result := ESP_FAIL; status := 500; store_after := s; restarted := false |}.

(** Line 93: [int total_len = req->content_len].  A content length above
    [INT_MAX] comes out negative. *)
Definition total_len (req : request) : Z := i32 (content_len req).

(** Lines 104-114, the receive loop and [buf[total_len] = 0]: the calls
    of [httpd_req_recv] ask for [total_len] bytes in all, so the buffer
    holds the first [total_len] bytes the connection delivers and nothing
    after them; when the connection delivers fewer, the call that gets
    nothing returns a value [<= 0].  [None] when a receive fails. *)
Definition receive (req : request) : option string :=
  match body req with
  | None => None
  | Some stream =>
      let n := Z.to_nat (total_len req) in
      if (String.length stream <? n)%nat then None
      else Some (String.substring 0 n stream)
  end.

Definition save_post_handler (f : Nvs.faults) (req : request) (s : Nvs.store)
  : response :=
  if total_len req <=? 0 then failure s
  else if negb (malloc_ok req) then failure s
  else
    match receive req with
    | None => failure s
    | Some received =>
        match parse_form_fields (c_str received) 33 65 33 with
        | None => failure s
        | Some (ssid, password, device_id) =>
            let '(err, s1) := WifiCredentials.wifi_credentials_save f ssid password s in
            if negb (err =? ESP_OK) then failure s1
            else
              let '(err, s2) :=
                WifiCredentials.wifi_credentials_save_device_id f device_id s1 in
              if negb (err =? ESP_OK) then failure s2
              else {| result := ESP_OK; status := 200; store_after := s2;
                      restarted := true |}
        end
    end.

(** The operations of the firmware that write the store, each with the
    faults injected while it runs. *)
Inductive op :=
| Save (f : Nvs.faults) (ssid password : string)
| SaveDeviceId (f : Nvs.faults) (device_id : string)
| Clear (f : Nvs.faults)
| Post (f : Nvs.faults) (req : request).

Definition apply_op (s : Nvs.store) (o : op) : Nvs.store :=
  match o with
  | Save f ssid password => snd (WifiCredentials.wifi_credentials_save f ssid password s)
  | SaveDeviceId f device_id => snd (WifiCredentials.wifi_credentials_save_device_id f device_id s)
  | Clear f => snd (WifiCredentials.wifi_credentials_clear f s)
  | Post f req => store_after (save_post_handler f req s)
  end.

(** The store after a history of operations on a blank device. *)
Definition history (ops : list op) : Nvs.store := fold_left apply_op ops ∅.

End WifiProvisioning.

(** ** factory_reset.c *)

Module FactoryReset.

Definition LONG_PRESS_DURATION_MS : Z := 5000.
Definition DEBOUNCE_TIME_MS : Z := 50.
Definition BUTTON_PRESSED : Z := 0.

(** The file statics, and the statics [last_change_time] and
    [last_stable_state] of [is_button_pressed]. *)
Record state := {
  button_press_start_ms : Z;
  button_was_pressed : bool;
  reset_triggered : bool;
  last_change_time : Z;
  last_stable_state : bool
}.

Definition boot_state : state :=
  {| button_press_start_ms := 0; button_was_pressed := false;
     reset_triggered := false; last_change_time := 0;
     last_stable_state := false |}.

(** [timer_us] is the value of [esp_timer_get_time()], in microseconds. *)
Definition get_time_ms (timer_us : Z) : Z := u32 (timer_us / 1000).

(** [is_button_pressed]; [level] is the value of [gpio_get_level]. *)
Definition is_button_pressed (level : Z) (timer_us : Z) (st : state)
  : bool * state :=
  let current_state := level =? BUTTON_PRESSED in
  let now := get_time_ms timer_us in
  let st' :=
    if negb (Bool.eqb current_state (last_stable_state st)) then
      if u32 (now - last_change_time st) >=? DEBOUNCE_TIME_MS then
        {| button_press_start_ms := button_press_start_ms st;
           button_was_pressed := button_was_pressed st;
           reset_triggered := reset_triggered st;
           last_change_time := now;
           last_stable_state := current_state |}
      else st
    else st in
  (last_stable_state st', st').

(** [factory_reset_init]; [gpio_config] is the answer of the GPIO driver. *)
Definition factory_reset_init (gpio_config : esp_err_t) : esp_err_t :=
  if negb (gpio_config =? ESP_OK) then gpio_config else ESP_OK.

(** What one call of [factory_reset_check] reads from the hardware: the
    GPIO level and the timer at the two calls of [get_time_ms]. *)
Record poll := {
  gpio_level : Z;
  timer_debounce : Z;
  timer_check : Z
}.

Inductive effect :=
| CredentialsCleared (err : esp_err_t)
| TaskDelay (ms : Z)
| EspRestart.

(** The button state, the persisted identity and the effects so far. *)
Record world := {
  button : state;
  nvs : Nvs.store;
  effects : list effect
}.

Definition boot_world (s : Nvs.store) : world :=
  {| button := boot_state; nvs := s; effects := [] |}.

Definition set_button (st : state) (w : world) : world :=
  {| button := st; nvs := nvs w; effects := effects w |}.

Definition factory_reset_check (f : Nvs.faults) (p : poll) (w : world) : world :=
  if reset_triggered (button w) then w
  else
    let '(currently_pressed, st) :=
      is_button_pressed (gpio_level p) (timer_debounce p) (button w) in
    let now := get_time_ms (timer_check p) in
    if currently_pressed && negb (button_was_pressed st) then
      set_button {| button_press_start_ms := now;
                    button_was_pressed := true;
                    reset_triggered := reset_triggered st;
                    last_change_time := last_change_time st;
                    last_stable_state := last_stable_state st |} w
    else if currently_pressed && button_was_pressed st then
      let press_duration := u32 (now - button_press_start_ms st) in
      if press_duration >=? LONG_PRESS_DURATION_MS then
        let '(err, s) := WifiCredentials.wifi_credentials_clear f (nvs w) in
        {| button := {| button_press_start_ms := button_press_start_ms st;
                        button_was_pressed := button_was_pressed st;
                        reset_triggered := true;
                        last_change_time := last_change_time st;
                        last_stable_state := last_stable_state st |};
           nvs := s;
           effects := effects w ++ [CredentialsCleared err; TaskDelay 2000; EspRestart] |}
      else set_button st w
    else if negb currently_pressed && button_was_pressed st then
      set_button {| button_press_start_ms := button_press_start_ms st;
                    button_was_pressed := false;
                    reset_triggered := reset_triggered st;
                    last_change_time := last_change_time st;
                    last_stable_state := last_stable_state st |} w
    else set_button st w.

(** Successive calls of [factory_reset_check], one per poll. *)
Definition run (f : Nvs.faults) (polls : list poll) (w : world) : world :=
  fold_left (fun w p => factory_reset_check f p w) polls w.

(** Number of times the reset action has fired. *)
Definition triggers (w : world) : nat :=
  length (List.filter (fun e => match e with EspRestart => true | _ => false end)
            (effects w)).

Definition raw_pressed (p : poll) : bool := gpio_level p =? BUTTON_PRESSED.

(** No press in progress, nothing fired. *)
Definition idle (st : state) : Prop :=
  reset_triggered st = false /\ button_was_pressed st = false /\
  last_stable_state st = false.

(** A press in progress: the debounced level is down and its start has
    been recorded. *)
Definition held (st : state) : Prop :=
  reset_triggered st = false /\ button_was_pressed st = true /\
  last_stable_state st = true.

(** The world after the reset action has fired from [w]. *)
Definition fire (f : Nvs.faults) (w : world) : world :=
  {| button := {| button_press_start_ms := button_press_start_ms (button w);
                  button_was_pressed := button_was_pressed (button w);
                  reset_triggered := true;
                  last_change_time := last_change_time (button w);
                  last_stable_state := last_stable_state (button w) |};
     nvs := snd (WifiCredentials.wifi_credentials_clear f (nvs w));
     effects := effects w ++
                [CredentialsCleared (fst (WifiCredentials.wifi_credentials_clear f (nvs w)));
                 TaskDelay 2000; EspRestart] |}.

(** Either nothing has fired and the latch is open, or the action has
    fired once and the latch is closed. *)
Definition fired_once (w : world) : Prop :=
  (reset_triggered (button w) = false /\ effects w = []) \/
  (reset_triggered (button w) = true /\
   exists err, effects w = [CredentialsCleared err; TaskDelay 2000; EspRestart]).

(** The world after the first poll [p] of a press has been accepted. *)
Definition press (p : poll) (w : world) : world :=
  {| button := {| button_press_start_ms := get_time_ms (timer_check p);
                  button_was_pressed := true;
                  reset_triggered := reset_triggered (button w);
                  last_change_time := get_time_ms (timer_debounce p);
                  last_stable_state := true |};
     nvs := nvs w; effects := effects w |}.

(** The press that began at poll [p] has lasted the long-press duration
    at poll [q]. *)
Definition long_since (p q : poll) : Prop :=
  LONG_PRESS_DURATION_MS
  <= u32 (get_time_ms (timer_check q) - get_time_ms (timer_check p)).

(** Successive calls of [is_button_pressed]: a poll is a GPIO level and a
    timer value; the result lists what each call returned. *)
Fixpoint debounce_run (polls : list (Z * Z)) (st : state) : list bool :=
  match polls with
  | [] => []
  | (level, timer_us) :: rest =>
      let '(r, st') := is_button_pressed level timer_us st in
      r :: debounce_run rest st'
  end.

(** The times, in milliseconds, of the polls of a run at which the stable
    state changed. *)
Fixpoint accepted_times (polls : list (Z * Z)) (st : state) : list Z :=
  match polls with
  | [] => []
  | (level, timer_us) :: rest =>
      let st' := snd (is_button_pressed level timer_us st) in
      if Bool.eqb (last_stable_state st') (last_stable_state st)
      then accepted_times rest st'
      else get_time_ms timer_us :: accepted_times rest st'
  end.

(** Each time of the list is at least [DEBOUNCE_TIME_MS] after the one
    before it, the first after [t0]; differences are taken as the code
    takes them, in [uint32_t]. *)
Fixpoint spaced (t0 : Z) (times : list Z) : Prop :=
  match times with
  | [] => True
  | t :: rest => DEBOUNCE_TIME_MS <= u32 (t - t0) /\ spaced t rest
  end.

(** The claim that a short press never registers: in a run whose polls
    with the button down all lie less than [DEBOUNCE_TIME_MS] apart, no
    call returns [true]. *)
Definition short_press_ignored (polls : list (Z * Z)) : Prop :=
  (forall p q, p ∈ polls -> q ∈ polls ->
     fst p = BUTTON_PRESSED -> fst q = BUTTON_PRESSED ->
     Z.abs (snd p / 1000 - snd q / 1000) < DEBOUNCE_TIME_MS) ->
  Forall (fun r => r = false) (debounce_run polls boot_state).

End FactoryReset.

(** ** main.c *)

Module Main.

Definition DEFAULT_DEVICE_ID : string := "sensor02".
Definition WIFI_TIMEOUT_SEC : Z := 30.
Definition MQTT_WAIT_MS : Z := 3000.
Definition PUBLISH_WAIT_MS : Z := 2000.
Definition DEEP_SLEEP_INTERVAL_SEC : Z := 3600.

(** The state of the modules, the persisted store, and the statics
    [mqtt_topic_buffer] and [device_id_buffer]. *)
Record system := {
  adc : AdcManager.state;
  battery : BatteryMonitor.state;
  soil : SoilMoisture.state;
  mqtt : MqttPublisher.state;
  store : Nvs.store;
  mqtt_topic_buffer : string;
  device_id_buffer : string
}.

Definition boot_system (s : Nvs.store) : system :=
  {| adc := AdcManager.boot_state;
     battery := BatteryMonitor.boot_state;
     soil := SoilMoisture.boot_state;
     mqtt := MqttPublisher.boot_state;
     store := s;
     mqtt_topic_buffer := EmptyString;
     device_id_buffer := EmptyString |}.

(** The answers [init_system] gets: the two calls of [nvs_flash_init] and
    [nvs_flash_erase] between them, the network stack, the event loop,
    the ADC unit, the GPIO driver, and the ADC driver for each sensor. *)
Record init_env := {
  nvs_flash_init : esp_err_t;
  nvs_flash_erase : esp_err_t;
  nvs_flash_init_again : esp_err_t;
  esp_netif_init : esp_err_t;
  esp_event_loop_create_default : esp_err_t;
  adc_oneshot_new_unit : esp_err_t * Z;
  gpio_config : esp_err_t;
  battery_env : BatteryMonitor.init_env;
  soil_env : SoilMoisture.init_env
}.

(** A function returns, or [ESP_ERROR_CHECK] aborts the program. *)
Inductive outcome (A : Type) :=
| Returns (a : A)
| Aborts.
Arguments Returns {A}.
Arguments Aborts {A}.

Definition with_store (s : Nvs.store) (sys : system) : system :=
  {| adc := adc sys; battery := battery sys; soil := soil sys; mqtt := mqtt sys;
     store := s; mqtt_topic_buffer := mqtt_topic_buffer sys;
     device_id_buffer := device_id_buffer sys |}.

Definition with_adc (a : AdcManager.state) (sys : system) : system :=
  {| adc := a; battery := battery sys; soil := soil sys; mqtt := mqtt sys;
     store := store sys; mqtt_topic_buffer := mqtt_topic_buffer sys;
     device_id_buffer := device_id_buffer sys |}.

Definition with_mqtt (m : MqttPublisher.state) (sys : system) : system :=
  {| adc := adc sys; battery := battery sys; soil := soil sys; mqtt := m;
     store := store sys; mqtt_topic_buffer := mqtt_topic_buffer sys;
     device_id_buffer := device_id_buffer sys |}.

(** Lines 103-108: [nvs_flash_init], with the erase and the second
    attempt when the partition has no free pages or a new version.
    [nvs_flash_erase] empties the store; its failure aborts. *)
Definition init_nvs (env : init_env) (sys : system) : outcome (esp_err_t * system) :=
  let ret := nvs_flash_init env in
  if (ret =? ESP_ERR_NVS_NO_FREE_PAGES) || (ret =? ESP_ERR_NVS_NEW_VERSION_FOUND) then
    if negb (nvs_flash_erase env =? ESP_OK) then Aborts
    else Returns (nvs_flash_init_again env, with_store ∅ sys)
  else Returns (ret, sys).

Definition init_system (env : init_env) (sys : system) : outcome (esp_err_t * system) :=
  match init_nvs env sys with
  | Aborts => Aborts
  | Returns (ret, sys) =>
      if negb (ret =? ESP_OK) then Returns (ret, sys)
      else
        let ret := esp_netif_init env in
        if negb (ret =? ESP_OK) then Returns (ret, sys)
        else
          let ret := esp_event_loop_create_default env in
          if negb (ret =? ESP_OK) then Returns (ret, sys)
          else
            let '(ret, adc1) :=
              AdcManager.adc_manager_init (adc_oneshot_new_unit env) (adc sys) in
            if negb (ret =? ESP_OK) then Returns (ret, with_adc adc1 sys)
            else
              let ret := FactoryReset.factory_reset_init (gpio_config env) in
              if negb (ret =? ESP_OK) then Returns (ret, with_adc adc1 sys)
              else
                let '(_, adc2, bat) :=
                  BatteryMonitor.battery_monitor_init (battery_env env) adc1 (battery sys) in
                let '(_, adc3, sm) :=
                  SoilMoisture.soil_moisture_init (soil_env env) adc2 (soil sys) in
                Returns (ESP_OK,
                         {| adc := adc3; battery := bat; soil := sm; mqtt := mqtt sys;
                            store := store sys;
                            mqtt_topic_buffer := mqtt_topic_buffer sys;
                            device_id_buffer := device_id_buffer sys |})
  end.

(** The answers [setup_wifi] gets.  [wifi_provisioning.c] and
    [wifi_manager.c] enter through their results: whether the access
    point and HTTP server start, whether the operator ever completes the
    form, the result of [wifi_manager_init_sta] and whether the station
    connects within the timeout. *)
Record wifi_env := {
  nvs_faults : Nvs.faults;
  wifi_provisioning_start : esp_err_t;
  provisioning_completes : bool;
  wifi_manager_init_sta : esp_err_t;
  wifi_manager_wait_connected : bool
}.

(** How a phase ends: it returns a code, restarts the chip, or waits for
    ever. *)
Inductive ending :=
| Returned (err : esp_err_t)
| Restarted
| Blocked.

Definition setup_wifi (env : wifi_env) (sys : system) : ending * system :=
  if negb (WifiCredentials.wifi_credentials_is_provisioned (nvs_faults env) (store sys)) then
    (* handle_provisioning *)
    if negb (wifi_provisioning_start env =? ESP_OK) then (Returned ESP_FAIL, sys)
    else if provisioning_completes env then (Restarted, sys)
    else (Blocked, sys)
  else
    let err := wifi_manager_init_sta env in
    if negb (err =? ESP_OK) then (Returned err, sys)
    else if negb (wifi_manager_wait_connected env) then
      (Restarted,
       with_store (snd (WifiCredentials.wifi_credentials_clear (nvs_faults env) (store sys))) sys)
    else (Returned ESP_OK, sys).

(** [snprintf] into a buffer of [size] bytes keeps [size - 1] of them. *)
Definition truncate (size : nat) (s : string) : string :=
  String.substring 0 (size - 1) s.

(** [topic_prefix] is [MQTT_TOPIC_PREFIX] of [mqtt_credentials.h]. *)
Definition setup_mqtt (f : Nvs.faults) (topic_prefix : string)
  (env : MqttPublisher.init_env) (sys : system) : esp_err_t * system :=
  let device_id :=
    match WifiCredentials.wifi_credentials_load_device_id f 33 (store sys) with
    | Some id => id
    | None => truncate 33 DEFAULT_DEVICE_ID
    end in
  let topic := truncate 128 (topic_prefix ++ device_id) in
  let '(err, m) := MqttPublisher.mqtt_publisher_init env (Some topic) (mqtt sys) in
  (err,
   {| adc := adc sys; battery := battery sys; soil := soil sys; mqtt := m;
      store := store sys; mqtt_topic_buffer := topic; device_id_buffer := device_id |}).

(** The wait loop of [publish_telemetry_once]: [events i] are the MQTT
    events handled during the [i]-th delay of 100 ms; [fuel] is
    [max_wait - wait_count]. *)
Fixpoint wait_mqtt (events : nat -> list Z) (wait_count fuel : nat)
  (m : MqttPublisher.state) : MqttPublisher.state :=
  match fuel with
  | O => m
  | S fuel' =>
      if MqttPublisher.mqtt_publisher_is_connected m then m
      else wait_mqtt events (S wait_count) fuel'
             (MqttPublisher.deliver (events wait_count) m)
  end.

Record publish_env := {
  mqtt_events : nat -> list Z;
  adc_driver : AdcDriver.env;
  client_env : MqttPublisher.publish_env
}.

Definition publish_telemetry_once (env : publish_env) (sys : system)
  : esp_err_t * system * option MqttPublisher.message :=
  let max_wait := Z.to_nat (MQTT_WAIT_MS / 100) in
  let m := wait_mqtt (mqtt_events env) 0 max_wait (mqtt sys) in
  let sys := with_mqtt m sys in
  if negb (MqttPublisher.mqtt_publisher_is_connected m) then (ESP_FAIL, sys, None)
  else
    let voltage :=
      BatteryMonitor.battery_monitor_read_voltage (adc_driver env) (adc sys) (battery sys) in
    let soil_moisture :=
      SoilMoisture.soil_moisture_read_percentage (adc_driver env) (adc sys) (soil sys) in
    let '(err, msg) :=
      MqttPublisher.mqtt_publisher_publish_telemetry (client_env env)
        voltage soil_moisture (device_id_buffer sys) m in
    if negb (err =? ESP_OK) then (ESP_FAIL, sys, msg)
    else (ESP_OK, sys, msg).

(** Everything a boot gets from outside. *)
Record boot_env := {
  init : init_env;
  wifi : wifi_env;
  topic_prefix : string;
  mqtt_init : MqttPublisher.init_env;
  publish : publish_env
}.

(** The phases a boot goes through, in order, and how it ends. *)
Inductive step :=
| InitSystem
| SetupWifi
| SetupMqtt
| PublishTelemetry (sent : option MqttPublisher.message)
| DeepSleep (seconds : Z)
| Restart
| Abort
| WaitForever.

Definition app_main (env : boot_env) (sys : system) : list step :=
  match init_system (init env) sys with
  | Aborts => [InitSystem; Abort]
  | Returns (err, sys) =>
      if negb (err =? ESP_OK) then [InitSystem; DeepSleep DEEP_SLEEP_INTERVAL_SEC]
      else
        match setup_wifi (wifi env) sys with
        | (Restarted, _) => [InitSystem; SetupWifi; Restart]
        | (Blocked, _) => [InitSystem; SetupWifi; WaitForever]
        | (Returned err, sys) =>
            if negb (err =? ESP_OK)
            then [InitSystem; SetupWifi; DeepSleep DEEP_SLEEP_INTERVAL_SEC]
            else
              let '(err, sys) :=
                setup_mqtt (nvs_faults (wifi env)) (topic_prefix env) (mqtt_init env) sys in
              if negb (err =? ESP_OK)
              then [InitSystem; SetupWifi; SetupMqtt; DeepSleep DEEP_SLEEP_INTERVAL_SEC]
              else
                let '(_, _, sent) := publish_telemetry_once (publish env) sys in
                [InitSystem; SetupWifi; SetupMqtt; PublishTelemetry sent;
                 DeepSleep DEEP_SLEEP_INTERVAL_SEC]
        end
  end.

(** The NVS partition comes up: at once, or after an erase. *)
Definition nvs_ok (env : init_env) : Prop :=
  nvs_flash_init env = ESP_OK \/
  ((nvs_flash_init env = ESP_ERR_NVS_NO_FREE_PAGES \/
    nvs_flash_init env = ESP_ERR_NVS_NEW_VERSION_FOUND) /\
   nvs_flash_erase env = ESP_OK /\ nvs_flash_init_again env = ESP_OK).

(** The erase is needed and fails. *)
Definition nvs_erase_fails (env : init_env) : Prop :=
  (nvs_flash_init env = ESP_ERR_NVS_NO_FREE_PAGES \/
   nvs_flash_init env = ESP_ERR_NVS_NEW_VERSION_FOUND) /\
  nvs_flash_erase env <> ESP_OK.

(** NVS, TCP/IP stack, event loop, ADC manager and reset button all
    initialise. *)
Definition critical_ok (env : init_env) : Prop :=
  nvs_ok env /\
  esp_netif_init env = ESP_OK /\
  esp_event_loop_create_default env = ESP_OK /\
  fst (adc_oneshot_new_unit env) = ESP_OK /\
  gpio_config env = ESP_OK.

(** The ADC manager as [battery_monitor_init] finds it on a boot. *)
Definition adc_after_manager (env : init_env) : AdcManager.state :=
  snd (AdcManager.adc_manager_init (adc_oneshot_new_unit env) AdcManager.boot_state).

(** The calls of the two sensor initialisers on a boot. *)
Definition battery_init_call (env : init_env) :=
  BatteryMonitor.battery_monitor_init (battery_env env) (adc_after_manager env)
    BatteryMonitor.boot_state.

Definition soil_init_call (env : init_env) :=
  SoilMoisture.soil_moisture_init (soil_env env) (snd (fst (battery_init_call env)))
    SoilMoisture.boot_state.

End Main.

(** ** Concrete inputs used to exercise the model *)

Module Examples.

(** The ADC manager after a successful [adc_manager_init]. *)
Definition adc_ready : AdcManager.state :=
  snd (AdcManager.adc_manager_init (ESP_OK, 1) AdcManager.boot_state).

(** Both sensors initialised, battery first, as [init_system] does. *)
Definition battery_ready : AdcManager.state * BatteryMonitor.state :=
  let '(_, adc, st) :=
    BatteryMonitor.battery_monitor_init
      (BatteryMonitor.Build_init_env ESP_OK (ESP_OK, 7)) adc_ready
      BatteryMonitor.boot_state in
  (adc, st).

Definition soil_ready : AdcManager.state * SoilMoisture.state :=
  let '(_, adc, st) :=
    SoilMoisture.soil_moisture_init
      (SoilMoisture.Build_init_env ESP_OK (ESP_OK, 9)) (fst battery_ready)
      SoilMoisture.boot_state in
  (adc, st).

(** Every read succeeds with raw value [raw]; calibration yields [mV]. *)
Definition env_steady (raw mV : Z) : AdcDriver.env :=
  {| AdcDriver.adc_oneshot_read := fun _ _ _ => (ESP_OK, raw);
     AdcDriver.adc_cali_raw_to_voltage := fun _ _ => (ESP_OK, mV) |}.

(** Every read fails. *)
Definition env_all_fail : AdcDriver.env :=
  {| AdcDriver.adc_oneshot_read := fun _ _ _ => (ESP_FAIL, 0);
     AdcDriver.adc_cali_raw_to_voltage := fun _ _ => (ESP_OK, 0) |}.

(** Reads alternate between failure and the raw values 2000, 2002, ... *)
Definition env_flaky : AdcDriver.env :=
  {| AdcDriver.adc_oneshot_read := fun _ _ i =>
       if Nat.even i then (ESP_FAIL, 0) else (ESP_OK, 2000 + Z.of_nat i);
     AdcDriver.adc_cali_raw_to_voltage := fun _ raw => (ESP_OK, raw - 150) |}.

(** A poll of the reset button at [ms] milliseconds after boot, with the
    GPIO at [level]. *)
Definition poll_at (level ms : Z) : FactoryReset.poll :=
  FactoryReset.Build_poll level (1000 * ms) (1000 * ms + 5).

(** A provisioned store. *)
Definition provisioned_store : Nvs.store :=
  snd (WifiCredentials.wifi_credentials_save Nvs.no_faults "home" "secret" ∅).

(** A form submitted with every field left empty. *)
Definition empty_form : WifiProvisioning.request :=
  {| WifiProvisioning.content_len := 26;
     WifiProvisioning.malloc_ok := true;
     WifiProvisioning.body := Some "ssid=&password=&device_id="%string |}.

Definition filled_form : WifiProvisioning.request :=
  {| WifiProvisioning.content_len := 46;
     WifiProvisioning.malloc_ok := true;
     WifiProvisioning.body := Some "ssid=my+net&password=p%40ss&device_id=sensor07"%string |}.

(** A boot on which the battery channel cannot be configured and the
    soil calibration scheme cannot be created; everything else works and
    the station connects. *)
Definition boot_sensors_fail : Main.boot_env :=
  {| Main.init :=
       {| Main.nvs_flash_init := ESP_OK;
          Main.nvs_flash_erase := ESP_OK;
          Main.nvs_flash_init_again := ESP_OK;
          Main.esp_netif_init := ESP_OK;
          Main.esp_event_loop_create_default := ESP_OK;
          Main.adc_oneshot_new_unit := (ESP_OK, 1);
          Main.gpio_config := ESP_OK;
          Main.battery_env := BatteryMonitor.Build_init_env ESP_FAIL (ESP_OK, 7);
          Main.soil_env := SoilMoisture.Build_init_env ESP_OK (ESP_ERR_NO_MEM, 0) |};
     Main.wifi :=
       {| Main.nvs_faults := Nvs.no_faults;
          Main.wifi_provisioning_start := ESP_OK;
          Main.provisioning_completes := true;
          Main.wifi_manager_init_sta := ESP_OK;
          Main.wifi_manager_wait_connected := true |};
     Main.topic_prefix := "sensors/"%string;
     Main.mqtt_init := MqttPublisher.Build_init_env 5 ESP_OK ESP_OK;
     Main.publish :=
       {| Main.mqtt_events := fun i => if Nat.eqb i 3 then [MqttPublisher.MQTT_EVENT_CONNECTED] else [];
          Main.adc_driver := env_steady 2300 1850;
          Main.client_env := MqttPublisher.Build_publish_env 60 1 |} |}.

(** Four calibration requests for four different channels. *)
Definition four_requests : list AdcManager.request :=
  map (fun c => AdcManager.Build_request c AdcDriver.ADC_ATTEN_DB_12 (Some NULL)
                  (ESP_OK, 100 + c))
      [0; 1; 2; 3].

End Examples.

(** ** wifi_manager.c *)

Module WifiManager.

(** Event bases are compared by address; any base other than the two the
    handler knows is [OTHER_EVENT]. *)
Inductive esp_event_base_t := WIFI_EVENT | IP_EVENT | OTHER_EVENT.

(** [wifi_event_t] and [ip_event_t] ([esp_wifi_types.h], [esp_netif_types.h]). *)
Definition WIFI_EVENT_STA_START : Z := 2.
Definition WIFI_EVENT_STA_DISCONNECTED : Z := 5.
Definition IP_EVENT_STA_GOT_IP : Z := 0.

Definition is_wifi (b : esp_event_base_t) : bool :=
  match b with WIFI_EVENT => true | _ => false end.

Definition is_ip (b : esp_event_base_t) : bool :=
  match b with IP_EVENT => true | _ => false end.

(** The static [wifi_connected], and the number of calls of
    [esp_wifi_connect] made so far. *)
Record state := {
  wifi_connected : bool;
  connect_calls : nat
}.

Definition boot_state : state := {| wifi_connected := false; connect_calls := 0 |}.

Definition wifi_event_handler (event_base : esp_event_base_t) (event_id : Z)
  (st : state) : state :=
  if is_wifi event_base && (event_id =? WIFI_EVENT_STA_START) then
    {| wifi_connected := wifi_connected st; connect_calls := S (connect_calls st) |}
  else if is_wifi event_base && (event_id =? WIFI_EVENT_STA_DISCONNECTED) then
    {| wifi_connected := false; connect_calls := S (connect_calls st) |}
  else if is_ip event_base && (event_id =? IP_EVENT_STA_GOT_IP) then
    {| wifi_connected := true; connect_calls := connect_calls st |}
  else st.

Definition deliver (events : list (esp_event_base_t * Z)) (st : state) : state :=
  fold_left (fun s e => wifi_event_handler (fst e) (snd e) s) events st.

Definition wifi_manager_is_connected (st : state) : bool := wifi_connected st.

(** The loop of [wifi_manager_wait_connected]: [events i] are the events
    handled during the [i]-th delay of one second; [fuel] is
    [timeout_sec - elapsed].  The result carries [elapsed] at exit. *)
Fixpoint wait_loop (events : nat -> list (esp_event_base_t * Z))
  (elapsed fuel : nat) (st : state) : nat * state :=
  match fuel with
  | O => (elapsed, st)
  | S fuel' =>
      if wifi_connected st then (elapsed, st)
      else wait_loop events (S elapsed) fuel' (deliver (events elapsed) st)
  end.

Definition wifi_manager_wait_connected (events : nat -> list (esp_event_base_t * Z))
  (timeout_sec : Z) (st : state) : bool * state :=
  let '(_, st') := wait_loop events 0 (Z.to_nat timeout_sec) st in
  (wifi_connected st', st').

(** The state after the events of the first [k] seconds. *)
Fixpoint after_seconds (events : nat -> list (esp_event_base_t * Z))
  (k : nat) (st : state) : state :=
  match k with
  | O => st
  | S k' => deliver (events k') (after_seconds events k' st)
  end.

(** The last event of a sequence that sets or clears the flag decides
    it: [Some true] for an address, [Some false] for a disconnect, [None]
    when the sequence has neither. *)
Fixpoint last_link_event (events : list (esp_event_base_t * Z)) : option bool :=
  match events with
  | [] => None
  | (b, id) :: rest =>
      match last_link_event rest with
      | Some v => Some v
      | None =>
          if is_wifi b && (id =? WIFI_EVENT_STA_DISCONNECTED) then Some false
          else if is_ip b && (id =? IP_EVENT_STA_GOT_IP) then Some true
          else None
      end
  end.

(** Events that make the handler call [esp_wifi_connect]. *)
Definition asks_connect (e : esp_event_base_t * Z) : bool :=
  is_wifi (fst e)
  && ((snd e =? WIFI_EVENT_STA_START) || (snd e =? WIFI_EVENT_STA_DISCONNECTED)).

(** Sizes of [wifi_config.sta.ssid] and [wifi_config.sta.password]
    ([esp_wifi_types.h]). *)
Definition STA_SSID_SIZE : nat := 32.
Definition STA_PASSWORD_SIZE : nat := 64.

(** [strncpy(dst, src, n)] into a zeroed buffer of more than [n] bytes,
    read back as a string. *)
Definition strncpy (n : nat) (src : string) : string := String.substring 0 n src.

(** Answers of the ESP-IDF calls of [wifi_manager_init_sta], in order. *)
Record init_env := {
  esp_wifi_init : esp_err_t;
  register_wifi_handler : esp_err_t;
  register_ip_handler : esp_err_t;
  esp_wifi_set_mode : esp_err_t;
  esp_wifi_set_config : esp_err_t;
  esp_wifi_start : esp_err_t
}.

Record sta_config := {
  sta_ssid : string;
  sta_password : string
}.

(** [wifi_manager_init_sta]: its result, and the station configuration
    when [esp_wifi_set_config] accepted one. *)
Definition wifi_manager_init_sta (env : init_env) (f : Nvs.faults) (s : Nvs.store)
  : esp_err_t * option sta_config :=
  if negb (esp_wifi_init env =? ESP_OK) then (esp_wifi_init env, None)
  else if negb (register_wifi_handler env =? ESP_OK) then (register_wifi_handler env, None)
  else if negb (register_ip_handler env =? ESP_OK) then (register_ip_handler env, None)
  else
    match WifiCredentials.wifi_credentials_load f 33 65 s with
    | None => (ESP_FAIL, None)
    | Some (ssid, password) =>
        let cfg := {| sta_ssid := strncpy (STA_SSID_SIZE - 1) ssid;
                      sta_password := strncpy (STA_PASSWORD_SIZE - 1) password |} in
        if negb (esp_wifi_set_mode env =? ESP_OK) then (esp_wifi_set_mode env, None)
        else if negb (esp_wifi_set_config env =? ESP_OK) then (esp_wifi_set_config env, None)
        else if negb (esp_wifi_start env =? ESP_OK) then (esp_wifi_start env, Some cfg)
        else (ESP_OK, Some cfg)
    end.

End WifiManager.

(** ** main.c: how a boot ends *)

Module Boot.

(** The steps after which nothing more runs. *)
Definition terminal (s : Main.step) : bool :=
  match s with
  | Main.DeepSleep _ | Main.Restart | Main.Abort | Main.WaitForever => true
  | _ => false
  end.

(** The reads of the store go through. *)
Definition reads_ok (f : Nvs.faults) : Prop :=
  f Nvs.Open = ESP_OK /\
  f (Nvs.GetStr WifiCredentials.NVS_KEY_SSID) = ESP_OK /\
  f (Nvs.GetStr WifiCredentials.NVS_KEY_PASSWORD) = ESP_OK /\
  f (Nvs.GetStr WifiCredentials.NVS_KEY_DEVICE_ID) = ESP_OK /\
  f (Nvs.GetU8 WifiCredentials.NVS_KEY_PROVISIONED) = ESP_OK.

End Boot.

(** ** Text helpers for the statements about form bodies and buffers *)

Module Text.

(** [c] occurs in [s]. *)
Fixpoint has_char (c : ascii) (s : string) : bool :=
  match s with
  | EmptyString => false
  | String d rest => Ascii.eqb d c || has_char c rest
  end.

(** The last byte of [s]. *)
Fixpoint last_char (s : string) : option ascii :=
  match s with
  | EmptyString => None
  | String c EmptyString => Some c
  | String _ rest => last_char rest
  end.

(** A form value that needs no escaping to pass [parse_form_fields]:
    it holds neither ['&'] nor ['=']. *)
Definition plain (s : string) : bool :=
  negb (has_char "&"%char s) && negb (has_char "="%char s).

(** The body a browser posts for three plain values. *)
Definition form_body (ssid password device_id : string) : string :=
  ("ssid=" ++ ssid ++ "&password=" ++ password ++ "&device_id=" ++ device_id)%string.

End Text.

(** ** NVS sessions with one failing call *)

Module Scenarios.

Definition password_write_fails : Nvs.faults :=
  fun c =>
    match c with
    | Nvs.SetStr key => if String.eqb key "password" then ESP_FAIL else ESP_OK
    | _ => ESP_OK
    end.

Definition device_id_write_fails : Nvs.faults :=
  fun c =>
    match c with
    | Nvs.SetStr key => if String.eqb key "device_id" then ESP_FAIL else ESP_OK
    | _ => ESP_OK
    end.

Definition open_fails : Nvs.faults :=
  fun c => match c with Nvs.Open => ESP_FAIL | _ => ESP_OK end.

(** The body of [Examples.filled_form] with a content length one short
    of its 46 bytes. *)
Definition short_declared_form : WifiProvisioning.request :=
  {| WifiProvisioning.content_len := 45;
     WifiProvisioning.malloc_ok := true;
     WifiProvisioning.body := Some "ssid=my+net&password=p%40ss&device_id=sensor07"%string |}.

(** A body whose device id is too long for its buffer, declared with a
    content length that cuts it to twelve bytes. *)
Definition cut_device_id_form : WifiProvisioning.request :=
  {| WifiProvisioning.content_len := 40;
     WifiProvisioning.malloc_ok := true;
     WifiProvisioning.body :=
       Some "ssid=a&password=b&device_id=xxxxxxxxxxxxxxxxxxxxxxxxxxxxxxxxxxxxxxxx"%string |}.

(** A content length above [INT_MAX]. *)
Definition huge_declared_form : WifiProvisioning.request :=
  {| WifiProvisioning.content_len := 2147483694;
     WifiProvisioning.malloc_ok := true;
     WifiProvisioning.body := Some "ssid=my+net&password=p%40ss&device_id=sensor07"%string |}.

(** An SSID of 32 bytes, the longest the form accepts. *)
Definition long_ssid : string := "0123456789abcdef0123456789abcdef".

Definition long_ssid_store : Nvs.store :=
  snd (WifiCredentials.wifi_credentials_save Nvs.no_faults long_ssid "secret" ∅).

(** Every ESP-IDF call of [wifi_manager_init_sta] goes through. *)
Definition wifi_init_ok : WifiManager.init_env :=
  {| WifiManager.esp_wifi_init := ESP_OK;
     WifiManager.register_wifi_handler := ESP_OK;
     WifiManager.register_ip_handler := ESP_OK;
     WifiManager.esp_wifi_set_mode := ESP_OK;
     WifiManager.esp_wifi_set_config := ESP_OK;
     WifiManager.esp_wifi_start := ESP_OK |}.


(** A poll of the reset button that reads it released. *)
Definition released_at (ms : Z) : FactoryReset.poll :=
  FactoryReset.Build_poll 1 (1000 * ms) (1000 * ms + 5).

End Scenarios.
(** * Properties *)

(** ** Bounded universal checks over integer ranges *)

Lemma Zall_from_spec (p : Z -> bool) (n : nat) :
  forall lo, Zall_from p lo n = true ->
  forall v, lo <= v < lo + Z.of_nat n -> p v = true.
Proof.
  induction n as [|k IH]; intros lo Hall v Hv.
  - lia.
  - cbn [Zall_from] in Hall. apply andb_true_iff in Hall as [Hlo Hrest].
    destruct (Z.eq_dec v lo) as [->|Hne]; [exact Hlo|].
    apply (IH (lo + 1) Hrest). lia.
Qed.

(** ** The moisture transform *)

Section MoistureTransform.

Import SoilMoisture.

Lemma percentage_of_mV_dry (v : Z) :
  SENSOR_DRY_MV <= v -> percentage_of_mV v = F32.zero.
Proof.
  intros Hv. unfold percentage_of_mV.
  replace (v >=? SENSOR_DRY_MV) with true
    by (symmetry; rewrite Z.geb_leb; apply Z.leb_le; exact Hv).
  reflexivity.
Qed.

Lemma percentage_of_mV_wet (v : Z) :
  v <= SENSOR_WET_MV -> percentage_of_mV v = F32.of_int 100.
Proof.
  intros Hv. unfold percentage_of_mV.
  replace (v >=? SENSOR_DRY_MV) with false
    by (symmetry; rewrite Z.geb_leb; apply Z.leb_gt;
        unfold SENSOR_DRY_MV, SENSOR_WET_MV in *; lia).
  replace (v <=? SENSOR_WET_MV) with true by (symmetry; apply Z.leb_le; exact Hv).
  reflexivity.
Qed.

Lemma mid_ok_all (v : Z) :
  SENSOR_WET_MV < v < SENSOR_DRY_MV -> mid_ok v = true.
Proof.
  intros Hv. apply (Zall_from_spec mid_ok 2098 852).
  - vm_compute. reflexivity.
  - unfold SENSOR_DRY_MV, SENSOR_WET_MV in Hv. lia.
Qed.

Lemma percentage_of_mV_mid (v : Z) :
  SENSOR_WET_MV < v < SENSOR_DRY_MV -> percentage_of_mV v = interpolated v.
Proof.
  intros Hv. pose proof (mid_ok_all v Hv) as Hok.
  unfold mid_ok in Hok. repeat (apply andb_true_iff in Hok as [Hok ?]).
  unfold percentage_of_mV.
  replace (v >=? SENSOR_DRY_MV) with false
    by (symmetry; rewrite Z.geb_leb; apply Z.leb_gt; lia).
  replace (v <=? SENSOR_WET_MV) with false by (symmetry; apply Z.leb_gt; lia).
  fold (interpolated v).
  apply negb_true_iff in Hok. rewrite Hok.
  match goal with H : negb _ = true |- _ => apply negb_true_iff in H; rewrite H end.
  reflexivity.
Qed.


(** Every result is a finite float between 0 and 100. *)
Lemma percentage_of_mV_range (v : Z) :
  F32.is_finite (percentage_of_mV v) = true /\
  (0 <= F32.to_Q (percentage_of_mV v) <= 100)%Q.
Proof.
  destruct (Z_le_gt_dec SENSOR_DRY_MV v) as [Hd|Hd].
  - rewrite (percentage_of_mV_dry v Hd). vm_compute. intuition discriminate.
  - destruct (Z_le_gt_dec v SENSOR_WET_MV) as [Hw|Hw].
    + rewrite (percentage_of_mV_wet v Hw). vm_compute. intuition discriminate.
    + assert (Hv : SENSOR_WET_MV < v < SENSOR_DRY_MV) by lia.
      rewrite (percentage_of_mV_mid v Hv).
      pose proof (mid_ok_all v Hv) as Hok.
      unfold mid_ok in Hok. repeat (apply andb_true_iff in Hok as [Hok ?]).
      repeat split; try assumption; apply Qle_bool_iff; assumption.
Qed.

Lemma percentage_of_mV_step (v : Z) :
  (F32.to_Q (percentage_of_mV (v + 1)) <= F32.to_Q (percentage_of_mV v))%Q.
Proof.
  destruct (Z_le_gt_dec SENSOR_DRY_MV v) as [Hd|Hd].
  - rewrite (percentage_of_mV_dry v Hd), (percentage_of_mV_dry (v + 1)) by lia.
    apply Qle_refl.
  - destruct (Z_lt_ge_dec v SENSOR_WET_MV) as [Hw|Hw].
    + rewrite (percentage_of_mV_wet v), (percentage_of_mV_wet (v + 1)) by lia.
      apply Qle_refl.
    + apply Qle_bool_iff. change (step_ok v = true).
      apply (Zall_from_spec step_ok 2099 851).
      * vm_compute. reflexivity.
      * unfold SENSOR_DRY_MV, SENSOR_WET_MV in *. lia.
Qed.

Lemma percentage_of_mV_antitone (v1 v2 : Z) :
  v1 <= v2 ->
  (F32.to_Q (percentage_of_mV v2) <= F32.to_Q (percentage_of_mV v1))%Q.
Proof.
  intros Hle. replace v2 with (v1 + Z.of_nat (Z.to_nat (v2 - v1))) by lia.
  generalize (Z.to_nat (v2 - v1)) as n. clear v2 Hle.
  induction n as [|n IH].
  - rewrite Z.add_0_r. apply Qle_refl.
  - replace (v1 + Z.of_nat (S n)) with (v1 + Z.of_nat n + 1) by lia.
    eapply Qle_trans; [apply percentage_of_mV_step | exact IH].
Qed.

End MoistureTransform.

(** ** Reading the moisture percentage *)

Section ReadPercentage.

Import SoilMoisture.

Lemma read_percentage_unfold env adc st :
  initialized st = true ->
  soil_moisture_read_percentage env adc st
  = percentage_of_mV (mV_of_voltage (soil_moisture_read_voltage env adc st)).
Proof. intros Hi. unfold soil_moisture_read_percentage. rewrite Hi. reflexivity. Qed.









(** The millivolt value recomputed on line 255 from the float voltage is
    the calibrated value or one less, for every 12-bit reading. *)
Lemma mV_of_voltage_round_trip (m : Z) :
  0 <= m < 4096 ->
  let m' := mV_of_voltage (F32.div (F32.of_int m) (F32.of_int 1000)) in
  m' = m \/ m' = m - 1.
Proof.
  intros Hm m'. subst m'.
  assert (H : round_trip_ok m = true).
  { apply (Zall_from_spec round_trip_ok 4096 0); [vm_compute; reflexivity | lia]. }
  unfold round_trip_ok in H. apply orb_true_iff in H as [H|H];
    apply Z.eqb_eq in H; auto.
Qed.

Example mV_of_voltage_2001 :
  mV_of_voltage (F32.div (F32.of_int 2001) (F32.of_int 1000)) = 2000.
Proof. vm_compute. reflexivity. Qed.

(** End to end: for a calibrated reading of [m] millivolts the percentage
    is the one the rule gives for [m] or for [m - 1]. *)
Lemma read_percentage_of_calibrated
  (env : AdcDriver.env) (adc : AdcManager.state) (st : state) (avg_raw m : Z) :
  initialized st = true ->
  non_null (AdcManager.adc_manager_get_handle adc) = true ->
  Sampling.average_raw
    (AdcDriver.adc_oneshot_read env (AdcManager.adc_manager_get_handle adc) SOIL_ADC_CHAN)
    SAMPLE_COUNT = Some avg_raw ->
  AdcDriver.adc_cali_raw_to_voltage env (cali_handle st) avg_raw = (ESP_OK, m) ->
  0 <= m < 4096 ->
  soil_moisture_read_percentage env adc st = percentage_of_mV m \/
  soil_moisture_read_percentage env adc st = percentage_of_mV (m - 1).
Proof.
  intros Hi Hh Havg Hcali Hm.
  rewrite (read_percentage_unfold env adc st Hi).
  unfold soil_moisture_read_voltage, voltage_of_raw.
  rewrite Hi, Hh. cbn [negb]. rewrite Havg, Hcali. cbn [Z.eqb ESP_OK negb].
  destruct (mV_of_voltage_round_trip m Hm) as [-> | ->]; auto.
Qed.

(** C7: the transform is non-increasing in the voltage, exactly 0 at
    [SENSOR_DRY_MV] and exactly 100 at [SENSOR_WET_MV], and every
    percentage, whatever the voltage and whatever the state of the
    sensor, is a finite float between 0 and 100. *)
Theorem moisture_transform_monotone_clamped :
  (forall v1 v2 : Z, v1 < v2 ->
     (F32.to_Q (percentage_of_mV v2) <= F32.to_Q (percentage_of_mV v1))%Q) /\
  percentage_of_mV SENSOR_DRY_MV = F32.zero /\
  percentage_of_mV SENSOR_WET_MV = F32.of_int 100 /\
  Qeq (F32.to_Q (F32.of_int 100)) 100 /\
  (forall v : Z,
     F32.is_finite (percentage_of_mV v) = true /\
     (0 <= F32.to_Q (percentage_of_mV v) <= 100)%Q) /\
  (forall env adc st,
     F32.is_finite (soil_moisture_read_percentage env adc st) = true /\
     (0 <= F32.to_Q (soil_moisture_read_percentage env adc st) <= 100)%Q).
Proof.
  split; [|split; [|split; [|split; [|split]]]].
  - intros v1 v2 Hlt. apply percentage_of_mV_antitone. lia.
  - reflexivity.
  - reflexivity.
  - reflexivity.
  - apply percentage_of_mV_range.
  - intros env adc st. unfold soil_moisture_read_percentage.
    destruct (initialized st); cbn [negb].
    + apply percentage_of_mV_range.
    + vm_compute. intuition discriminate.
Qed.

Lemma moisture_transform_monotone_clamped_witness :
  (F32.to_Q (percentage_of_mV 2000) <= F32.to_Q (percentage_of_mV 1000))%Q.
Proof.
  apply (proj1 moisture_transform_monotone_clamped 1000 2000). lia.
Defined.

End ReadPercentage.

(** ** The sampling loop *)

Section SamplingFacts.

Import Sampling.

Lemma u32_idem (z : Z) : u32 (u32 z) = u32 z.
Proof. unfold u32. apply Z.mod_mod. lia. Qed.

Lemma u32_add_l (a b : Z) : u32 (u32 a + b) = u32 (a + b).
Proof. unfold u32. apply Zplus_mod_idemp_l. Qed.

Lemma u32_small (z : Z) : 0 <= z < 2 ^ 32 -> u32 z = z.
Proof. intros H. unfold u32. apply Z.mod_small. exact H. Qed.

Lemma i32_small (z : Z) : 0 <= z < 2 ^ 31 -> i32 z = z.
Proof. intros H. unfold i32. rewrite Z.mod_small; lia. Qed.

(** The loop adds up exactly the values of the successful reads, modulo
    [2^32], and counts them. *)
Lemma sample_loop_spec (read : nat -> esp_err_t * Z) (n : nat) :
  forall (i : nat) (s k : Z),
    u32 s = s ->
    sample_loop read i n s k
    = (u32 (s + sum_list (valid_values read i n)),
       k + Z.of_nat (length (valid_values read i n))).
Proof.
  induction n as [|n IH]; intros i s k Hs; cbn [sample_loop valid_values].
  - cbn. rewrite Z.add_0_r, Hs, Z.add_0_r. reflexivity.
  - destruct (read i) as [err raw_value]. cbn [fst snd].
    destruct (err =? ESP_OK).
    + rewrite IH by apply u32_idem. rewrite u32_add_l.
      unfold sum_list. cbn [fold_right length].
      apply f_equal2; [apply (f_equal u32)|]; lia.
    + apply IH. exact Hs.
Qed.

Lemma valid_values_length (read : nat -> esp_err_t * Z) (n : nat) :
  forall i, (length (valid_values read i n) <= n)%nat.
Proof.
  induction n as [|n IH]; intros i; cbn [valid_values]; [cbn; lia|].
  destruct (fst (read i) =? ESP_OK); cbn [length]; specialize (IH (S i)); lia.
Qed.

Lemma sum_list_bounds (l : list Z) :
  Forall (fun r => 0 <= r < 2 ^ 31) l ->
  0 <= sum_list l <= Z.of_nat (length l) * (2 ^ 31 - 1).
Proof.
  induction 1 as [|r l Hr _ IH]; cbn [sum_list fold_right length].
  - lia.
  - fold (sum_list l). lia.
Qed.

Lemma average_raw_spec (read : nat -> esp_err_t * Z) (n : nat) :
  average_raw read n
  = let valid := valid_values read 0 n in
    if Z.of_nat (length valid) =? 0 then None
    else Some (i32 (u32 (sum_list valid) / u32 (Z.of_nat (length valid)))).
Proof.
  unfold average_raw. rewrite sample_loop_spec by reflexivity.
  rewrite !Z.add_0_l. reflexivity.
Qed.

Lemma average_raw_none (read : nat -> esp_err_t * Z) (n : nat) :
  valid_values read 0 n = [] -> average_raw read n = None.
Proof. intros H. rewrite average_raw_spec, H. reflexivity. Qed.

Lemma average_raw_mean (read : nat -> esp_err_t * Z) (n : nat) :
  let valid := valid_values read 0 n in
  Z.of_nat n < 2 ^ 31 ->
  (1 <= length valid)%nat ->
  no_overflow valid ->
  average_raw read n = Some (sum_list valid / Z.of_nat (length valid)).
Proof.
  intros valid Hn Hk [Hpos Hsum]. rewrite average_raw_spec. cbv zeta. fold valid.
  pose proof (valid_values_length read n 0) as Hlen. fold valid in Hlen.
  pose proof (sum_list_bounds valid Hpos) as Hb.
  destruct (Z.eqb_spec (Z.of_nat (length valid)) 0) as [H0|_]; [lia|].
  rewrite (u32_small (sum_list valid)) by lia.
  rewrite (u32_small (Z.of_nat (length valid))) by lia.
  rewrite i32_small; [reflexivity|]. split.
  - apply Z.div_pos; lia.
  - apply Z.div_lt_upper_bound; nia.
Qed.

(** C8: with at least one valid read, the raw average is the integer mean
    of exactly the valid raw samples (their sum divided by their number;
    failed reads enter neither), for every sample count, and this is the
    value both the battery and the soil-moisture pipeline calibrate.  Raw
    samples are non-negative and their sum fits [uint32_t]. *)
Theorem average_of_valid_samples :
  (forall (read : nat -> esp_err_t * Z) (N : nat),
     let valid := valid_values read 0 N in
     Z.of_nat N < 2 ^ 31 -> (1 <= length valid)%nat -> no_overflow valid ->
     average_raw read N = Some (sum_list valid / Z.of_nat (length valid))) /\
  (forall env adc st,
     let read := AdcDriver.adc_oneshot_read env
                   (AdcManager.adc_manager_get_handle adc)
                   BatteryMonitor.BAT_ADC_CHAN in
     let valid := valid_values read 0 BatteryMonitor.SAMPLE_COUNT in
     BatteryMonitor.initialized st = true ->
     non_null (AdcManager.adc_manager_get_handle adc) = true ->
     (1 <= length valid)%nat -> no_overflow valid ->
     BatteryMonitor.battery_monitor_read_voltage env adc st
     = BatteryMonitor.voltage_of_raw env st
         (sum_list valid / Z.of_nat (length valid))) /\
  (forall env adc st,
     let read := AdcDriver.adc_oneshot_read env
                   (AdcManager.adc_manager_get_handle adc)
                   SoilMoisture.SOIL_ADC_CHAN in
     let valid := valid_values read 0 SoilMoisture.SAMPLE_COUNT in
     SoilMoisture.initialized st = true ->
     non_null (AdcManager.adc_manager_get_handle adc) = true ->
     (1 <= length valid)%nat -> no_overflow valid ->
     SoilMoisture.soil_moisture_read_voltage env adc st
     = SoilMoisture.voltage_of_raw env st
         (sum_list valid / Z.of_nat (length valid))).
Proof.
  split; [|split].
  - intros read N. apply average_raw_mean.
  - intros env adc st read valid Hi Hh Hk Hno.
    unfold BatteryMonitor.battery_monitor_read_voltage.
    rewrite Hi, Hh. cbn [negb]. fold read.
    rewrite (average_raw_mean read BatteryMonitor.SAMPLE_COUNT); auto.
    vm_compute. reflexivity.
  - intros env adc st read valid Hi Hh Hk Hno.
    unfold SoilMoisture.soil_moisture_read_voltage.
    rewrite Hi, Hh. cbn [negb]. fold read.
    rewrite (average_raw_mean read SoilMoisture.SAMPLE_COUNT); auto.
    vm_compute. reflexivity.
Qed.

Lemma average_of_valid_samples_witness :
  average_raw (AdcDriver.adc_oneshot_read Examples.env_flaky 1 1) 10 = Some 2005
  /\ SoilMoisture.soil_moisture_read_voltage Examples.env_flaky
       (fst Examples.soil_ready) (snd Examples.soil_ready)
     = SoilMoisture.voltage_of_raw Examples.env_flaky (snd Examples.soil_ready) 2005.
Proof.
  split.
  - apply (proj1 average_of_valid_samples
             (AdcDriver.adc_oneshot_read Examples.env_flaky 1 1) 10%nat).
    + vm_compute. reflexivity.
    + vm_compute. lia.
    + split; [repeat constructor; vm_compute; intuition discriminate
             | vm_compute; reflexivity].
  - apply (proj2 (proj2 average_of_valid_samples) Examples.env_flaky
             (fst Examples.soil_ready) (snd Examples.soil_ready)).
    + reflexivity.
    + reflexivity.
    + vm_compute. lia.
    + split; [repeat constructor; vm_compute; intuition discriminate
             | vm_compute; reflexivity].
Defined.

(** Outside that range the unsigned sum wraps: two reads of [-1] average
    to [INT_MAX]. *)
Example average_raw_negative_wraps :
  average_raw (fun _ => (ESP_OK, -1)) 2 = Some 2147483647.
Proof. vm_compute. reflexivity. Qed.

End SamplingFacts.

(** ** Total read failure *)

Section TotalFailure.

Import Sampling.

Lemma battery_read_all_fail
  (env : AdcDriver.env) (adc : AdcManager.state) (bat : BatteryMonitor.state) :
  valid_values (AdcDriver.adc_oneshot_read env (AdcManager.adc_manager_get_handle adc)
                  BatteryMonitor.BAT_ADC_CHAN) 0 BatteryMonitor.SAMPLE_COUNT = [] ->
  BatteryMonitor.battery_monitor_read_voltage env adc bat = F32.zero.
Proof.
  intros Hfail. unfold BatteryMonitor.battery_monitor_read_voltage.
  destruct (BatteryMonitor.initialized bat); [|reflexivity].
  destruct (non_null (AdcManager.adc_manager_get_handle adc)); [|reflexivity].
  cbn [negb]. rewrite (average_raw_none _ _ Hfail). reflexivity.
Qed.

Lemma soil_read_all_fail
  (env : AdcDriver.env) (adc : AdcManager.state) (soil : SoilMoisture.state) :
  valid_values (AdcDriver.adc_oneshot_read env (AdcManager.adc_manager_get_handle adc)
                  SoilMoisture.SOIL_ADC_CHAN) 0 SoilMoisture.SAMPLE_COUNT = [] ->
  SoilMoisture.soil_moisture_read_voltage env adc soil = F32.zero.
Proof.
  intros Hfail. unfold SoilMoisture.soil_moisture_read_voltage.
  destruct (SoilMoisture.initialized soil); [|reflexivity].
  destruct (non_null (AdcManager.adc_manager_get_handle adc)); [|reflexivity].
  cbn [negb]. rewrite (average_raw_none _ _ Hfail). reflexivity.
Qed.

(** C3, as the code has it: when every sample read of a call fails, the
    voltage read of either pipeline returns the float [0.0]; there is no
    error code beside it, and the same [0.0] comes back from a reading
    whose samples are all valid and calibrate to 0 mV. *)
Theorem total_read_failure_reports_zero
  (env : AdcDriver.env) (adc : AdcManager.state)
  (bat : BatteryMonitor.state) (soil : SoilMoisture.state) :
  (valid_values (AdcDriver.adc_oneshot_read env (AdcManager.adc_manager_get_handle adc)
                   BatteryMonitor.BAT_ADC_CHAN) 0 BatteryMonitor.SAMPLE_COUNT = [] ->
   BatteryMonitor.battery_monitor_read_voltage env adc bat = F32.zero) /\
  (valid_values (AdcDriver.adc_oneshot_read env (AdcManager.adc_manager_get_handle adc)
                   SoilMoisture.SOIL_ADC_CHAN) 0 SoilMoisture.SAMPLE_COUNT = [] ->
   SoilMoisture.soil_moisture_read_voltage env adc soil = F32.zero) /\
  BatteryMonitor.battery_monitor_read_voltage (Examples.env_steady 0 0) adc bat = F32.zero /\
  SoilMoisture.soil_moisture_read_voltage (Examples.env_steady 0 0) adc soil = F32.zero.
Proof.
  split; [|split; [|split]].
  - apply battery_read_all_fail.
  - apply soil_read_all_fail.
  - unfold BatteryMonitor.battery_monitor_read_voltage.
    destruct (BatteryMonitor.initialized bat); [|reflexivity].
    destruct (non_null (AdcManager.adc_manager_get_handle adc)); [|reflexivity].
    vm_compute. reflexivity.
  - unfold SoilMoisture.soil_moisture_read_voltage.
    destruct (SoilMoisture.initialized soil); [|reflexivity].
    destruct (non_null (AdcManager.adc_manager_get_handle adc)); [|reflexivity].
    vm_compute. reflexivity.
Qed.

Lemma total_read_failure_reports_zero_witness :
  BatteryMonitor.battery_monitor_read_voltage Examples.env_all_fail
    (fst Examples.soil_ready) (snd Examples.battery_ready) = F32.zero
  /\ SoilMoisture.soil_moisture_read_voltage Examples.env_all_fail
       (fst Examples.soil_ready) (snd Examples.soil_ready) = F32.zero.
Proof.
  pose proof (total_read_failure_reports_zero Examples.env_all_fail
                (fst Examples.soil_ready) (snd Examples.battery_ready)
                (snd Examples.soil_ready)) as (Hb & Hs & _).
  split; [apply Hb | apply Hs]; vm_compute; reflexivity.
Defined.

(** Against C3 as stated: the value returned on total failure is the
    value of a legitimate reading of 0 mV, so the caller cannot tell the
    two apart, in either pipeline. *)
Lemma total_failure_not_distinguishable :
  ~ failure_distinguishable
      (fun e => SoilMoisture.soil_moisture_read_voltage e
                  (fst Examples.soil_ready) (snd Examples.soil_ready))
      (fun e => AdcDriver.adc_oneshot_read e
                  (AdcManager.adc_manager_get_handle (fst Examples.soil_ready))
                  SoilMoisture.SOIL_ADC_CHAN)
      SoilMoisture.SAMPLE_COUNT
  /\ ~ failure_distinguishable
      (fun e => BatteryMonitor.battery_monitor_read_voltage e
                  (fst Examples.soil_ready) (snd Examples.battery_ready))
      (fun e => AdcDriver.adc_oneshot_read e
                  (AdcManager.adc_manager_get_handle (fst Examples.soil_ready))
                  BatteryMonitor.BAT_ADC_CHAN)
      BatteryMonitor.SAMPLE_COUNT.
Proof.
  split; intros H;
    apply (H Examples.env_all_fail (Examples.env_steady 0 0));
    vm_compute; congruence.
Qed.

(** On total failure the percentage read sees 0 mV, below
    [SENSOR_WET_MV], and reports 100. *)
Lemma soil_percentage_on_total_failure
  (env : AdcDriver.env) (adc : AdcManager.state) (soil : SoilMoisture.state) :
  SoilMoisture.initialized soil = true ->
  valid_values (AdcDriver.adc_oneshot_read env (AdcManager.adc_manager_get_handle adc)
                  SoilMoisture.SOIL_ADC_CHAN) 0 SoilMoisture.SAMPLE_COUNT = [] ->
  SoilMoisture.soil_moisture_read_percentage env adc soil = F32.of_int 100.
Proof.
  intros Hi Hfail. rewrite (read_percentage_unfold env adc soil Hi).
  rewrite (soil_read_all_fail env adc soil Hfail).
  reflexivity.
Qed.

End TotalFailure.

(** ** The calibration registry *)

Section Registry.

Import AdcManager.

Lemma entry_matches_true (c : adc_channel_t) (a : adc_atten_t) (e : cali_entry_t) :
  entry_matches c a e = true <-> in_use e = true /\ channel e = c /\ atten e = a.
Proof.
  unfold entry_matches. rewrite !andb_true_iff, !Z.eqb_eq. tauto.
Qed.

Lemma non_null_true (p : Z) : non_null p = true <-> p <> NULL.
Proof.
  unfold non_null. rewrite negb_true_iff, Z.eqb_neq. tauto.
Qed.

(** The scan returns the handle of the first matching slot. *)
Lemma get_cali_scan_first (c : adc_channel_t) (a : adc_atten_t)
  (slots : list cali_entry_t) :
  forall (i : nat) (e : cali_entry_t),
    slots !! i = Some e -> entry_matches c a e = true ->
    (forall (j : nat) (ej : cali_entry_t),
       (j < i)%nat -> slots !! j = Some ej -> entry_matches c a ej = false) ->
    get_cali_scan c a slots = handle e.
Proof.
  induction slots as [|e0 rest IH]; intros i e Hi Hm Hbefore.
  - discriminate Hi.
  - cbn [get_cali_scan]. destruct i as [|i].
    + injection Hi as ->. rewrite Hm. reflexivity.
    + rewrite (Hbefore 0%nat e0) by (reflexivity || lia).
      apply (IH i e Hi Hm). intros j ej Hj Hlook.
      apply (Hbefore (S j) ej); [lia | exact Hlook].
Qed.

Lemma get_cali_scan_absent (c : adc_channel_t) (a : adc_atten_t)
  (slots : list cali_entry_t) :
  (forall (i : nat) (e : cali_entry_t),
     slots !! i = Some e -> entry_matches c a e = false) ->
  get_cali_scan c a slots = NULL.
Proof.
  induction slots as [|e0 rest IH]; intros Hnone; [reflexivity|].
  cbn [get_cali_scan]. rewrite (Hnone 0%nat e0) by reflexivity.
  apply IH. intros i e Hi. apply (Hnone (S i) e Hi).
Qed.

(** A [NULL] result of the scan over live slots means no slot matches. *)
Lemma get_cali_scan_null (c : adc_channel_t) (a : adc_atten_t)
  (slots : list cali_entry_t) :
  handles_live slots -> get_cali_scan c a slots = NULL ->
  forall (i : nat) (e : cali_entry_t),
    slots !! i = Some e -> entry_matches c a e = false.
Proof.
  induction slots as [|e0 rest IH]; intros Hlive Hscan i e Hi.
  - discriminate Hi.
  - cbn [get_cali_scan] in Hscan.
    destruct (entry_matches c a e0) eqn:Hm0.
    + exfalso. apply entry_matches_true in Hm0 as (Hu & _ & _).
      exact (Hlive 0%nat e0 eq_refl Hu Hscan).
    + destruct i as [|i].
      * injection Hi as <-. exact Hm0.
      * apply (IH (fun j ej => Hlive (S j) ej) Hscan i e Hi).
Qed.

Lemma find_free_slot_full (slots : list cali_entry_t) :
  forall i0 : Z,
    (forall (i : nat) (e : cali_entry_t), slots !! i = Some e -> in_use e = true) ->
    find_free_slot i0 slots = -1.
Proof.
  induction slots as [|e0 rest IH]; intros i0 Hfull; [reflexivity|].
  cbn [find_free_slot]. rewrite (Hfull 0%nat e0) by reflexivity. cbn [negb].
  apply IH. intros i e Hi. apply (Hfull (S i) e Hi).
Qed.

(** A result other than [-1] is the index of a slot not in use. *)
Lemma find_free_slot_found (slots : list cali_entry_t) :
  forall i0 : Z,
    0 <= i0 -> find_free_slot i0 slots <> -1 ->
    exists (k : nat) (e : cali_entry_t),
      find_free_slot i0 slots = i0 + Z.of_nat k /\
      slots !! k = Some e /\ in_use e = false.
Proof.
  induction slots as [|e0 rest IH]; intros i0 Hi0 Hfound.
  - contradiction Hfound. reflexivity.
  - cbn [find_free_slot] in *. destruct (in_use e0) eqn:Hu; cbn [negb] in *.
    + destruct (IH (i0 + 1) ltac:(lia) Hfound) as (k & e & Hk & Hlook & Hfree).
      exists (S k), e. repeat split; [lia | exact Hlook | exact Hfree].
    + exists 0%nat, e0. repeat split; [lia | exact Hu].
Qed.

Lemma boot_state_inv : registry_inv boot_state.
Proof.
  split; [reflexivity|]. split.
  - intros i j ei ej Hi Hj Hui _ _ _. exfalso.
    change (replicate MAX_CALI_HANDLES zero_entry !! i = Some ei) in Hi.
    apply lookup_replicate in Hi as [-> _]. discriminate Hui.
  - intros i e Hi Hu. exfalso.
    change (replicate MAX_CALI_HANDLES zero_entry !! i = Some e) in Hi.
    apply lookup_replicate in Hi as [-> _]. discriminate Hu.
Qed.

(** Shape of a call that stores a new entry. *)
Lemma create_cali_cases (c : adc_channel_t) (a : adc_atten_t)
  (out : option adc_cali_handle_t) (scheme : esp_err_t * adc_cali_handle_t)
  (st : state) :
  snd (adc_manager_create_cali c a out scheme st) = st \/
  exists (k : nat) (e0 : cali_entry_t),
    cali_handles st !! k = Some e0 /\ in_use e0 = false /\
    get_cali_scan c a (cali_handles st) = NULL /\
    fst scheme = ESP_OK /\
    snd (adc_manager_create_cali c a out scheme st)
    = {| adc_handle := adc_handle st; initialized := initialized st;
         cali_handles := <[k := Build_cali_entry_t c a (snd scheme) true]> (cali_handles st) |}.
Proof.
  unfold adc_manager_create_cali, adc_manager_get_cali_handle.
  destruct out as [v|]; [|left; reflexivity].
  destruct (non_null (get_cali_scan c a (cali_handles st))) eqn:Hex;
    [left; reflexivity|].
  destruct (Z.eqb_spec (find_free_slot 0 (cali_handles st)) (-1)) as [Hfull|Hfree];
    [left; reflexivity|].
  destruct scheme as [err h]. cbn [fst snd].
  destruct (Z.eqb_spec err ESP_OK) as [->|Herr]; cbn [negb]; [|left; reflexivity].
  right.
  destruct (find_free_slot_found (cali_handles st) 0 ltac:(lia) Hfree)
    as (k & e0 & Hk & Hlook & Hu).
  exists k, e0. rewrite Hk, Z.add_0_l, Nat2Z.id.
  repeat split; try assumption.
  unfold non_null in Hex. apply negb_false_iff, Z.eqb_eq in Hex. exact Hex.
Qed.

Lemma serve_entries_kept (st : state) (r : request) :
  entries_kept st (serve st r).
Proof.
  unfold serve.
  destruct (create_cali_cases (req_channel r) (req_atten r) (req_out r)
              (req_scheme r) st) as [->|(k & e0 & Hk & Hfree & _ & _ & ->)].
  - intros i e Hi _. exact Hi.
  - intros i e Hi Hu. cbn [cali_handles].
    rewrite list_lookup_insert_ne; [exact Hi|].
    intros ->. rewrite Hk in Hi. injection Hi as ->. congruence.
Qed.

Lemma serve_preserves_inv (st : state) (r : request) :
  registry_inv st -> scheme_ok r -> registry_inv (serve st r).
Proof.
  intros (Hlen & Huniq & Hlive) Hok. unfold serve.
  destruct (create_cali_cases (req_channel r) (req_atten r) (req_out r)
              (req_scheme r) st) as [->|(k & e0 & Hk & Hfree & Hnull & Herr & ->)].
  - repeat split; assumption.
  - pose proof (get_cali_scan_null _ _ _ Hlive Hnull) as Hnone.
    split; [|split]; cbn [cali_handles].
    + rewrite length_insert. exact Hlen.
    + intros i j ei ej Hi Hj Hui Huj Hc Ha.
      apply list_lookup_insert_Some in Hi as [(-> & <- & _)|(Hne_i & Hi)];
        apply list_lookup_insert_Some in Hj as [(Hkj & <- & _)|(Hne_j & Hj)].
      * exact Hkj.
      * exfalso. cbn in Hc, Ha.
        pose proof (Hnone j ej Hj) as Hm.
        assert (entry_matches (req_channel r) (req_atten r) ej = true)
          by (apply entry_matches_true; auto).
        congruence.
      * exfalso. cbn in Hc, Ha.
        pose proof (Hnone i ei Hi) as Hm.
        assert (entry_matches (req_channel r) (req_atten r) ei = true)
          by (apply entry_matches_true; auto).
        congruence.
      * exact (Huniq i j ei ej Hi Hj Hui Huj Hc Ha).
    + intros i e Hi Hu.
      apply list_lookup_insert_Some in Hi as [(-> & <- & _)|(_ & Hi)].
      * cbn. apply Hok. exact Herr.
      * exact (Hlive i e Hi Hu).
Qed.

Lemma fold_serve_inv (rs : list request) :
  forall st : state,
    registry_inv st -> Forall scheme_ok rs -> registry_inv (fold_left serve rs st).
Proof.
  induction rs as [|r rs IH]; intros st Hinv Hall; [exact Hinv|].
  apply Forall_cons in Hall as [Hr Hrs]. cbn [fold_left].
  apply IH; [apply serve_preserves_inv; assumption | exact Hrs].
Qed.

Lemma create_cali_cached (st : state) (i : nat) (e : cali_entry_t)
  (out : adc_cali_handle_t) (scheme : esp_err_t * adc_cali_handle_t) :
  registry_inv st -> cali_handles st !! i = Some e -> in_use e = true ->
  adc_manager_create_cali (channel e) (atten e) (Some out) scheme st
  = (ESP_OK, Some (handle e), st).
Proof.
  intros (_ & Huniq & Hlive) Hi Hu.
  unfold adc_manager_create_cali, adc_manager_get_cali_handle.
  assert (Hscan : get_cali_scan (channel e) (atten e) (cali_handles st) = handle e).
  { apply (get_cali_scan_first _ _ _ i e Hi).
    - apply entry_matches_true. auto.
    - intros j ej Hlt Hj. destruct (entry_matches (channel e) (atten e) ej) eqn:Hm;
        [|reflexivity].
      apply entry_matches_true in Hm as (Huj & Hc & Ha).
      pose proof (Huniq j i ej e Hj Hi Huj Hu Hc Ha). lia. }
  rewrite Hscan.
  replace (non_null (handle e)) with true
    by (symmetry; apply non_null_true; exact (Hlive i e Hi Hu)).
  reflexivity.
Qed.

Lemma create_cali_exhausted (st : state) (c : adc_channel_t) (a : adc_atten_t)
  (out : adc_cali_handle_t) (scheme : esp_err_t * adc_cali_handle_t) :
  registry_full st -> pair_absent c a st ->
  adc_manager_create_cali c a (Some out) scheme st = (ESP_ERR_NO_MEM, Some out, st).
Proof.
  intros Hfull Habs.
  unfold adc_manager_create_cali, adc_manager_get_cali_handle.
  rewrite get_cali_scan_absent.
  - cbn [non_null NULL Z.eqb negb].
    rewrite (find_free_slot_full (cali_handles st) 0 Hfull). reflexivity.
  - intros i e Hi. destruct (entry_matches c a e) eqn:Hm; [|reflexivity].
    apply entry_matches_true in Hm as (_ & Hc & Ha).
    exfalso. exact (Habs i e Hi (conj Hc Ha)).
Qed.

(** Why the driver's contract matters: were a scheme created with
    [ESP_OK] and a [NULL] handle, the lookup would miss its slot and a
    second request for the pair would take a second slot. *)
Example null_handle_duplicates :
  let r := Build_request 0 3 (Some NULL) (ESP_OK, NULL) in
  map in_use (cali_handles (run [r; r])) = [true; true; false; false].
Proof. vm_compute. reflexivity. Qed.

(** C2: after any sequence of calls since boot, the registry has its four
    slots and at most one slot in use per (channel, attenuation) pair; a
    request for a pair already held returns [ESP_OK] with the cached
    handle and leaves the registry as it is; a request for a pair not held
    while all slots are in use returns [ESP_ERR_NO_MEM], whatever the
    driver would answer, and leaves the registry as it is; and no call
    changes a slot that is in use.  The driver is assumed to hand out
    non-[NULL] handles with [ESP_OK]. *)
Theorem calibration_registry_invariant (rs : list request) :
  Forall scheme_ok rs ->
  let st := run rs in
  length (cali_handles st) = MAX_CALI_HANDLES /\
  registry_unique st /\
  (forall (i : nat) (e : cali_entry_t) out scheme,
     cali_handles st !! i = Some e -> in_use e = true ->
     adc_manager_create_cali (channel e) (atten e) (Some out) scheme st
     = (ESP_OK, Some (handle e), st)) /\
  (forall c a out scheme,
     registry_full st -> pair_absent c a st ->
     adc_manager_create_cali c a (Some out) scheme st
     = (ESP_ERR_NO_MEM, Some out, st)) /\
  (forall r : request, entries_kept st (serve st r)).
Proof.
  intros Hall st.
  assert (Hinv : registry_inv st)
    by (apply fold_serve_inv; [apply boot_state_inv | exact Hall]).
  split; [apply Hinv|]. split; [apply Hinv|]. split; [|split].
  - intros i e out scheme Hi Hu. apply (create_cali_cached st i); assumption.
  - intros c a out scheme. apply create_cali_exhausted.
  - apply serve_entries_kept.
Qed.

Lemma calibration_registry_invariant_witness :
  adc_manager_create_cali 4 AdcDriver.ADC_ATTEN_DB_12 (Some NULL) (ESP_OK, 104)
    (run Examples.four_requests)
  = (ESP_ERR_NO_MEM, Some NULL, run Examples.four_requests).
Proof.
  apply (calibration_registry_invariant Examples.four_requests).
  - repeat constructor; vm_compute; discriminate.
  - intros i e Hi.
    repeat (destruct i as [|i]; [injection Hi as <-; reflexivity|]).
    discriminate Hi.
  - intros i e Hi [Hc _].
    repeat (destruct i as [|i]; [injection Hi as <-; discriminate Hc|]).
    discriminate Hi.
Defined.

End Registry.

(** ** The MQTT connected flag *)

Section MqttFlag.

Import MqttPublisher.

Lemma handler_clears_flag (event_id : Z) (st : state) :
  mqtt_connected st = false ->
  mqtt_connected (mqtt_event_handler event_id st) = false.
Proof.
  intros Hst. unfold mqtt_event_handler, Switch.switch, handler_arms.
  cbn [Switch.find_case Switch.find_default Switch.arm_label].
  destruct (MQTT_EVENT_CONNECTED =? event_id); [reflexivity|].
  destruct (MQTT_EVENT_DISCONNECTED =? event_id); [reflexivity|].
  destruct (MQTT_EVENT_ERROR =? event_id); exact Hst.
Qed.

(** C4 on the code: when the handler returns from a connected event the
    flag is cleared, whatever it was before, because control falls from
    the [MQTT_EVENT_CONNECTED] arm into the [MQTT_EVENT_DISCONNECTED]
    arm; and after any sequence of events delivered since boot
    [mqtt_publisher_is_connected] returns [false]. *)
Theorem connected_event_leaves_flag_false :
  (forall st : state,
     mqtt_publisher_is_connected (mqtt_event_handler MQTT_EVENT_CONNECTED st) = false) /\
  (forall events : list Z,
     mqtt_publisher_is_connected (deliver events boot_state) = false).
Proof.
  split.
  - intros st. reflexivity.
  - intros events. unfold mqtt_publisher_is_connected, deliver.
    assert (H : forall st, mqtt_connected st = false ->
              mqtt_connected (fold_left (fun s e => mqtt_event_handler e s) events st) = false).
    { induction events as [|e events IH]; intros st Hst; [exact Hst|].
      cbn [fold_left]. apply IH. apply handler_clears_flag. exact Hst. }
    apply H. reflexivity.
Qed.

(** With a [break] at the end of the connected arm the flag would follow
    the last connect or disconnect event. *)
Example intended_handler_sets_flag (st : state) :
  mqtt_connected (Switch.switch MQTT_EVENT_CONNECTED intended_arms st) = true.
Proof. reflexivity. Qed.

End MqttFlag.

(** ** The reset button: debouncing *)

Section Debounce.

Import FactoryReset.

Lemma is_button_pressed_result (level timer_us : Z) (st : state) :
  fst (is_button_pressed level timer_us st)
  = last_stable_state (snd (is_button_pressed level timer_us st)).
Proof. reflexivity. Qed.

(** The three ways a call of [is_button_pressed] can go. *)
Lemma is_button_pressed_cases (level timer_us : Z) (st : state) :
  let now := get_time_ms timer_us in
  let current := level =? BUTTON_PRESSED in
  let st' := snd (is_button_pressed level timer_us st) in
  (current = last_stable_state st /\ st' = st) \/
  (current <> last_stable_state st /\
   u32 (now - last_change_time st) < DEBOUNCE_TIME_MS /\ st' = st) \/
  (current <> last_stable_state st /\
   DEBOUNCE_TIME_MS <= u32 (now - last_change_time st) /\
   last_stable_state st' = current /\ last_change_time st' = now /\
   button_press_start_ms st' = button_press_start_ms st /\
   button_was_pressed st' = button_was_pressed st /\
   reset_triggered st' = reset_triggered st).
Proof.
  intros now current st'. subst st'. unfold is_button_pressed. cbn [snd].
  fold current. fold now.
  destruct (Bool.eqb current (last_stable_state st)) eqn:Heq; cbn [negb].
  - left. apply Bool.eqb_prop in Heq. auto.
  - right. apply Bool.eqb_false_iff in Heq.
    destruct (u32 (now - last_change_time st) >=? DEBOUNCE_TIME_MS) eqn:Hge;
      rewrite Z.geb_leb in Hge.
    + right. apply Z.leb_le in Hge. cbn. auto 10.
    + left. apply Z.leb_gt in Hge. auto.
Qed.

Lemma accepted_times_spaced (polls : list (Z * Z)) :
  forall st : state, spaced (last_change_time st) (accepted_times polls st).
Proof.
  induction polls as [|[level timer_us] rest IH]; intros st; cbn [accepted_times].
  - exact I.
  - destruct (is_button_pressed_cases level timer_us st)
      as [[_ Hsame]|[(_ & _ & Hsame)|(Hne & Hgap & Hst & Hch & _)]].
    + rewrite Hsame, Bool.eqb_reflx. apply IH.
    + rewrite Hsame, Bool.eqb_reflx. apply IH.
    + replace (Bool.eqb _ (last_stable_state st)) with false.
      * cbn [spaced]. split; [exact Hgap|]. rewrite <- Hch. apply IH.
      * symmetry. apply Bool.eqb_false_iff. rewrite Hst. exact Hne.
Qed.

(** C5, as the code has it: a call of [is_button_pressed] changes the
    stable state only when, in [uint32_t] milliseconds, at least
    [DEBOUNCE_TIME_MS] (50) have passed since the last accepted transition
    (since time 0 before the first); a raw level that differs from the
    stable one at such a call is accepted at once; otherwise the state is
    left as it is; so in every poll sequence the accepted transitions are
    at least 50 ms apart. *)
Theorem debounce_accepts_after_window :
  (forall (level timer_us : Z) (st : state),
     let now := get_time_ms timer_us in
     let current := level =? BUTTON_PRESSED in
     let st' := snd (is_button_pressed level timer_us st) in
     fst (is_button_pressed level timer_us st) = last_stable_state st' /\
     (last_stable_state st' <> last_stable_state st ->
        DEBOUNCE_TIME_MS <= u32 (now - last_change_time st) /\
        last_stable_state st' = current /\ last_change_time st' = now) /\
     (current <> last_stable_state st ->
        DEBOUNCE_TIME_MS <= u32 (now - last_change_time st) ->
        last_stable_state st' = current) /\
     (last_stable_state st' = last_stable_state st -> st' = st)) /\
  (forall (polls : list (Z * Z)) (st : state),
     spaced (last_change_time st) (accepted_times polls st)).
Proof.
  split; [|intros polls st; apply accepted_times_spaced].
  intros level timer_us st now current st'. subst now current st'.
  split; [reflexivity|].
  pose proof (is_button_pressed_cases level timer_us st) as H. cbv zeta in H.
  destruct H as [[Hcur Hsame]|[(Hne & Hlt & Hsame)|(Hne & Hgap & Hst & Hch & _)]].
  - rewrite Hsame. repeat split; congruence.
  - rewrite Hsame. repeat split; try congruence; lia.
  - repeat split; intros; (assumption || congruence).
Qed.

Lemma debounce_accepts_after_window_witness :
  last_stable_state (snd (is_button_pressed 0 1000000 boot_state)) = true.
Proof.
  apply (proj1 (proj2 (proj2 (proj1 debounce_accepts_after_window 0 1000000 boot_state)))).
  - vm_compute. discriminate.
  - vm_compute. discriminate.
Defined.

(** Against C5 as stated: a press seen by a single poll, between two
    polls 20 ms apart that see the button up, registers, and is still
    reported at the poll that sees the button up again. *)
Lemma short_press_registers :
  debounce_run [(1, 990000); (0, 1000000); (1, 1010000)] boot_state
  = [false; true; true]
  /\ ~ short_press_ignored [(1, 990000); (0, 1000000); (1, 1010000)].
Proof.
  split; [vm_compute; reflexivity|].
  intros H.
  assert (Hout : Forall (fun r => r = false)
                   (debounce_run [(1, 990000); (0, 1000000); (1, 1010000)] boot_state)).
  { apply H. intros p q Hp Hq Hfp Hfq.
    apply list_elem_of_In in Hp, Hq. cbn [In] in Hp, Hq.
    destruct Hp as [<-|[<-|[<-|[]]]]; try discriminate Hfp;
      destruct Hq as [<-|[<-|[<-|[]]]]; try discriminate Hfq.
    vm_compute. reflexivity. }
  apply Forall_cons in Hout as [_ Hout]. apply Forall_cons in Hout as [Hbad _].
  vm_compute in Hbad. discriminate Hbad.
Qed.

End Debounce.

(** ** The reset button: long press *)

Section LongPress.

Import FactoryReset.

Lemma check_latched (f : Nvs.faults) (p : poll) (w : world) :
  reset_triggered (button w) = true -> factory_reset_check f p w = w.
Proof. intros H. unfold factory_reset_check. rewrite H. reflexivity. Qed.

Lemma run_latched (f : Nvs.faults) (polls : list poll) :
  forall w : world, reset_triggered (button w) = true -> run f polls w = w.
Proof.
  induction polls as [|p polls IH]; intros w H; [reflexivity|].
  unfold run in *. cbn [fold_left]. rewrite (check_latched f p w H). apply IH, H.
Qed.

Lemma run_app (f : Nvs.faults) (ps qs : list poll) (w : world) :
  run f (ps ++ qs) w = run f qs (run f ps w).
Proof. unfold run. apply fold_left_app. Qed.

Lemma set_button_same (w : world) : set_button (button w) w = w.
Proof. destruct w. reflexivity. Qed.

Lemma check_fired_once (f : Nvs.faults) (p : poll) (w : world) :
  fired_once w -> fired_once (factory_reset_check f p w).
Proof.
  intros [[Hopen Hnone]|Hclosed].
  - unfold factory_reset_check. rewrite Hopen.
    pose proof (is_button_pressed_cases (gpio_level p) (timer_debounce p) (button w)) as Hc.
    cbv zeta in Hc.
    destruct (is_button_pressed (gpio_level p) (timer_debounce p) (button w))
      as [pressed st] eqn:Hdeb. cbn [snd] in Hc.
    assert (Htrig : reset_triggered st = false).
    { destruct Hc as [[_ ->]|[(_ & _ & ->)|(_ & _ & _ & _ & _ & _ & ->)]]; exact Hopen. }
    destruct pressed, (button_was_pressed st); cbn [andb negb].
    + destruct (u32 _ >=? LONG_PRESS_DURATION_MS).
      * destruct (WifiCredentials.wifi_credentials_clear f (nvs w)) as [err s].
        right. cbn. rewrite Hnone. eauto.
      * left. cbn. auto.
    + left. cbn. auto.
    + left. cbn. auto.
    + left. cbn. auto.
  - rewrite check_latched by apply Hclosed. right. exact Hclosed.
Qed.

Lemma run_fired_once (f : Nvs.faults) (polls : list poll) :
  forall w : world, fired_once w -> fired_once (run f polls w).
Proof.
  induction polls as [|p polls IH]; intros w H; [exact H|].
  unfold run in *. cbn [fold_left]. apply IH, check_fired_once, H.
Qed.

Lemma fired_once_triggers (w : world) : fired_once w -> (triggers w <= 1)%nat.
Proof.
  unfold triggers. intros [[_ ->]|[_ [err ->]]]; cbn; lia.
Qed.

(** A poll that sees the button down during a press in progress. *)
Lemma is_button_pressed_held (level timer_us : Z) (st : state) :
  last_stable_state st = true -> (level =? BUTTON_PRESSED) = true ->
  is_button_pressed level timer_us st = (true, st).
Proof.
  intros Hst Hlv. unfold is_button_pressed. rewrite Hlv, Hst.
  cbn [Bool.eqb negb]. rewrite Hst. reflexivity.
Qed.

Lemma held_step (f : Nvs.faults) (q : poll) (w : world) :
  held (button w) -> raw_pressed q = true ->
  factory_reset_check f q w
  = if u32 (get_time_ms (timer_check q) - button_press_start_ms (button w))
       >=? LONG_PRESS_DURATION_MS
    then fire f w else w.
Proof.
  intros (Htrig & Hwas & Hst) Hq. unfold factory_reset_check.
  rewrite Htrig, (is_button_pressed_held _ _ _ Hst Hq), Hwas. cbn [andb negb].
  destruct (u32 _ >=? LONG_PRESS_DURATION_MS).
  - unfold fire. destruct (WifiCredentials.wifi_credentials_clear f (nvs w)).
    cbn [fst snd]. rewrite Hwas, Hst. reflexivity.
  - apply set_button_same.
Qed.

(** While the press is shorter than the threshold nothing happens. *)
Lemma held_run_short (f : Nvs.faults) (ps : list poll) (w : world) :
  held (button w) ->
  Forall (fun q => raw_pressed q = true /\
                   u32 (get_time_ms (timer_check q) - button_press_start_ms (button w))
                   < LONG_PRESS_DURATION_MS) ps ->
  run f ps w = w.
Proof.
  intros Hheld Hall. induction Hall as [|q ps [Hq Hshort] _ IH]; [reflexivity|].
  unfold run in *. cbn [fold_left]. rewrite (held_step f q w Hheld Hq).
  replace (u32 _ >=? LONG_PRESS_DURATION_MS) with false; [exact IH|].
  symmetry. rewrite Z.geb_leb. apply Z.leb_gt. exact Hshort.
Qed.

(** Once a poll sees the press at the threshold the action fires, and
    later polls change nothing. *)
Lemma held_run_long (f : Nvs.faults) (ps more : list poll) (w : world) :
  held (button w) ->
  Forall (fun q => raw_pressed q = true) ps ->
  Exists (fun q => LONG_PRESS_DURATION_MS
                   <= u32 (get_time_ms (timer_check q) - button_press_start_ms (button w))) ps ->
  run f (ps ++ more) w = fire f w.
Proof.
  intros Hheld Hall Hex. induction Hall as [|q ps Hq _ IH].
  - apply Exists_nil in Hex. contradiction.
  - unfold run in *. cbn [app fold_left]. rewrite (held_step f q w Hheld Hq).
    destruct (u32 _ >=? LONG_PRESS_DURATION_MS) eqn:Hge; rewrite Z.geb_leb in Hge.
    + apply (run_latched f (ps ++ more) (fire f w)). reflexivity.
    + apply IH. apply Exists_cons in Hex as [Hlong|Hrest]; [|exact Hrest].
      apply Z.leb_gt in Hge. lia.
Qed.

(** The first poll of a press, from the idle state. *)
Lemma idle_press_step (f : Nvs.faults) (p : poll) (w : world) :
  idle (button w) -> raw_pressed p = true ->
  DEBOUNCE_TIME_MS
  <= u32 (get_time_ms (timer_debounce p) - last_change_time (button w)) ->
  factory_reset_check f p w = press p w.
Proof.
  intros (Htrig & Hwas & Hst) Hp Hgap. unfold factory_reset_check.
  rewrite Htrig. unfold is_button_pressed. fold (raw_pressed p). rewrite Hp, Hst.
  cbn [Bool.eqb negb].
  replace (u32 _ >=? DEBOUNCE_TIME_MS) with true
    by (symmetry; rewrite Z.geb_leb; apply Z.leb_le; exact Hgap).
  cbn [last_stable_state button_was_pressed]. rewrite Hwas. cbn [andb negb].
  unfold press, set_button. cbn. rewrite Htrig. reflexivity.
Qed.

Lemma press_held (p : poll) (w : world) :
  idle (button w) -> held (button (press p w)).
Proof. intros (Htrig & _ & _). repeat split; cbn; auto. Qed.

(** The poll that sees the button up again, accepted by the debounce. *)
Lemma held_release_step (f : Nvs.faults) (r : poll) (w : world) :
  held (button w) -> raw_pressed r = false ->
  DEBOUNCE_TIME_MS
  <= u32 (get_time_ms (timer_debounce r) - last_change_time (button w)) ->
  let w' := factory_reset_check f r w in
  idle (button w') /\ nvs w' = nvs w /\ effects w' = effects w.
Proof.
  intros (Htrig & Hwas & Hst) Hr Hgap. unfold factory_reset_check.
  rewrite Htrig. unfold is_button_pressed. fold (raw_pressed r). rewrite Hr, Hst.
  cbn [Bool.eqb negb].
  replace (u32 _ >=? DEBOUNCE_TIME_MS) with true
    by (symmetry; rewrite Z.geb_leb; apply Z.leb_le; exact Hgap).
  cbn [last_stable_state button_was_pressed]. rewrite Hwas. cbn [andb negb].
  cbn. repeat split; auto.
Qed.

(** C6: in every run of [factory_reset_check] since boot the reset action
    fires at most once; once [reset_triggered] is set a call changes
    nothing; a press that starts from the idle state, stays down and is
    seen by a poll at least [LONG_PRESS_DURATION_MS] (5000) after its
    first poll fires the action exactly once (credentials cleared, delay,
    restart), whatever is polled afterwards; and a press released before
    the threshold leaves the credentials and the effects as they were and
    returns to the idle state. *)
Theorem factory_reset_fires_once (f : Nvs.faults) :
  (forall (s : Nvs.store) (polls : list poll),
     (triggers (run f polls (boot_world s)) <= 1)%nat) /\
  (forall (p : poll) (w : world),
     reset_triggered (button w) = true -> factory_reset_check f p w = w) /\
  (forall (w : world) (p : poll) (ps more : list poll),
     idle (button w) -> effects w = [] ->
     raw_pressed p = true ->
     DEBOUNCE_TIME_MS
     <= u32 (get_time_ms (timer_debounce p) - last_change_time (button w)) ->
     Forall (fun q => raw_pressed q = true) ps ->
     Exists (long_since p) ps ->
     let w' := run f (p :: ps ++ more) w in
     triggers w' = 1%nat /\
     effects w'
     = [CredentialsCleared (fst (WifiCredentials.wifi_credentials_clear f (nvs w)));
        TaskDelay 2000; EspRestart] /\
     nvs w' = snd (WifiCredentials.wifi_credentials_clear f (nvs w))) /\
  (forall (w : world) (p r : poll) (ps : list poll),
     idle (button w) ->
     raw_pressed p = true ->
     DEBOUNCE_TIME_MS
     <= u32 (get_time_ms (timer_debounce p) - last_change_time (button w)) ->
     Forall (fun q => raw_pressed q = true /\ ~ long_since p q) ps ->
     raw_pressed r = false ->
     DEBOUNCE_TIME_MS
     <= u32 (get_time_ms (timer_debounce r) - get_time_ms (timer_debounce p)) ->
     let w' := run f (p :: ps ++ [r]) w in
     idle (button w') /\ nvs w' = nvs w /\ effects w' = effects w).
Proof.
  split; [|split; [|split]].
  - intros s polls. apply fired_once_triggers, run_fired_once.
    left. split; reflexivity.
  - intros p w. apply check_latched.
  - intros w p ps more Hidle Hnone Hp Hgap Hall Hex w'. subst w'.
    change (run f (p :: ps ++ more) w)
      with (run f (ps ++ more) (factory_reset_check f p w)).
    rewrite (idle_press_step f p w Hidle Hp Hgap).
    rewrite (held_run_long f ps more (press p w) (press_held p w Hidle) Hall Hex).
    unfold triggers, fire. cbn [effects nvs press]. rewrite Hnone.
    repeat split; reflexivity.
  - intros w p r ps Hidle Hp Hgap Hall Hr Hrel w'. subst w'.
    change (run f (p :: ps ++ [r]) w)
      with (run f (ps ++ [r]) (factory_reset_check f p w)).
    rewrite (idle_press_step f p w Hidle Hp Hgap), run_app.
    rewrite (held_run_short f ps (press p w) (press_held p w Hidle)).
    + apply (held_release_step f r (press p w) (press_held p w Hidle) Hr Hrel).
    + eapply Forall_impl; [exact Hall|]. intros q [Hq Hshort]. split; [exact Hq|].
      unfold long_since in Hshort. cbn [press button button_press_start_ms]. lia.
Qed.

Lemma factory_reset_fires_once_witness :
  (let w' := run Nvs.no_faults
               [Examples.poll_at 0 1000; Examples.poll_at 0 3000;
                Examples.poll_at 0 6100; Examples.poll_at 1 7000]
               (boot_world Examples.provisioned_store) in
   triggers w' = 1%nat /\ nvs w' = ∅)
  /\ (let w' := run Nvs.no_faults
                  [Examples.poll_at 0 1000; Examples.poll_at 0 3000;
                   Examples.poll_at 1 4000]
                  (boot_world Examples.provisioned_store) in
      effects w' = [] /\ nvs w' = Examples.provisioned_store).
Proof.
  split.
  - pose proof (proj1 (proj2 (proj2 (factory_reset_fires_once Nvs.no_faults)))
                  (boot_world Examples.provisioned_store)
                  (Examples.poll_at 0 1000)
                  [Examples.poll_at 0 3000; Examples.poll_at 0 6100]
                  [Examples.poll_at 1 7000]) as H.
    cbv zeta in H. destruct H as (H1 & _ & H3).
    + repeat split.
    + reflexivity.
    + reflexivity.
    + vm_compute. discriminate.
    + repeat constructor.
    + apply Exists_cons. right. apply Exists_cons. left. vm_compute. discriminate.
    + split; [exact H1|]. etransitivity; [exact H3|]. vm_compute. reflexivity.
  - pose proof (proj2 (proj2 (proj2 (factory_reset_fires_once Nvs.no_faults)))
                  (boot_world Examples.provisioned_store)
                  (Examples.poll_at 0 1000)
                  (Examples.poll_at 1 4000)
                  [Examples.poll_at 0 3000]) as H.
    cbv zeta in H. destruct H as (_ & H2 & H3).
    + repeat split.
    + reflexivity.
    + vm_compute. discriminate.
    + repeat constructor. vm_compute. intros Hle. apply Hle. reflexivity.
    + reflexivity.
    + vm_compute. discriminate.
    + split; [exact H3 | exact H2].
Defined.

End LongPress.

(** ** The persisted identity *)

Section PersistedIdentity.

Import WifiCredentials Identity WifiProvisioning.

Example parse_filled_form :
  parse_form_fields "ssid=my+net&password=p%40ss&device_id=sensor07" 33 65 33
  = Some ("my net"%string, "p%40ss"%string, "sensor07"%string).
Proof. vm_compute. reflexivity. Qed.

Example parse_without_device_id :
  parse_form_fields "ssid=a&password=b" 33 65 33 = None.
Proof. vm_compute. reflexivity. Qed.

Lemma identity_inv_empty : identity_inv ∅.
Proof. intros H. unfold provisioned in H. rewrite lookup_empty in H. discriminate H. Qed.

Lemma insert_other_keeps (s : Nvs.store) (key : string) (v : Nvs.value) :
  key <> NVS_KEY_PROVISIONED -> identity_inv s ->
  (match v with Nvs.Str _ => True | Nvs.U8 _ => key <> NVS_KEY_SSID /\ key <> NVS_KEY_PASSWORD end) ->
  identity_inv (<[key := v]> s).
Proof.
  intros Hkey Hinv Hv Hprov. unfold provisioned in Hprov.
  rewrite lookup_insert_ne in Hprov by exact Hkey.
  destruct (Hinv Hprov) as (ssid & password & Hs & Hp).
  unfold credentials_present.
  destruct (decide (key = NVS_KEY_SSID)) as [Hks|Hns].
  - subst key. destruct v as [v|v]; [|destruct Hv; congruence].
    exists v, password. rewrite lookup_insert_eq, lookup_insert_ne by discriminate. auto.
  - destruct (decide (key = NVS_KEY_PASSWORD)) as [Hkp|Hnp].
    + subst key. destruct v as [v|v]; [|destruct Hv; congruence].
      exists ssid, v. rewrite lookup_insert_eq, lookup_insert_ne by discriminate. auto.
    + exists ssid, password. rewrite !lookup_insert_ne by congruence. auto.
Qed.

Lemma save_keeps_inv (f : Nvs.faults) (ssid password : string) (s : Nvs.store) :
  identity_inv s -> identity_inv (snd (wifi_credentials_save f ssid password s)).
Proof.
  intros Hinv. unfold wifi_credentials_save.
  destruct (Nvs.nvs_open f =? ESP_OK); cbn [negb]; [|exact Hinv].
  unfold Nvs.nvs_set_str at 1.
  destruct (f (Nvs.SetStr NVS_KEY_SSID) =? ESP_OK) eqn:H1.
  2:{ replace (f (Nvs.SetStr NVS_KEY_SSID) =? ESP_OK) with false. exact Hinv. }
  cbn [Z.eqb ESP_OK negb].
  assert (Hinv1 : identity_inv (<[NVS_KEY_SSID := Nvs.Str ssid]> s))
    by (apply insert_other_keeps; [discriminate | exact Hinv | exact I]).
  unfold Nvs.nvs_set_str at 1.
  destruct (f (Nvs.SetStr NVS_KEY_PASSWORD) =? ESP_OK) eqn:H2.
  2:{ replace (f (Nvs.SetStr NVS_KEY_PASSWORD) =? ESP_OK) with false. exact Hinv1. }
  cbn [Z.eqb ESP_OK negb].
  assert (Hinv2 : identity_inv
            (<[NVS_KEY_PASSWORD := Nvs.Str password]> (<[NVS_KEY_SSID := Nvs.Str ssid]> s)))
    by (apply insert_other_keeps; [discriminate | exact Hinv1 | exact I]).
  unfold Nvs.nvs_set_u8.
  destruct (f (Nvs.SetU8 NVS_KEY_PROVISIONED) =? ESP_OK) eqn:H3.
  2:{ replace (f (Nvs.SetU8 NVS_KEY_PROVISIONED) =? ESP_OK) with false. exact Hinv2. }
  cbn [Z.eqb ESP_OK negb snd]. intros _.
  exists ssid, password. split.
  - rewrite lookup_insert_ne, lookup_insert_ne, lookup_insert_eq by discriminate.
    reflexivity.
  - rewrite lookup_insert_ne, lookup_insert_eq by discriminate. reflexivity.
Qed.

Lemma save_device_id_keeps_inv (f : Nvs.faults) (device_id : string) (s : Nvs.store) :
  identity_inv s -> identity_inv (snd (wifi_credentials_save_device_id f device_id s)).
Proof.
  intros Hinv. unfold wifi_credentials_save_device_id.
  destruct (Nvs.nvs_open f =? ESP_OK); cbn [negb]; [|exact Hinv].
  unfold Nvs.nvs_set_str.
  destruct (f (Nvs.SetStr NVS_KEY_DEVICE_ID) =? ESP_OK) eqn:H1.
  - cbn [Z.eqb ESP_OK negb snd].
    apply insert_other_keeps; [discriminate | exact Hinv | exact I].
  - rewrite H1. exact Hinv.
Qed.

Lemma clear_keeps_inv (f : Nvs.faults) (s : Nvs.store) :
  identity_inv s -> identity_inv (snd (wifi_credentials_clear f s)).
Proof.
  intros Hinv. unfold wifi_credentials_clear.
  destruct (Nvs.nvs_open f =? ESP_OK); cbn [negb]; [|exact Hinv].
  unfold Nvs.nvs_erase_all.
  destruct (f Nvs.EraseAll =? ESP_OK) eqn:H1.
  - cbn [Z.eqb ESP_OK snd]. apply identity_inv_empty.
  - rewrite H1. exact Hinv.
Qed.

Lemma post_keeps_inv (f : Nvs.faults) (req : request) (s : Nvs.store) :
  identity_inv s -> identity_inv (store_after (save_post_handler f req s)).
Proof.
  intros Hinv. unfold save_post_handler.
  destruct (total_len req <=? 0); [exact Hinv|].
  destruct (malloc_ok req); cbn [negb]; [|exact Hinv].
  destruct (receive req) as [received|]; [|exact Hinv].
  destruct (parse_form_fields (c_str received) 33 65 33) as [[[ssid password] device_id]|];
    [|exact Hinv].
  pose proof (save_keeps_inv f ssid password s Hinv) as H1.
  destruct (wifi_credentials_save f ssid password s) as [err s1]. cbn [snd] in H1.
  destruct (err =? ESP_OK); cbn [negb]; [|exact H1].
  pose proof (save_device_id_keeps_inv f device_id s1 H1) as H2.
  destruct (wifi_credentials_save_device_id f device_id s1) as [err2 s2]. cbn [snd] in H2.
  destruct (err2 =? ESP_OK); cbn [negb]; exact H2.
Qed.

Lemma apply_op_keeps_inv (s : Nvs.store) (o : op) :
  identity_inv s -> identity_inv (apply_op s o).
Proof.
  destruct o; cbn [apply_op].
  - apply save_keeps_inv.
  - apply save_device_id_keeps_inv.
  - apply clear_keeps_inv.
  - apply post_keeps_inv.
Qed.

Lemma fold_ops_keep_inv (ops : list op) :
  forall s : Nvs.store, identity_inv s -> identity_inv (fold_left apply_op ops s).
Proof.
  induction ops as [|o ops IH]; intros s Hinv; [exact Hinv|].
  cbn [fold_left]. apply IH, apply_op_keeps_inv, Hinv.
Qed.

(** One NVS call: either it goes through or it returns its fault. *)
Ltac nvs_step call :=
  let H := fresh "Hcall" in
  destruct (Z.eqb_spec call ESP_OK) as [H|H];
  cbv beta iota zeta;
  [ rewrite ?Z.eqb_refl
  | rewrite ?(proj2 (Z.eqb_neq _ _) H) ];
  cbv beta iota delta [negb].

(** What a successful save stores. *)
Lemma save_ok_store (f : Nvs.faults) (ssid password : string) (s s' : Nvs.store) :
  wifi_credentials_save f ssid password s = (ESP_OK, s') ->
  s' = <[NVS_KEY_PROVISIONED := Nvs.U8 1]>
         (<[NVS_KEY_PASSWORD := Nvs.Str password]>
            (<[NVS_KEY_SSID := Nvs.Str ssid]> s)).
Proof.
  unfold wifi_credentials_save, Nvs.nvs_set_str, Nvs.nvs_set_u8.
  nvs_step (Nvs.nvs_open f); [|intros [= ? _]; contradiction].
  nvs_step (f (Nvs.SetStr NVS_KEY_SSID)); [|intros [= ? _]; contradiction].
  nvs_step (f (Nvs.SetStr NVS_KEY_PASSWORD)); [|intros [= ? _]; contradiction].
  nvs_step (f (Nvs.SetU8 NVS_KEY_PROVISIONED)); [|intros [= ? _]; contradiction].
  intros [= _ <-]. reflexivity.
Qed.

Lemma save_ok_stores (f : Nvs.faults) (ssid password : string) (s : Nvs.store) :
  fst (wifi_credentials_save f ssid password s) = ESP_OK ->
  let s' := snd (wifi_credentials_save f ssid password s) in
  provisioned s' /\
  s' !! NVS_KEY_SSID = Some (Nvs.Str ssid) /\
  s' !! NVS_KEY_PASSWORD = Some (Nvs.Str password).
Proof.
  intros Hok. cbv zeta.
  destruct (wifi_credentials_save f ssid password s) as [err s'] eqn:Hsave.
  cbn [fst snd] in *. subst err. apply save_ok_store in Hsave. subst s'.
  unfold provisioned. repeat split.
  - apply lookup_insert_eq.
  - rewrite lookup_insert_ne, lookup_insert_ne, lookup_insert_eq by discriminate.
    reflexivity.
  - rewrite lookup_insert_ne, lookup_insert_eq by discriminate. reflexivity.
Qed.

(** C9, as the code has it: after any history of saves, device-id saves,
    clears and form posts on a blank device, with any NVS faults, a stored
    provisioned flag of 1 comes with stored [ssid] and [password] strings;
    a save that returns [ESP_OK] has stored the flag and exactly the two
    strings it was given.  The strings may be empty. *)
Theorem provisioned_implies_credentials_present :
  (forall ops : list op,
     provisioned (history ops) -> credentials_present (history ops)) /\
  (forall (f : Nvs.faults) (ssid password : string) (s : Nvs.store),
     fst (wifi_credentials_save f ssid password s) = ESP_OK ->
     let s' := snd (wifi_credentials_save f ssid password s) in
     provisioned s' /\
     s' !! NVS_KEY_SSID = Some (Nvs.Str ssid) /\
     s' !! NVS_KEY_PASSWORD = Some (Nvs.Str password)).
Proof.
  split.
  - intros ops. apply (fold_ops_keep_inv ops ∅ identity_inv_empty).
  - apply save_ok_stores.
Qed.

Lemma provisioned_implies_credentials_present_witness :
  credentials_present (history [Post Nvs.no_faults Examples.filled_form]).
Proof.
  apply (proj1 provisioned_implies_credentials_present
           [Post Nvs.no_faults Examples.filled_form]).
  vm_compute. reflexivity.
Defined.

(** Against C9 as stated: a form posted with empty fields is accepted
    and saved, and the device is provisioned with an empty ssid and an
    empty password. *)
Lemma empty_form_provisions :
  let s := history [Post Nvs.no_faults Examples.empty_form] in
  wifi_credentials_is_provisioned Nvs.no_faults s = true /\
  provisioned s /\
  s !! NVS_KEY_SSID = Some (Nvs.Str EmptyString) /\
  s !! NVS_KEY_PASSWORD = Some (Nvs.Str EmptyString) /\
  ~ (provisioned s -> credentials_nonempty s).
Proof.
  cbv zeta.
  assert (Hp : provisioned (history [Post Nvs.no_faults Examples.empty_form]))
    by (vm_compute; reflexivity).
  assert (Hs : history [Post Nvs.no_faults Examples.empty_form] !! NVS_KEY_SSID
               = Some (Nvs.Str EmptyString))
    by (vm_compute; reflexivity).
  split; [vm_compute; reflexivity|].
  split; [exact Hp|]. split; [exact Hs|]. split; [vm_compute; reflexivity|].
  intros H. destruct (H Hp) as (ssid & password & Hssid & _ & Hne & _).
  rewrite Hs in Hssid. injection Hssid as <-. apply Hne. reflexivity.
Qed.

End PersistedIdentity.

(** ** System initialisation *)

Section BootInit.

Import Main.

Lemma eqb_ok_false (err : esp_err_t) : err <> ESP_OK -> (err =? ESP_OK) = false.
Proof. apply Z.eqb_neq. Qed.

(** A failed [battery_monitor_init] leaves the monitor uninitialised. *)
Lemma battery_init_error (env : BatteryMonitor.init_env) (a : AdcManager.state)
  (st : BatteryMonitor.state) :
  BatteryMonitor.initialized st = false ->
  fst (fst (BatteryMonitor.battery_monitor_init env a st)) <> ESP_OK ->
  BatteryMonitor.initialized (snd (BatteryMonitor.battery_monitor_init env a st)) = false.
Proof.
  intros Hst. unfold BatteryMonitor.battery_monitor_init. rewrite Hst.
  destruct (non_null (AdcManager.adc_manager_get_handle a)); cbn [negb]; [|auto].
  destruct (BatteryMonitor.config_channel env =? ESP_OK); cbn [negb]; [|auto].
  destruct (AdcManager.adc_manager_create_cali _ _ _ _ a) as [[err out] a'].
  destruct (err =? ESP_OK); cbn [negb fst snd]; [|auto].
  intros H. contradiction H. reflexivity.
Qed.

Lemma soil_init_error (env : SoilMoisture.init_env) (a : AdcManager.state)
  (st : SoilMoisture.state) :
  SoilMoisture.initialized st = false ->
  fst (fst (SoilMoisture.soil_moisture_init env a st)) <> ESP_OK ->
  SoilMoisture.initialized (snd (SoilMoisture.soil_moisture_init env a st)) = false.
Proof.
  intros Hst. unfold SoilMoisture.soil_moisture_init. rewrite Hst.
  destruct (non_null (AdcManager.adc_manager_get_handle a)); cbn [negb]; [|auto].
  destruct (SoilMoisture.config_channel env =? ESP_OK); cbn [negb]; [|auto].
  destruct (AdcManager.adc_manager_create_cali _ _ _ _ a) as [[err out] a'].
  destruct (err =? ESP_OK); cbn [negb fst snd]; [|auto].
  intros H. contradiction H. reflexivity.
Qed.

Lemma battery_read_uninitialized (drv : AdcDriver.env) (a : AdcManager.state)
  (st : BatteryMonitor.state) :
  BatteryMonitor.initialized st = false ->
  BatteryMonitor.battery_monitor_read_voltage drv a st = F32.zero.
Proof.
  intros H. unfold BatteryMonitor.battery_monitor_read_voltage. rewrite H. reflexivity.
Qed.

Lemma soil_read_uninitialized (drv : AdcDriver.env) (a : AdcManager.state)
  (st : SoilMoisture.state) :
  SoilMoisture.initialized st = false ->
  SoilMoisture.soil_moisture_read_percentage drv a st = F32.zero.
Proof.
  intros H. unfold SoilMoisture.soil_moisture_read_percentage. rewrite H. reflexivity.
Qed.

(** The NVS step under [nvs_ok]. *)
Lemma init_nvs_ok (env : init_env) (sys : system) :
  nvs_ok env ->
  exists s', init_nvs env sys = Returns (ESP_OK, with_store s' sys).
Proof.
  unfold init_nvs. intros [H|([H|H] & He & Ha)]; rewrite H.
  - exists (store sys). destruct sys. reflexivity.
  - cbn [Z.eqb ESP_ERR_NVS_NO_FREE_PAGES Pos.eqb orb]. rewrite He, Ha.
    exists ∅. reflexivity.
  - rewrite He, Ha. exists ∅. reflexivity.
Qed.

(** With the five critical steps in order, [init_system] returns
    [ESP_OK] and the sensors are as their initialisers leave them. *)
Lemma init_system_critical_ok (env : init_env) (s : Nvs.store) :
  critical_ok env ->
  exists sys,
    init_system env (boot_system s) = Returns (ESP_OK, sys) /\
    adc sys = snd (fst (soil_init_call env)) /\
    battery sys = snd (battery_init_call env) /\
    soil sys = snd (soil_init_call env).
Proof.
  intros (Hnvs & Hnet & Hloop & Hadc & Hgpio).
  destruct (init_nvs_ok env (boot_system s) Hnvs) as [s' Hn].
  unfold init_system. rewrite Hn, Hnet, Hloop, Hgpio.
  unfold soil_init_call, battery_init_call, adc_after_manager.
  cbn [adc battery soil with_store boot_system].
  destruct (adc_oneshot_new_unit env) as [e h]. cbn [fst] in Hadc. subst e.
  cbn [AdcManager.adc_manager_init AdcManager.initialized AdcManager.boot_state
       Z.eqb ESP_OK negb FactoryReset.factory_reset_init snd].
  destruct (BatteryMonitor.battery_monitor_init _ _ _) as [[berr adc2] bat].
  cbn [fst snd].
  destruct (SoilMoisture.soil_moisture_init _ _ _) as [[serr adc3] sm].
  eexists. split; [reflexivity|]. cbn. auto.
Qed.

(** Without them, [init_system] returns an error or aborts. *)
Lemma init_system_critical_fails (env : init_env) (s : Nvs.store) :
  ~ critical_ok env ->
  (exists err sys, init_system env (boot_system s) = Returns (err, sys) /\ err <> ESP_OK)
  \/ (nvs_erase_fails env /\ init_system env (boot_system s) = Aborts).
Proof.
  intros Hnot. unfold init_system, init_nvs.
  destruct (Z.eqb_spec (nvs_flash_init env) ESP_ERR_NVS_NO_FREE_PAGES) as [Hp|Hp];
    [|destruct (Z.eqb_spec (nvs_flash_init env) ESP_ERR_NVS_NEW_VERSION_FOUND) as [Hv|Hv]];
    cbn [orb].
  1,2: destruct (Z.eqb_spec (nvs_flash_erase env) ESP_OK) as [He|He]; cbn [negb];
       [| right; split; [split; [tauto | exact He] | reflexivity]].
  1,2: destruct (Z.eqb_spec (nvs_flash_init_again env) ESP_OK) as [Ha|Ha]; cbn [negb];
       [| left; eauto].
  3: destruct (Z.eqb_spec (nvs_flash_init env) ESP_OK) as [Hi|Hi]; cbn [negb];
       [| left; eauto].
  all: assert (Hnvs : nvs_ok env) by (unfold nvs_ok; tauto).
  all: destruct (Z.eqb_spec (esp_netif_init env) ESP_OK) as [Hnet|Hnet]; cbn [negb];
       [| left; eauto].
  all: destruct (Z.eqb_spec (esp_event_loop_create_default env) ESP_OK) as [Hl|Hl];
       cbn [negb]; [| left; eauto].
  all: destruct (adc_oneshot_new_unit env) as [e h] eqn:Hadc;
       cbn [adc with_store boot_system AdcManager.adc_manager_init
            AdcManager.initialized AdcManager.boot_state];
       destruct (Z.eqb_spec e ESP_OK) as [He'|He']; cbn [negb];
       [rewrite Z.eqb_refl; cbn [negb] | rewrite (eqb_ok_false e He'); cbn [negb]; left; eauto].
  all: unfold FactoryReset.factory_reset_init;
       destruct (Z.eqb_spec (gpio_config env) ESP_OK) as [Hg|Hg]; cbn [negb];
       [rewrite Z.eqb_refl; cbn [negb]
       | rewrite (eqb_ok_false _ Hg); cbn [negb]; left; eauto].
  all: exfalso; apply Hnot; unfold critical_ok; rewrite Hadc; cbn [fst]; subst e; auto.
Qed.

(** A message that goes out carries 0 for a sensor that is not
    initialised. *)
Lemma publish_uninitialized_zero (penv : publish_env) (sys sys' : system)
  (err : esp_err_t) (msg : MqttPublisher.message) :
  publish_telemetry_once penv sys = (err, sys', Some msg) ->
  (BatteryMonitor.initialized (battery sys) = false ->
   MqttPublisher.msg_battery msg = F32.zero) /\
  (SoilMoisture.initialized (soil sys) = false ->
   MqttPublisher.msg_soil_moisture msg = F32.zero).
Proof.
  unfold publish_telemetry_once.
  destruct (MqttPublisher.mqtt_publisher_is_connected _); cbn [negb];
    [|intros [= _ _ ?]; discriminate].
  cbn [adc battery soil device_id_buffer with_mqtt].
  unfold MqttPublisher.mqtt_publisher_publish_telemetry.
  destruct (negb (non_null _) || negb _); [intros [= _ _ ?]; discriminate|].
  destruct (MqttPublisher.base_topic _) as [topic|]; [|intros [= _ _ ?]; discriminate].
  destruct ((_ <? 0) || (_ >=? 192)); [intros [= _ _ ?]; discriminate|].
  destruct (MqttPublisher.publish_msg_id _ <? 0); cbn [Z.eqb ESP_OK ESP_FAIL negb];
    intros [= _ _ <-]; cbn [MqttPublisher.msg_battery MqttPublisher.msg_soil_moisture];
    split; intros H;
    (apply battery_read_uninitialized || apply soil_read_uninitialized); exact H.
Qed.

Lemma app_main_after_init (env : boot_env) (sys0 sys : system) :
  init_system (init env) sys0 = Returns (ESP_OK, sys) ->
  (exists rest, app_main env sys0 = InitSystem :: SetupWifi :: rest) /\
  (forall sys1,
     setup_wifi (wifi env) sys = (Returned ESP_OK, sys1) ->
     fst (setup_mqtt (nvs_faults (wifi env)) (topic_prefix env) (mqtt_init env) sys1)
     = ESP_OK ->
     exists sent,
       app_main env sys0
       = [InitSystem; SetupWifi; SetupMqtt; PublishTelemetry sent;
          DeepSleep DEEP_SLEEP_INTERVAL_SEC]).
Proof.
  intros Hinit. unfold app_main. rewrite Hinit. cbn [Z.eqb ESP_OK negb]. split.
  - destruct (setup_wifi (wifi env) sys) as [[err| |] sys1]; eauto.
    destruct (err =? ESP_OK); cbn [negb]; eauto.
    destruct (setup_mqtt _ _ _ sys1) as [err2 sys2].
    destruct (err2 =? ESP_OK); cbn [negb]; eauto.
    destruct (publish_telemetry_once _ sys2) as [[e3 s3] sent]. eauto.
  - intros sys1 Hw Hm. rewrite Hw. cbn [Z.eqb ESP_OK negb].
    destruct (setup_mqtt _ _ _ sys1) as [err2 sys2]. cbn [fst] in Hm. subst err2.
    cbn [Z.eqb ESP_OK negb].
    destruct (publish_telemetry_once _ sys2) as [[e3 s3] sent]. eauto.
Qed.

Lemma app_main_init_error (env : boot_env) (sys0 sys : system) (err : esp_err_t) :
  init_system (init env) sys0 = Returns (err, sys) -> err <> ESP_OK ->
  app_main env sys0 = [InitSystem; DeepSleep DEEP_SLEEP_INTERVAL_SEC].
Proof.
  intros Hinit Herr. unfold app_main. rewrite Hinit, (eqb_ok_false err Herr).
  reflexivity.
Qed.

(** C10: when NVS, the TCP/IP stack, the event loop, the ADC manager and
    the reset button initialise, [init_system] returns [ESP_OK] whatever
    [battery_monitor_init] and [soil_moisture_init] return, and [app_main]
    goes on to WiFi setup and, when WiFi and MQTT set up, to telemetry
    publishing and deep sleep; a sensor whose initialiser returned an
    error stays uninitialised and reads 0, in any message published too;
    [init_system] returns an error only when one of those five steps
    fails, and [app_main] then goes to deep sleep for
    [DEEP_SLEEP_INTERVAL_SEC] at once; a failing NVS erase aborts
    instead. *)
Theorem sensor_init_failure_does_not_fail_boot (env : boot_env) (s : Nvs.store) :
  (critical_ok (init env) ->
   exists sys,
     init_system (init env) (boot_system s) = Returns (ESP_OK, sys) /\
     (exists rest, app_main env (boot_system s) = InitSystem :: SetupWifi :: rest) /\
     (forall sys1,
        setup_wifi (wifi env) sys = (Returned ESP_OK, sys1) ->
        fst (setup_mqtt (nvs_faults (wifi env)) (topic_prefix env) (mqtt_init env) sys1)
        = ESP_OK ->
        exists sent,
          app_main env (boot_system s)
          = [InitSystem; SetupWifi; SetupMqtt; PublishTelemetry sent;
             DeepSleep DEEP_SLEEP_INTERVAL_SEC]) /\
     (fst (fst (battery_init_call (init env))) <> ESP_OK ->
      BatteryMonitor.initialized (battery sys) = false /\
      forall drv a,
        BatteryMonitor.battery_monitor_read_voltage drv a (battery sys) = F32.zero) /\
     (fst (fst (soil_init_call (init env))) <> ESP_OK ->
      SoilMoisture.initialized (soil sys) = false /\
      forall drv a,
        SoilMoisture.soil_moisture_read_percentage drv a (soil sys) = F32.zero)) /\
  (forall penv sys sys' err msg,
     publish_telemetry_once penv sys = (err, sys', Some msg) ->
     (BatteryMonitor.initialized (battery sys) = false ->
      MqttPublisher.msg_battery msg = F32.zero) /\
     (SoilMoisture.initialized (soil sys) = false ->
      MqttPublisher.msg_soil_moisture msg = F32.zero)) /\
  (forall err sys,
     init_system (init env) (boot_system s) = Returns (err, sys) -> err <> ESP_OK ->
     ~ critical_ok (init env) /\
     app_main env (boot_system s) = [InitSystem; DeepSleep DEEP_SLEEP_INTERVAL_SEC]) /\
  (~ critical_ok (init env) ->
   app_main env (boot_system s) = [InitSystem; DeepSleep DEEP_SLEEP_INTERVAL_SEC] \/
   (nvs_erase_fails (init env) /\ app_main env (boot_system s) = [InitSystem; Abort])).
Proof.
  split; [|split; [|split]].
  - intros Hcrit.
    destruct (init_system_critical_ok (init env) s Hcrit) as (sys & Hinit & _ & Hb & Hs).
    exists sys. split; [exact Hinit|].
    destruct (app_main_after_init env (boot_system s) sys Hinit) as [Hrest Hfull].
    split; [exact Hrest|]. split; [exact Hfull|]. split.
    + intros Herr.
      assert (Hu : BatteryMonitor.initialized (battery sys) = false)
        by (rewrite Hb; apply battery_init_error; [reflexivity | exact Herr]).
      split; [exact Hu|]. intros drv a. apply battery_read_uninitialized, Hu.
    + intros Herr.
      assert (Hu : SoilMoisture.initialized (soil sys) = false)
        by (rewrite Hs; apply soil_init_error; [reflexivity | exact Herr]).
      split; [exact Hu|]. intros drv a. apply soil_read_uninitialized, Hu.
  - intros penv sys sys' err msg. apply publish_uninitialized_zero.
  - intros err sys Hinit Herr. split.
    + intros Hcrit.
      destruct (init_system_critical_ok (init env) s Hcrit) as (sys2 & Hinit2 & _).
      rewrite Hinit in Hinit2. injection Hinit2 as He _. contradiction.
    + apply (app_main_init_error env (boot_system s) sys err Hinit Herr).
  - intros Hnot.
    destruct (init_system_critical_fails (init env) s Hnot)
      as [(err & sys & Hinit & Herr)|[Herase Habort]].
    + left. apply (app_main_init_error env (boot_system s) sys err Hinit Herr).
    + right. split; [exact Herase|]. unfold app_main. rewrite Habort. reflexivity.
Qed.

Lemma sensor_init_failure_does_not_fail_boot_witness :
  (exists sent,
     app_main Examples.boot_sensors_fail (boot_system Examples.provisioned_store)
     = [InitSystem; SetupWifi; SetupMqtt; PublishTelemetry sent;
        DeepSleep DEEP_SLEEP_INTERVAL_SEC]).
Proof.
  assert (Hcrit : critical_ok (init Examples.boot_sensors_fail))
    by (repeat split; try reflexivity; left; reflexivity).
  destruct (proj1 (sensor_init_failure_does_not_fail_boot Examples.boot_sensors_fail
                     Examples.provisioned_store) Hcrit)
    as (sys & Hinit & _ & Hfull & _).
  injection Hinit as <-.
  eapply Hfull; vm_compute; reflexivity.
Defined.

End BootInit.

(** * Further properties of the code *)

(** ** adc_manager.c: initialisation and the registry *)

Section AdcManagerMore.

Import AdcManager.

Lemma init_step_uninit (err : esp_err_t) (h : Z) (st : state) :
  initialized st = false ->
  snd (adc_manager_init (err, h) st)
  = {| adc_handle := h; initialized := (err =? ESP_OK);
       cali_handles := cali_handles st |}.
Proof.
  intros Hi. unfold adc_manager_init. rewrite Hi.
  destruct (err =? ESP_OK); cbn [negb snd]; rewrite ?Hi; reflexivity.
Qed.

Lemma init_step_initialized (a : esp_err_t * Z) (st : state) :
  initialized st = true -> adc_manager_init a st = (ESP_OK, st).
Proof. intros Hi. unfold adc_manager_init. rewrite Hi. reflexivity. Qed.

Lemma init_run_cons (a : esp_err_t * Z) (answers : list (esp_err_t * Z)) (st : state) :
  init_run (a :: answers) st = init_run answers (snd (adc_manager_init a st)).
Proof. reflexivity. Qed.

Lemma init_run_initialized (answers : list (esp_err_t * Z)) :
  forall st : state, initialized st = true -> init_run answers st = st.
Proof.
  induction answers as [|a answers IH]; intros st Hi; [reflexivity|].
  rewrite init_run_cons, (init_step_initialized a st Hi). cbn [snd]. apply IH, Hi.
Qed.

Lemma init_run_first_ok (answers : list (esp_err_t * Z)) :
  forall st : state,
    initialized st = false ->
    cali_handles (init_run answers st) = cali_handles st /\
    match first_ok answers with
    | Some h => initialized (init_run answers st) = true /\
                adc_handle (init_run answers st) = h
    | None => initialized (init_run answers st) = false
    end.
Proof.
  induction answers as [|[err h] answers IH]; intros st Hi.
  - cbn. auto.
  - rewrite init_run_cons, (init_step_uninit err h st Hi). cbn [first_ok].
    destruct (err =? ESP_OK).
    + rewrite init_run_initialized by reflexivity. cbn. auto.
    + apply (IH {| adc_handle := h; initialized := false;
                   cali_handles := cali_handles st |} eq_refl).
Qed.

(** X1: after any sequence of calls of [adc_manager_init] since boot, the
    manager is initialised exactly when some call got [ESP_OK] from the
    driver, its handle is the one of the first such call, the calibration
    registry is untouched, and once initialised every further call
    returns [ESP_OK] and changes nothing, whatever the driver would
    answer. *)
Theorem adc_manager_init_sequence (answers : list (esp_err_t * Z)) :
  let st := init_run answers boot_state in
  cali_handles st = cali_handles boot_state /\
  match first_ok answers with
  | Some h => initialized st = true /\ adc_manager_get_handle st = h
  | None => initialized st = false
  end /\
  (initialized st = true ->
   forall a : esp_err_t * Z, adc_manager_init a st = (ESP_OK, st)).
Proof.
  intros st. subst st.
  destruct (init_run_first_ok answers boot_state eq_refl) as [Hc Hf].
  split; [exact Hc|]. split; [exact Hf|].
  intros Hi a. apply init_step_initialized, Hi.
Qed.

(** Replacing a slot that does not match by an entry that does not match
    leaves the scan as it was. *)
Lemma get_cali_scan_insert_other (c : adc_channel_t) (a : adc_atten_t)
  (x : cali_entry_t) (slots : list cali_entry_t) :
  forall (k : nat) (e0 : cali_entry_t),
    slots !! k = Some e0 ->
    entry_matches c a e0 = false -> entry_matches c a x = false ->
    get_cali_scan c a (<[k := x]> slots) = get_cali_scan c a slots.
Proof.
  induction slots as [|e rest IH]; intros k e0 Hk H0 Hx; [discriminate Hk|].
  destruct k as [|k].
  - injection Hk as ->. change (<[0%nat := x]> (e0 :: rest)) with (x :: rest).
    cbn [get_cali_scan]. rewrite H0, Hx. reflexivity.
  - change (<[S k := x]> (e :: rest)) with (e :: <[k := x]> rest).
    cbn [get_cali_scan]. rewrite (IH k e0 Hk H0 Hx). reflexivity.
Qed.

(** Storing a matching entry where nothing matched makes the scan find
    it. *)
Lemma get_cali_scan_insert_new (c : adc_channel_t) (a : adc_atten_t)
  (x : cali_entry_t) (slots : list cali_entry_t) :
  forall k : nat,
    (k < length slots)%nat ->
    (forall (i : nat) (e : cali_entry_t),
       slots !! i = Some e -> entry_matches c a e = false) ->
    entry_matches c a x = true ->
    get_cali_scan c a (<[k := x]> slots) = handle x.
Proof.
  induction slots as [|e rest IH]; intros k Hk Hnone Hx; [cbn in Hk; lia|].
  destruct k as [|k].
  - cbn [get_cali_scan]. change (<[0%nat := x]> (e :: rest)) with (x :: rest).
    cbn [get_cali_scan]. rewrite Hx. reflexivity.
  - change (<[S k := x]> (e :: rest)) with (e :: <[k := x]> rest).
    cbn [get_cali_scan]. rewrite (Hnone 0%nat e eq_refl).
    apply IH; [cbn in Hk; lia | | exact Hx].
    intros i e' Hi. apply (Hnone (S i) e' Hi).
Qed.

Lemma entry_matches_other (c a c' a' : Z) (h : Z) :
  (c', a') <> (c, a) ->
  entry_matches c' a' (Build_cali_entry_t c a h true) = false.
Proof.
  intros Hne. unfold entry_matches. cbn.
  destruct (Z.eqb_spec c c') as [->|]; [|reflexivity].
  destruct (Z.eqb_spec a a') as [->|]; [|reflexivity].
  contradiction Hne. reflexivity.
Qed.

Lemma not_in_use_no_match (c : adc_channel_t) (a : adc_atten_t) (e : cali_entry_t) :
  in_use e = false -> entry_matches c a e = false.
Proof. intros H. unfold entry_matches. rewrite H. reflexivity. Qed.

(** A successful call on a registry that satisfies the invariant. *)
Lemma create_cali_ok_lookup
  (st : state) (c : adc_channel_t) (a : adc_atten_t)
  (out : option adc_cali_handle_t) (scheme : esp_err_t * adc_cali_handle_t)
  (out' : option adc_cali_handle_t) (st' : state) :
  registry_inv st ->
  (fst scheme = ESP_OK -> snd scheme <> NULL) ->
  adc_manager_create_cali c a out scheme st = (ESP_OK, out', st') ->
  exists h : adc_cali_handle_t,
    out' = Some h /\ h <> NULL /\
    adc_manager_get_cali_handle c a st' = h /\
    forall c' a', (c', a') <> (c, a) ->
      adc_manager_get_cali_handle c' a' st' = adc_manager_get_cali_handle c' a' st.
Proof.
  intros (Hlen & _ & Hlive) Hscheme.
  unfold adc_manager_create_cali, adc_manager_get_cali_handle.
  destruct out as [v|]; [|intros [= H]; discriminate H].
  destruct (non_null (get_cali_scan c a (cali_handles st))) eqn:Hex.
  - intros [= <- <-]. exists (get_cali_scan c a (cali_handles st)).
    repeat split; auto. apply non_null_true. exact Hex.
  - destruct (Z.eqb_spec (find_free_slot 0 (cali_handles st)) (-1)) as [_|Hfree];
      [intros [= H]; discriminate H|].
    destruct scheme as [err h]. cbn [fst snd] in Hscheme.
    destruct (Z.eqb_spec err ESP_OK) as [->|Herr]; cbn [negb];
      [|intros [= H]; contradiction].
    intros [= <- <-]. cbn [cali_handles].
    destruct (find_free_slot_found (cali_handles st) 0 ltac:(lia) Hfree)
      as (k & e0 & Hk & Hlook & Hu).
    rewrite Hk, Z.add_0_l, Nat2Z.id.
    assert (Hnull : get_cali_scan c a (cali_handles st) = NULL)
      by (unfold non_null in Hex; apply negb_false_iff, Z.eqb_eq in Hex; exact Hex).
    exists h. split; [reflexivity|]. split; [auto|]. split.
    + apply (get_cali_scan_insert_new c a (Build_cali_entry_t c a h true)).
      * apply lookup_lt_Some in Hlook. exact Hlook.
      * apply get_cali_scan_null; assumption.
      * apply entry_matches_true. cbn. auto.
    + intros c' a' Hne.
      apply (get_cali_scan_insert_other c' a' _ _ k e0 Hlook).
      * apply not_in_use_no_match, Hu.
      * apply entry_matches_other, Hne.
Qed.

(** X2: in the registry reached by any sequence of calls since boot, a
    call of [adc_manager_create_cali] that returns [ESP_OK] hands out a
    non-[NULL] handle that [adc_manager_get_cali_handle] returns for the
    same pair from then on, and the lookup of every other pair is as
    before.  The driver hands out non-[NULL] handles with [ESP_OK]. *)
Theorem create_cali_then_lookup
  (rs : list request) (c : adc_channel_t) (a : adc_atten_t)
  (out : option adc_cali_handle_t) (scheme : esp_err_t * adc_cali_handle_t)
  (out' : option adc_cali_handle_t) (st' : state) :
  Forall scheme_ok rs ->
  (fst scheme = ESP_OK -> snd scheme <> NULL) ->
  adc_manager_create_cali c a out scheme (run rs) = (ESP_OK, out', st') ->
  exists h : adc_cali_handle_t,
    out' = Some h /\ h <> NULL /\
    adc_manager_get_cali_handle c a st' = h /\
    forall c' a', (c', a') <> (c, a) ->
      adc_manager_get_cali_handle c' a' st' = adc_manager_get_cali_handle c' a' (run rs).
Proof.
  intros Hall. apply create_cali_ok_lookup.
  apply fold_serve_inv; [apply boot_state_inv | exact Hall].
Qed.

Lemma create_cali_then_lookup_witness :
  exists h : adc_cali_handle_t,
    h <> NULL /\
    adc_manager_get_cali_handle 1 3
      (snd (adc_manager_create_cali 1 3 (Some NULL) (ESP_OK, 9)
              (run [Build_request 0 3 (Some NULL) (ESP_OK, 7)]))) = h.
Proof.
  destruct (create_cali_then_lookup [Build_request 0 3 (Some NULL) (ESP_OK, 7)]
              1 3 (Some NULL) (ESP_OK, 9) (Some 9)
              (snd (adc_manager_create_cali 1 3 (Some NULL) (ESP_OK, 9)
                      (run [Build_request 0 3 (Some NULL) (ESP_OK, 7)]))))
    as (h & _ & Hh & Hl & _).
  - repeat constructor. vm_compute. discriminate.
  - vm_compute. discriminate.
  - vm_compute. reflexivity.
  - exists h. split; assumption.
Defined.

Lemma in_use_count_insert (slots : list cali_entry_t) (x : cali_entry_t) :
  forall (k : nat) (e0 : cali_entry_t),
    slots !! k = Some e0 -> in_use e0 = false -> in_use x = true ->
    length (List.filter in_use (<[k := x]> slots))
    = S (length (List.filter in_use slots)).
Proof.
  induction slots as [|e rest IH]; intros k e0 Hk H0 Hx; [discriminate Hk|].
  destruct k as [|k].
  - injection Hk as ->. change (<[0%nat := x]> (e0 :: rest)) with (x :: rest).
    cbn [List.filter]. rewrite H0, Hx. reflexivity.
  - change (<[S k := x]> (e :: rest)) with (e :: <[k := x]> rest).
    cbn [List.filter]. destruct (in_use e); cbn [length];
      rewrite (IH k e0 Hk H0 Hx); reflexivity.
Qed.

Lemma filter_length_le {A : Type} (p : A -> bool) (l : list A) :
  (length (List.filter p l) <= length l)%nat.
Proof.
  induction l as [|x l IH]; cbn [List.filter length]; [lia|].
  destruct (p x); cbn [length]; lia.
Qed.

(** A call either changes nothing or returns [ESP_OK] and fills a free
    slot. *)
Lemma create_cali_outcomes (c : adc_channel_t) (a : adc_atten_t)
  (out : option adc_cali_handle_t) (scheme : esp_err_t * adc_cali_handle_t)
  (st : state) :
  snd (adc_manager_create_cali c a out scheme st) = st \/
  (fst (fst (adc_manager_create_cali c a out scheme st)) = ESP_OK /\
   exists (k : nat) (e0 x : cali_entry_t),
     cali_handles st !! k = Some e0 /\ in_use e0 = false /\ in_use x = true /\
     cali_handles (snd (adc_manager_create_cali c a out scheme st))
     = <[k := x]> (cali_handles st)).
Proof.
  unfold adc_manager_create_cali, adc_manager_get_cali_handle.
  destruct out as [v|]; [|left; reflexivity].
  destruct (non_null (get_cali_scan c a (cali_handles st))); [left; reflexivity|].
  destruct (Z.eqb_spec (find_free_slot 0 (cali_handles st)) (-1)) as [Hfull|Hfree];
    [left; reflexivity|].
  destruct scheme as [err h].
  destruct (Z.eqb_spec err ESP_OK) as [->|Herr]; cbn [negb]; [|left; reflexivity].
  right. split; [reflexivity|].
  destruct (find_free_slot_found (cali_handles st) 0 ltac:(lia) Hfree)
    as (k & e0 & Hk & Hlook & Hu).
  exists k, e0, (Build_cali_entry_t c a h true).
  rewrite Hk, Z.add_0_l, Nat2Z.id. cbn. auto.
Qed.

(** X3: a call of [adc_manager_create_cali] that returns anything but
    [ESP_OK] leaves the manager exactly as it was; any call keeps the
    number of slots, never frees a slot, and takes at most one more, so
    the number of slots in use never exceeds the number of slots. *)
Theorem create_cali_error_changes_nothing
  (c : adc_channel_t) (a : adc_atten_t) (out : option adc_cali_handle_t)
  (scheme : esp_err_t * adc_cali_handle_t) (st : state) :
  let r := adc_manager_create_cali c a out scheme st in
  (fst (fst r) <> ESP_OK -> snd r = st) /\
  length (cali_handles (snd r)) = length (cali_handles st) /\
  (in_use_count st <= in_use_count (snd r) <= S (in_use_count st))%nat /\
  (in_use_count (snd r) <= length (cali_handles st))%nat.
Proof.
  intros r. subst r.
  destruct (create_cali_outcomes c a out scheme st)
    as [Hsame|(Hok & k & e0 & x & Hk & Hfree & Hx & Hnew)].
  - rewrite Hsame. repeat split; auto. apply filter_length_le.
  - split; [intros H; contradiction|].
    unfold in_use_count. rewrite Hnew, length_insert.
    rewrite (in_use_count_insert _ _ k e0 Hk Hfree Hx).
    split; [reflexivity|]. split; [lia|].
    rewrite <- (in_use_count_insert _ x k e0 Hk Hfree Hx).
    rewrite <- (length_insert (cali_handles st) k x). apply filter_length_le.
Qed.

(** The invariant speaks of the registry only. *)
Lemma registry_inv_same_slots (st st' : state) :
  cali_handles st' = cali_handles st -> registry_inv st -> registry_inv st'.
Proof.
  intros Heq (Hlen & Huniq & Hlive). unfold registry_inv, registry_unique.
  rewrite Heq. auto.
Qed.

Lemma create_cali_keeps_inv (st : state) (c : adc_channel_t) (a : adc_atten_t)
  (out : option adc_cali_handle_t) (scheme : esp_err_t * adc_cali_handle_t) :
  registry_inv st ->
  (fst scheme = ESP_OK -> snd scheme <> NULL) ->
  registry_inv (snd (adc_manager_create_cali c a out scheme st)).
Proof.
  intros Hinv Hscheme.
  apply (serve_preserves_inv st (Build_request c a out scheme) Hinv Hscheme).
Qed.

Lemma create_cali_error_same (st : state) (c : adc_channel_t) (a : adc_atten_t)
  (out : option adc_cali_handle_t) (scheme : esp_err_t * adc_cali_handle_t) :
  fst (fst (adc_manager_create_cali c a out scheme st)) <> ESP_OK ->
  snd (adc_manager_create_cali c a out scheme st) = st.
Proof.
  destruct (create_cali_outcomes c a out scheme st) as [H|[H _]]; [auto|contradiction].
Qed.

Lemma create_cali_keeps_handle (st : state) (c : adc_channel_t) (a : adc_atten_t)
  (out : option adc_cali_handle_t) (scheme : esp_err_t * adc_cali_handle_t) :
  adc_handle (snd (adc_manager_create_cali c a out scheme st)) = adc_handle st.
Proof.
  unfold adc_manager_create_cali.
  destruct out; [|reflexivity].
  destruct (non_null _); [reflexivity|].
  destruct (_ =? -1); [reflexivity|].
  destruct scheme as [e h]. destruct (e =? ESP_OK); reflexivity.
Qed.

Lemma adc_ready_inv : registry_inv Examples.adc_ready.
Proof. apply (registry_inv_same_slots boot_state); [reflexivity | apply boot_state_inv]. Qed.

End AdcManagerMore.

(** ** battery_monitor.c and soil_moisture.c: the life cycle of a sensor *)

Section SensorLifeCycle.

Import AdcManager.

(** The part the two initialisers share: the outcome of the call of
    [adc_manager_create_cali] when it succeeds. *)
Lemma battery_init_ok (env : BatteryMonitor.init_env) (adc adc' : state)
  (st st' : BatteryMonitor.state) :
  registry_inv adc ->
  (fst (BatteryMonitor.create_scheme env) = ESP_OK ->
   snd (BatteryMonitor.create_scheme env) <> NULL) ->
  BatteryMonitor.initialized st = false ->
  BatteryMonitor.battery_monitor_init env adc st = (ESP_OK, adc', st') ->
  BatteryMonitor.initialized st' = true /\
  BatteryMonitor.cali_handle st' <> NULL /\
  adc_manager_get_cali_handle BatteryMonitor.BAT_ADC_CHAN BatteryMonitor.ADC_ATTEN adc'
  = BatteryMonitor.cali_handle st' /\
  registry_inv adc' /\
  adc_manager_get_handle adc' <> NULL /\
  BatteryMonitor.config_channel env = ESP_OK.
Proof.
  intros Hinv Hscheme Hst. unfold BatteryMonitor.battery_monitor_init. rewrite Hst.
  destruct (non_null (adc_manager_get_handle adc)) eqn:Hh; cbn [negb];
    [|intros [= H]; discriminate H].
  destruct (Z.eqb_spec (BatteryMonitor.config_channel env) ESP_OK) as [Hc|Hc];
    cbn [negb]; [|intros [= H]; contradiction].
  pose proof (create_cali_keeps_inv adc BatteryMonitor.BAT_ADC_CHAN
                BatteryMonitor.ADC_ATTEN (Some (BatteryMonitor.cali_handle st))
                (BatteryMonitor.create_scheme env) Hinv Hscheme) as Hinv'.
  destruct (adc_manager_create_cali _ _ _ _ adc) as [[err out] a'] eqn:Hcreate.
  cbn [snd] in Hinv'.
  destruct (Z.eqb_spec err ESP_OK) as [->|Herr]; cbn [negb];
    [|intros [= H]; contradiction].
  intros [= <- <-]. cbn [BatteryMonitor.initialized BatteryMonitor.cali_handle].
  destruct (create_cali_ok_lookup adc _ _ _ _ out a' Hinv Hscheme Hcreate)
    as (h & -> & Hh' & Hl & _).
  cbn [default]. split; [reflexivity|]. split; [exact Hh'|]. split; [exact Hl|].
  split; [exact Hinv'|]. split; [|exact Hc].
  assert (Hsame : adc_handle a' = adc_handle adc).
  { pose proof (create_cali_keeps_handle adc BatteryMonitor.BAT_ADC_CHAN
                  BatteryMonitor.ADC_ATTEN (Some (BatteryMonitor.cali_handle st))
                  (BatteryMonitor.create_scheme env)) as H.
    rewrite Hcreate in H. exact H. }
  unfold adc_manager_get_handle. rewrite Hsame. apply non_null_true. exact Hh.
Qed.

Lemma soil_init_ok (env : SoilMoisture.init_env) (adc adc' : state)
  (st st' : SoilMoisture.state) :
  registry_inv adc ->
  (fst (SoilMoisture.create_scheme env) = ESP_OK ->
   snd (SoilMoisture.create_scheme env) <> NULL) ->
  SoilMoisture.initialized st = false ->
  SoilMoisture.soil_moisture_init env adc st = (ESP_OK, adc', st') ->
  SoilMoisture.initialized st' = true /\
  SoilMoisture.cali_handle st' <> NULL /\
  adc_manager_get_cali_handle SoilMoisture.SOIL_ADC_CHAN SoilMoisture.ADC_ATTEN adc'
  = SoilMoisture.cali_handle st' /\
  registry_inv adc' /\
  adc_manager_get_handle adc' <> NULL /\
  SoilMoisture.config_channel env = ESP_OK.
Proof.
  intros Hinv Hscheme Hst. unfold SoilMoisture.soil_moisture_init. rewrite Hst.
  destruct (non_null (adc_manager_get_handle adc)) eqn:Hh; cbn [negb];
    [|intros [= H]; discriminate H].
  destruct (Z.eqb_spec (SoilMoisture.config_channel env) ESP_OK) as [Hc|Hc];
    cbn [negb]; [|intros [= H]; contradiction].
  pose proof (create_cali_keeps_inv adc SoilMoisture.SOIL_ADC_CHAN
                SoilMoisture.ADC_ATTEN (Some (SoilMoisture.cali_handle st))
                (SoilMoisture.create_scheme env) Hinv Hscheme) as Hinv'.
  destruct (adc_manager_create_cali _ _ _ _ adc) as [[err out] a'] eqn:Hcreate.
  cbn [snd] in Hinv'.
  destruct (Z.eqb_spec err ESP_OK) as [->|Herr]; cbn [negb];
    [|intros [= H]; contradiction].
  intros [= <- <-]. cbn [SoilMoisture.initialized SoilMoisture.cali_handle].
  destruct (create_cali_ok_lookup adc _ _ _ _ out a' Hinv Hscheme Hcreate)
    as (h & -> & Hh' & Hl & _).
  cbn [default]. split; [reflexivity|]. split; [exact Hh'|]. split; [exact Hl|].
  split; [exact Hinv'|]. split; [|exact Hc].
  assert (Hsame : adc_handle a' = adc_handle adc).
  { pose proof (create_cali_keeps_handle adc SoilMoisture.SOIL_ADC_CHAN
                  SoilMoisture.ADC_ATTEN (Some (SoilMoisture.cali_handle st))
                  (SoilMoisture.create_scheme env)) as H.
    rewrite Hcreate in H. exact H. }
  unfold adc_manager_get_handle. rewrite Hsame. apply non_null_true. exact Hh.
Qed.

(** X4: when [battery_monitor_init] or [soil_moisture_init] returns
    [ESP_OK] on a sensor that was not initialised, the sensor is
    initialised, its calibration handle is not [NULL] and is the handle
    the registry holds for the sensor's channel and attenuation, and the
    registry still has at most one slot per pair.  The driver hands out
    non-[NULL] handles with [ESP_OK]. *)
Theorem sensor_init_binds_registry_handle (adc : state) :
  registry_inv adc ->
  (forall env adc' st st',
     (fst (BatteryMonitor.create_scheme env) = ESP_OK ->
      snd (BatteryMonitor.create_scheme env) <> NULL) ->
     BatteryMonitor.initialized st = false ->
     BatteryMonitor.battery_monitor_init env adc st = (ESP_OK, adc', st') ->
     BatteryMonitor.initialized st' = true /\
     BatteryMonitor.cali_handle st' <> NULL /\
     adc_manager_get_cali_handle BatteryMonitor.BAT_ADC_CHAN BatteryMonitor.ADC_ATTEN adc'
     = BatteryMonitor.cali_handle st' /\
     registry_inv adc') /\
  (forall env adc' st st',
     (fst (SoilMoisture.create_scheme env) = ESP_OK ->
      snd (SoilMoisture.create_scheme env) <> NULL) ->
     SoilMoisture.initialized st = false ->
     SoilMoisture.soil_moisture_init env adc st = (ESP_OK, adc', st') ->
     SoilMoisture.initialized st' = true /\
     SoilMoisture.cali_handle st' <> NULL /\
     adc_manager_get_cali_handle SoilMoisture.SOIL_ADC_CHAN SoilMoisture.ADC_ATTEN adc'
     = SoilMoisture.cali_handle st' /\
     registry_inv adc').
Proof.
  intros Hinv. split.
  - intros env adc' st st' Hs Hst Hinit.
    destruct (battery_init_ok env adc adc' st st' Hinv Hs Hst Hinit)
      as (H1 & H2 & H3 & H4 & _). auto.
  - intros env adc' st st' Hs Hst Hinit.
    destruct (soil_init_ok env adc adc' st st' Hinv Hs Hst Hinit)
      as (H1 & H2 & H3 & H4 & _). auto.
Qed.

Lemma sensor_init_binds_registry_handle_witness :
  adc_manager_get_cali_handle SoilMoisture.SOIL_ADC_CHAN SoilMoisture.ADC_ATTEN
    (fst Examples.soil_ready)
  = SoilMoisture.cali_handle (snd Examples.soil_ready).
Proof.
  assert (Hb : registry_inv (fst Examples.battery_ready)).
  { apply (proj1 (sensor_init_binds_registry_handle Examples.adc_ready adc_ready_inv)
             (BatteryMonitor.Build_init_env ESP_OK (ESP_OK, 7))
             (fst Examples.battery_ready) BatteryMonitor.boot_state
             (snd Examples.battery_ready)).
    - vm_compute. discriminate.
    - reflexivity.
    - vm_compute. reflexivity. }
  apply (proj2 (sensor_init_binds_registry_handle (fst Examples.battery_ready) Hb)
           (SoilMoisture.Build_init_env ESP_OK (ESP_OK, 9))
           (fst Examples.soil_ready) SoilMoisture.boot_state
           (snd Examples.soil_ready)).
  - vm_compute. discriminate.
  - reflexivity.
  - vm_compute. reflexivity.
Defined.

(** A second initialisation after a deinitialisation finds the handle in
    the registry. *)
Lemma create_cali_hit (st : state) (c : adc_channel_t) (a : adc_atten_t)
  (v : adc_cali_handle_t) (scheme : esp_err_t * adc_cali_handle_t) :
  adc_manager_get_cali_handle c a st <> NULL ->
  adc_manager_create_cali c a (Some v) scheme st
  = (ESP_OK, Some (adc_manager_get_cali_handle c a st), st).
Proof.
  intros H. unfold adc_manager_create_cali.
  rewrite (proj2 (non_null_true _) H). reflexivity.
Qed.

(** X5: after a successful initialisation, deinitialising a sensor and
    initialising it again (the channel configuring again) returns
    [ESP_OK] with the same calibration handle and leaves the ADC manager
    as it was: no second scheme is created and no slot is taken,
    whatever the driver would answer; while deinitialised, the sensor
    reads 0. *)
Theorem sensor_reinit_reuses_handle (adc : state) :
  registry_inv adc ->
  (forall env env2 adc' st st' drv,
     (fst (BatteryMonitor.create_scheme env) = ESP_OK ->
      snd (BatteryMonitor.create_scheme env) <> NULL) ->
     BatteryMonitor.initialized st = false ->
     BatteryMonitor.battery_monitor_init env adc st = (ESP_OK, adc', st') ->
     BatteryMonitor.config_channel env2 = ESP_OK ->
     let off := snd (BatteryMonitor.battery_monitor_deinit st') in
     BatteryMonitor.battery_monitor_read_voltage drv adc' off = F32.zero /\
     BatteryMonitor.battery_monitor_init env2 adc' off = (ESP_OK, adc', st')) /\
  (forall env env2 adc' st st' drv,
     (fst (SoilMoisture.create_scheme env) = ESP_OK ->
      snd (SoilMoisture.create_scheme env) <> NULL) ->
     SoilMoisture.initialized st = false ->
     SoilMoisture.soil_moisture_init env adc st = (ESP_OK, adc', st') ->
     SoilMoisture.config_channel env2 = ESP_OK ->
     let off := snd (SoilMoisture.soil_moisture_deinit st') in
     SoilMoisture.soil_moisture_read_percentage drv adc' off = F32.zero /\
     SoilMoisture.soil_moisture_init env2 adc' off = (ESP_OK, adc', st')).
Proof.
  intros Hinv. split.
  - intros env env2 adc' st st' drv Hs Hst Hinit Hc2 off. subst off.
    destruct (battery_init_ok env adc adc' st st' Hinv Hs Hst Hinit)
      as (Hi & Hnn & Hl & _ & Hh & _).
    unfold BatteryMonitor.battery_monitor_deinit. rewrite Hi. cbn [negb snd].
    split; [reflexivity|].
    unfold BatteryMonitor.battery_monitor_init.
    cbn [BatteryMonitor.initialized BatteryMonitor.cali_handle].
    rewrite (proj2 (non_null_true _) Hh), Hc2. cbn [negb Z.eqb ESP_OK].
    rewrite create_cali_hit by (rewrite Hl; exact Hnn).
    cbn [Z.eqb ESP_OK negb default]. rewrite Hl.
    destruct st' as [h i]. cbn in Hi. subst i. reflexivity.
  - intros env env2 adc' st st' drv Hs Hst Hinit Hc2 off. subst off.
    destruct (soil_init_ok env adc adc' st st' Hinv Hs Hst Hinit)
      as (Hi & Hnn & Hl & _ & Hh & _).
    unfold SoilMoisture.soil_moisture_deinit. rewrite Hi. cbn [negb snd].
    split; [reflexivity|].
    unfold SoilMoisture.soil_moisture_init.
    cbn [SoilMoisture.initialized SoilMoisture.cali_handle].
    rewrite (proj2 (non_null_true _) Hh), Hc2. cbn [negb Z.eqb ESP_OK].
    rewrite create_cali_hit by (rewrite Hl; exact Hnn).
    cbn [Z.eqb ESP_OK negb default]. rewrite Hl.
    destruct st' as [h i]. cbn in Hi. subst i. reflexivity.
Qed.

Lemma sensor_reinit_reuses_handle_witness :
  BatteryMonitor.battery_monitor_init
    (BatteryMonitor.Build_init_env ESP_OK (ESP_ERR_NO_MEM, 0))
    (fst Examples.battery_ready)
    (snd (BatteryMonitor.battery_monitor_deinit (snd Examples.battery_ready)))
  = (ESP_OK, fst Examples.battery_ready, snd Examples.battery_ready).
Proof.
  apply (proj1 (sensor_reinit_reuses_handle Examples.adc_ready adc_ready_inv)
           (BatteryMonitor.Build_init_env ESP_OK (ESP_OK, 7))
           (BatteryMonitor.Build_init_env ESP_OK (ESP_ERR_NO_MEM, 0))
           (fst Examples.battery_ready) BatteryMonitor.boot_state
           (snd Examples.battery_ready) (Examples.env_steady 0 0)).
  - vm_compute. discriminate.
  - reflexivity.
  - vm_compute. reflexivity.
  - reflexivity.
Defined.

(** X6: an initialiser that returns an error leaves the ADC manager
    exactly as it was and the sensor uninitialised; before
    [adc_manager_init] has produced a handle the error is
    [ESP_ERR_INVALID_STATE], and a channel that cannot be configured
    gives the driver's error, in both cases without a call of
    [adc_manager_create_cali]. *)
Theorem sensor_init_failure_changes_nothing (adc : state) :
  (forall env st,
     BatteryMonitor.initialized st = false ->
     let r := BatteryMonitor.battery_monitor_init env adc st in
     (fst (fst r) <> ESP_OK ->
      snd (fst r) = adc /\ BatteryMonitor.initialized (snd r) = false) /\
     (adc_manager_get_handle adc = NULL -> r = (ESP_ERR_INVALID_STATE, adc, st)) /\
     (adc_manager_get_handle adc <> NULL ->
      BatteryMonitor.config_channel env <> ESP_OK ->
      r = (BatteryMonitor.config_channel env, adc, st))) /\
  (forall env st,
     SoilMoisture.initialized st = false ->
     let r := SoilMoisture.soil_moisture_init env adc st in
     (fst (fst r) <> ESP_OK ->
      snd (fst r) = adc /\ SoilMoisture.initialized (snd r) = false) /\
     (adc_manager_get_handle adc = NULL -> r = (ESP_ERR_INVALID_STATE, adc, st)) /\
     (adc_manager_get_handle adc <> NULL ->
      SoilMoisture.config_channel env <> ESP_OK ->
      r = (SoilMoisture.config_channel env, adc, st))).
Proof.
  split.
  - intros env st Hst r. subst r. unfold BatteryMonitor.battery_monitor_init.
    rewrite Hst. split; [|split].
    + destruct (non_null (adc_manager_get_handle adc)); cbn [negb fst snd]; [|auto].
      destruct (BatteryMonitor.config_channel env =? ESP_OK); cbn [negb fst snd]; [|auto].
      pose proof (create_cali_error_same adc BatteryMonitor.BAT_ADC_CHAN
                    BatteryMonitor.ADC_ATTEN (Some (BatteryMonitor.cali_handle st))
                    (BatteryMonitor.create_scheme env)) as Hsame.
      destruct (adc_manager_create_cali _ _ _ _ adc) as [[err out] a'].
      cbn [fst snd] in Hsame.
      destruct (Z.eqb_spec err ESP_OK) as [->|Herr]; cbn [negb fst snd].
      * intros H. contradiction.
      * intros _. split; [apply Hsame, Herr | reflexivity].
    + intros Hnull. rewrite Hnull. reflexivity.
    + intros Hh Hc. rewrite (proj2 (non_null_true _) Hh). cbn [negb].
      rewrite (proj2 (Z.eqb_neq _ _) Hc). reflexivity.
  - intros env st Hst r. subst r. unfold SoilMoisture.soil_moisture_init.
    rewrite Hst. split; [|split].
    + destruct (non_null (adc_manager_get_handle adc)); cbn [negb fst snd]; [|auto].
      destruct (SoilMoisture.config_channel env =? ESP_OK); cbn [negb fst snd]; [|auto].
      pose proof (create_cali_error_same adc SoilMoisture.SOIL_ADC_CHAN
                    SoilMoisture.ADC_ATTEN (Some (SoilMoisture.cali_handle st))
                    (SoilMoisture.create_scheme env)) as Hsame.
      destruct (adc_manager_create_cali _ _ _ _ adc) as [[err out] a'].
      cbn [fst snd] in Hsame.
      destruct (Z.eqb_spec err ESP_OK) as [->|Herr]; cbn [negb fst snd].
      * intros H. contradiction.
      * intros _. split; [apply Hsame, Herr | reflexivity].
    + intros Hnull. rewrite Hnull. reflexivity.
    + intros Hh Hc. rewrite (proj2 (non_null_true _) Hh). cbn [negb].
      rewrite (proj2 (Z.eqb_neq _ _) Hc). reflexivity.
Qed.

Lemma sensor_init_failure_changes_nothing_witness :
  BatteryMonitor.battery_monitor_init (BatteryMonitor.Build_init_env ESP_OK (ESP_OK, 7))
    boot_state BatteryMonitor.boot_state
  = (ESP_ERR_INVALID_STATE, boot_state, BatteryMonitor.boot_state).
Proof.
  apply (proj1 (proj2 (proj1 (sensor_init_failure_changes_nothing boot_state)
                         (BatteryMonitor.Build_init_env ESP_OK (ESP_OK, 7))
                         BatteryMonitor.boot_state eq_refl))).
  reflexivity.
Defined.

End SensorLifeCycle.

(** ** battery_monitor.c and soil_moisture.c: the values read *)

Section SensorValues.

(** A function on integers that does not decrease over single steps of a
    range does not decrease over the range. *)
Lemma Q_chain (f : Z -> Q) (lo hi : Z) :
  (forall m, lo <= m < hi -> (f m <= f (m + 1)%Z)%Q) ->
  forall m1 m2, lo <= m1 -> m1 <= m2 -> m2 <= hi -> (f m1 <= f m2)%Q.
Proof.
  intros Hstep m1 m2 Hlo Hle Hhi.
  replace m2 with (m1 + Z.of_nat (Z.to_nat (m2 - m1))) in * by lia.
  revert Hhi. generalize (Z.to_nat (m2 - m1)) as n. clear Hle.
  induction n as [|n IH]; intros Hhi.
  - rewrite Z.add_0_r. apply Qle_refl.
  - replace (m1 + Z.of_nat (S n)) with (m1 + Z.of_nat n + 1) in * by lia.
    eapply Qle_trans; [apply IH; lia | apply Hstep; lia].
Qed.

Lemma Q_chain_down (f : Z -> Q) (lo hi : Z) :
  (forall m, lo <= m < hi -> (f (m + 1)%Z <= f m)%Q) ->
  forall m1 m2, lo <= m1 -> m1 <= m2 -> m2 <= hi -> (f m2 <= f m1)%Q.
Proof.
  intros Hstep m1 m2 Hlo Hle Hhi.
  replace m2 with (m1 + Z.of_nat (Z.to_nat (m2 - m1))) in * by lia.
  revert Hhi. generalize (Z.to_nat (m2 - m1)) as n. clear Hle.
  induction n as [|n IH]; intros Hhi.
  - rewrite Z.add_0_r. apply Qle_refl.
  - replace (m1 + Z.of_nat (S n)) with (m1 + Z.of_nat n + 1) in * by lia.
    eapply Qle_trans; [apply Hstep; lia | apply IH; lia].
Qed.

Lemma battery_volts_ok (m : Z) : 0 <= m < 4096 -> BatteryMonitor.volts_ok m = true.
Proof.
  intros Hm. apply (Zall_from_spec BatteryMonitor.volts_ok 4096 0);
    [vm_compute; reflexivity | lia].
Qed.

Lemma soil_volts_ok (m : Z) : 0 <= m < 4096 -> SoilMoisture.volts_ok m = true.
Proof.
  intros Hm. apply (Zall_from_spec SoilMoisture.volts_ok 4096 0);
    [vm_compute; reflexivity | lia].
Qed.

(** X7: for a calibrated pin voltage of [m] millivolts, [0 <= m < 4096],
    the battery voltage returned is a finite float within [2^-21] V of
    [2 m / 1000], it is 0 for 0 mV, and a higher pin voltage never gives
    a lower battery voltage; when the calibration call fails the result
    is 0.0. *)
Theorem battery_voltage_accuracy (env : AdcDriver.env) (st : BatteryMonitor.state) :
  (forall avg_raw m,
     AdcDriver.adc_cali_raw_to_voltage env (BatteryMonitor.cali_handle st) avg_raw
     = (ESP_OK, m) ->
     0 <= m < 4096 ->
     let v := BatteryMonitor.voltage_of_raw env st avg_raw in
     F32.is_finite v = true /\
     (Qabs (F32.to_Q v - inject_Z (2 * m) / 1000) <= 1 # 2 ^ 21)%Q /\
     (m = 0 -> v = F32.zero) /\
     forall avg_raw2 m2,
       AdcDriver.adc_cali_raw_to_voltage env (BatteryMonitor.cali_handle st) avg_raw2
       = (ESP_OK, m2) ->
       m <= m2 < 4096 ->
       (F32.to_Q v <= F32.to_Q (BatteryMonitor.voltage_of_raw env st avg_raw2))%Q) /\
  (forall avg_raw,
     fst (AdcDriver.adc_cali_raw_to_voltage env (BatteryMonitor.cali_handle st) avg_raw)
     <> ESP_OK ->
     BatteryMonitor.voltage_of_raw env st avg_raw = F32.zero).
Proof.
  split.
  - intros avg_raw m Hcali Hm v. subst v. unfold BatteryMonitor.voltage_of_raw.
    rewrite Hcali. cbn [Z.eqb ESP_OK negb]. fold (BatteryMonitor.volts_of_mV m).
    pose proof (battery_volts_ok m Hm) as Hok. unfold BatteryMonitor.volts_ok in Hok.
    apply andb_true_iff in Hok as [Hok _]. apply andb_true_iff in Hok as [Hfin Hclose].
    split; [exact Hfin|]. split; [apply Qle_bool_iff; exact Hclose|].
    split; [intros ->; reflexivity|].
    intros avg_raw2 m2 Hcali2 Hm2. rewrite Hcali2. cbn [Z.eqb ESP_OK negb].
    fold (BatteryMonitor.volts_of_mV m2).
    apply (Q_chain (fun x => F32.to_Q (BatteryMonitor.volts_of_mV x)) 0 4095); try lia.
    intros x Hx. pose proof (battery_volts_ok x ltac:(lia)) as Hx'.
    unfold BatteryMonitor.volts_ok in Hx'. apply andb_true_iff in Hx' as [_ Hx'].
    apply Qle_bool_iff. exact Hx'.
  - intros avg_raw Herr. unfold BatteryMonitor.voltage_of_raw.
    destruct (AdcDriver.adc_cali_raw_to_voltage _ _ _) as [err mv]. cbn [fst] in Herr.
    rewrite (proj2 (Z.eqb_neq _ _) Herr). reflexivity.
Qed.

Lemma battery_voltage_accuracy_witness :
  (Qabs (F32.to_Q (BatteryMonitor.voltage_of_raw (Examples.env_steady 2300 1850)
                     (snd Examples.battery_ready) 2300)
         - inject_Z (2 * 1850) / 1000) <= 1 # 2 ^ 21)%Q.
Proof.
  apply (proj1 (battery_voltage_accuracy (Examples.env_steady 2300 1850)
                  (snd Examples.battery_ready)) 2300 1850).
  - reflexivity.
  - lia.
Defined.

(** X8: for a calibrated voltage of [m] millivolts, [0 <= m < 4096],
    [soil_moisture_read_voltage] converts to a finite float within
    [2^-22] V of [m / 1000], 0 for 0 mV, and never lower for a higher
    [m]; when the calibration call fails the result is 0.0. *)
Theorem soil_voltage_accuracy (env : AdcDriver.env) (st : SoilMoisture.state) :
  (forall avg_raw m,
     AdcDriver.adc_cali_raw_to_voltage env (SoilMoisture.cali_handle st) avg_raw
     = (ESP_OK, m) ->
     0 <= m < 4096 ->
     let v := SoilMoisture.voltage_of_raw env st avg_raw in
     F32.is_finite v = true /\
     (Qabs (F32.to_Q v - inject_Z m / 1000) <= 1 # 2 ^ 22)%Q /\
     (m = 0 -> v = F32.zero) /\
     forall avg_raw2 m2,
       AdcDriver.adc_cali_raw_to_voltage env (SoilMoisture.cali_handle st) avg_raw2
       = (ESP_OK, m2) ->
       m <= m2 < 4096 ->
       (F32.to_Q v <= F32.to_Q (SoilMoisture.voltage_of_raw env st avg_raw2))%Q) /\
  (forall avg_raw,
     fst (AdcDriver.adc_cali_raw_to_voltage env (SoilMoisture.cali_handle st) avg_raw)
     <> ESP_OK ->
     SoilMoisture.voltage_of_raw env st avg_raw = F32.zero).
Proof.
  split.
  - intros avg_raw m Hcali Hm v. subst v. unfold SoilMoisture.voltage_of_raw.
    rewrite Hcali. cbn [Z.eqb ESP_OK negb]. fold (SoilMoisture.volts_of_mV m).
    pose proof (soil_volts_ok m Hm) as Hok. unfold SoilMoisture.volts_ok in Hok.
    apply andb_true_iff in Hok as [Hok _]. apply andb_true_iff in Hok as [Hfin Hclose].
    split; [exact Hfin|]. split; [apply Qle_bool_iff; exact Hclose|].
    split; [intros ->; reflexivity|].
    intros avg_raw2 m2 Hcali2 Hm2. rewrite Hcali2. cbn [Z.eqb ESP_OK negb].
    fold (SoilMoisture.volts_of_mV m2).
    apply (Q_chain (fun x => F32.to_Q (SoilMoisture.volts_of_mV x)) 0 4095); try lia.
    intros x Hx. pose proof (soil_volts_ok x ltac:(lia)) as Hx'.
    unfold SoilMoisture.volts_ok in Hx'. apply andb_true_iff in Hx' as [_ Hx'].
    apply Qle_bool_iff. exact Hx'.
  - intros avg_raw Herr. unfold SoilMoisture.voltage_of_raw.
    destruct (AdcDriver.adc_cali_raw_to_voltage _ _ _) as [err mv]. cbn [fst] in Herr.
    rewrite (proj2 (Z.eqb_neq _ _) Herr). reflexivity.
Qed.

Lemma soil_voltage_accuracy_witness :
  (Qabs (F32.to_Q (SoilMoisture.voltage_of_raw (Examples.env_steady 2300 1850)
                     (snd Examples.soil_ready) 2300)
         - inject_Z 1850 / 1000) <= 1 # 2 ^ 22)%Q.
Proof.
  apply (proj1 (soil_voltage_accuracy (Examples.env_steady 2300 1850)
                  (snd Examples.soil_ready)) 2300 1850).
  - reflexivity.
  - lia.
Defined.

Lemma sum_list_between (l : list Z) (lo hi : Z) :
  Forall (fun r => lo <= r <= hi) l ->
  Z.of_nat (length l) * lo <= Sampling.sum_list l <= Z.of_nat (length l) * hi.
Proof.
  unfold Sampling.sum_list.
  induction 1 as [|r l Hr _ IH]; cbn [fold_right length]; lia.
Qed.

(** X9: with at least one valid read, the raw average lies between the
    smallest and the largest valid raw sample: whatever bounds hold for
    every valid sample hold for the average, and failed reads have no
    influence.  Raw samples are non-negative and their sum fits
    [uint32_t]. *)
Theorem average_between_extremes
  (read : nat -> esp_err_t * Z) (N : nat) (lo hi : Z) :
  Z.of_nat N < 2 ^ 31 ->
  (1 <= length (Sampling.valid_values read 0 N))%nat ->
  Sampling.no_overflow (Sampling.valid_values read 0 N) ->
  Forall (fun r => lo <= r <= hi) (Sampling.valid_values read 0 N) ->
  exists avg : Z, Sampling.average_raw read N = Some avg /\ lo <= avg <= hi.
Proof.
  intros HN Hk Hno Hb.
  rewrite (average_raw_mean read N HN Hk Hno).
  eexists. split; [reflexivity|].
  pose proof (sum_list_between _ lo hi Hb) as Hs.
  set (k := Z.of_nat (length (Sampling.valid_values read 0 N))) in *.
  assert (0 < k) by lia. split.
  - apply Z.div_le_lower_bound; lia.
  - apply Z.div_le_upper_bound; lia.
Qed.

Lemma average_between_extremes_witness :
  exists avg : Z,
    Sampling.average_raw (AdcDriver.adc_oneshot_read Examples.env_flaky 1 1) 10 = Some avg
    /\ 2001 <= avg <= 2009.
Proof.
  apply (average_between_extremes (AdcDriver.adc_oneshot_read Examples.env_flaky 1 1)
           10 2001 2009).
  - vm_compute. reflexivity.
  - vm_compute. lia.
  - split; [repeat constructor; vm_compute; intuition discriminate
           | vm_compute; reflexivity].
  - repeat constructor; vm_compute; discriminate.
Defined.

Lemma end_to_end_step (m : Z) :
  0 <= m < 4095 ->
  (F32.to_Q (SoilMoisture.end_to_end (m + 1)%Z) <= F32.to_Q (SoilMoisture.end_to_end m))%Q.
Proof.
  intros Hm. apply Qle_bool_iff. change (SoilMoisture.end_to_end_step_ok m = true).
  apply (Zall_from_spec SoilMoisture.end_to_end_step_ok 4095 0);
    [vm_compute; reflexivity | lia].
Qed.

Lemma soil_read_calibrated
  (env : AdcDriver.env) (adc : AdcManager.state) (st : SoilMoisture.state)
  (avg_raw m : Z) :
  SoilMoisture.initialized st = true ->
  non_null (AdcManager.adc_manager_get_handle adc) = true ->
  Sampling.average_raw
    (AdcDriver.adc_oneshot_read env (AdcManager.adc_manager_get_handle adc)
       SoilMoisture.SOIL_ADC_CHAN) SoilMoisture.SAMPLE_COUNT = Some avg_raw ->
  AdcDriver.adc_cali_raw_to_voltage env (SoilMoisture.cali_handle st) avg_raw
  = (ESP_OK, m) ->
  SoilMoisture.soil_moisture_read_percentage env adc st = SoilMoisture.end_to_end m.
Proof.
  intros Hi Hh Havg Hcali.
  rewrite (read_percentage_unfold env adc st Hi).
  unfold SoilMoisture.soil_moisture_read_voltage, SoilMoisture.voltage_of_raw.
  rewrite Hi, Hh. cbn [negb]. rewrite Havg, Hcali. reflexivity.
Qed.

(** X10: end to end, for a reading that calibrates to [m] millivolts,
    [0 <= m < 4096], [soil_moisture_read_percentage] returns what the
    interpolation rule gives for [m] or for [m - 1] (the millivolts are
    recomputed from the float voltage and can come out one lower), and a
    reading that calibrates higher never gives a larger percentage. *)
Theorem soil_percentage_end_to_end
  (env : AdcDriver.env) (adc : AdcManager.state) (st : SoilMoisture.state)
  (avg_raw m : Z) :
  SoilMoisture.initialized st = true ->
  non_null (AdcManager.adc_manager_get_handle adc) = true ->
  Sampling.average_raw
    (AdcDriver.adc_oneshot_read env (AdcManager.adc_manager_get_handle adc)
       SoilMoisture.SOIL_ADC_CHAN) SoilMoisture.SAMPLE_COUNT = Some avg_raw ->
  AdcDriver.adc_cali_raw_to_voltage env (SoilMoisture.cali_handle st) avg_raw
  = (ESP_OK, m) ->
  0 <= m < 4096 ->
  let p := SoilMoisture.soil_moisture_read_percentage env adc st in
  (p = SoilMoisture.percentage_of_mV m \/ p = SoilMoisture.percentage_of_mV (m - 1)) /\
  forall env2 adc2 st2 avg_raw2 m2,
    SoilMoisture.initialized st2 = true ->
    non_null (AdcManager.adc_manager_get_handle adc2) = true ->
    Sampling.average_raw
      (AdcDriver.adc_oneshot_read env2 (AdcManager.adc_manager_get_handle adc2)
         SoilMoisture.SOIL_ADC_CHAN) SoilMoisture.SAMPLE_COUNT = Some avg_raw2 ->
    AdcDriver.adc_cali_raw_to_voltage env2 (SoilMoisture.cali_handle st2) avg_raw2
    = (ESP_OK, m2) ->
    m <= m2 < 4096 ->
    (F32.to_Q (SoilMoisture.soil_moisture_read_percentage env2 adc2 st2) <= F32.to_Q p)%Q.
Proof.
  intros Hi Hh Havg Hcali Hm p. subst p. split.
  - apply (read_percentage_of_calibrated env adc st avg_raw m); assumption.
  - intros env2 adc2 st2 avg_raw2 m2 Hi2 Hh2 Havg2 Hcali2 Hm2.
    rewrite (soil_read_calibrated env adc st avg_raw m Hi Hh Havg Hcali).
    rewrite (soil_read_calibrated env2 adc2 st2 avg_raw2 m2 Hi2 Hh2 Havg2 Hcali2).
    apply (Q_chain_down (fun x => F32.to_Q (SoilMoisture.end_to_end x)) 0 4095); try lia.
    intros x Hx. apply end_to_end_step. lia.
Qed.

Lemma soil_percentage_end_to_end_witness :
  SoilMoisture.soil_moisture_read_percentage (Examples.env_steady 2300 2001)
    (fst Examples.soil_ready) (snd Examples.soil_ready)
  = SoilMoisture.percentage_of_mV 2001 \/
  SoilMoisture.soil_moisture_read_percentage (Examples.env_steady 2300 2001)
    (fst Examples.soil_ready) (snd Examples.soil_ready)
  = SoilMoisture.percentage_of_mV (2001 - 1).
Proof.
  apply (soil_percentage_end_to_end (Examples.env_steady 2300 2001)
           (fst Examples.soil_ready) (snd Examples.soil_ready) 2300 2001).
  - reflexivity.
  - reflexivity.
  - vm_compute. reflexivity.
  - reflexivity.
  - lia.
Defined.

(** X11: on an initialised soil sensor, a read that fails (no ADC handle,
    every sample read failing, or the calibration call failing) makes
    [soil_moisture_read_percentage] report 100: the 0.0 V that
    [soil_moisture_read_voltage] returns for the failure is below the wet
    calibration point. *)
Theorem soil_percentage_on_failed_read
  (env : AdcDriver.env) (adc : AdcManager.state) (st : SoilMoisture.state) :
  SoilMoisture.initialized st = true ->
  AdcManager.adc_manager_get_handle adc = NULL \/
  Sampling.valid_values
    (AdcDriver.adc_oneshot_read env (AdcManager.adc_manager_get_handle adc)
       SoilMoisture.SOIL_ADC_CHAN) 0 SoilMoisture.SAMPLE_COUNT = [] \/
  (forall avg_raw,
     fst (AdcDriver.adc_cali_raw_to_voltage env (SoilMoisture.cali_handle st) avg_raw)
     <> ESP_OK) ->
  SoilMoisture.soil_moisture_read_voltage env adc st = F32.zero /\
  SoilMoisture.soil_moisture_read_percentage env adc st = F32.of_int 100.
Proof.
  intros Hi Hcause.
  assert (Hv : SoilMoisture.soil_moisture_read_voltage env adc st = F32.zero).
  { destruct Hcause as [Hnull|[Hfail|Hcali]].
    - unfold SoilMoisture.soil_moisture_read_voltage. rewrite Hi, Hnull. reflexivity.
    - apply soil_read_all_fail, Hfail.
    - unfold SoilMoisture.soil_moisture_read_voltage, SoilMoisture.voltage_of_raw.
      rewrite Hi. cbn [negb].
      destruct (non_null _); cbn [negb]; [|reflexivity].
      destruct (Sampling.average_raw _ _) as [avg|]; [|reflexivity].
      specialize (Hcali avg).
      destruct (AdcDriver.adc_cali_raw_to_voltage _ _ _) as [err mv]. cbn [fst] in Hcali.
      rewrite (proj2 (Z.eqb_neq _ _) Hcali). reflexivity. }
  split; [exact Hv|].
  rewrite (read_percentage_unfold env adc st Hi), Hv. reflexivity.
Qed.

Lemma soil_percentage_on_failed_read_witness :
  SoilMoisture.soil_moisture_read_percentage Examples.env_all_fail
    (fst Examples.soil_ready) (snd Examples.soil_ready) = F32.of_int 100.
Proof.
  apply (soil_percentage_on_failed_read Examples.env_all_fail
           (fst Examples.soil_ready) (snd Examples.soil_ready)).
  - reflexivity.
  - right. left. vm_compute. reflexivity.
Defined.

End SensorValues.

(** ** mqtt_publisher.c: publishing *)

Section MqttPublishing.

Import MqttPublisher.

(** Case analysis on every [match] and [if] of the goal. *)
Ltac split_matches :=
  repeat match goal with
         | |- context [match ?x with _ => _ end] => destruct x eqn:?
         end.

(** X12: [mqtt_publisher_publish_telemetry] returns [ESP_OK] exactly when
    the client exists, the connected flag is set, a base topic is
    configured, the formatted payload fits the 192-byte buffer and the
    client accepts the message; a message reaches the client only with
    client, flag, topic and a fitting payload, and it carries the
    configured topic and the values passed in; with the flag clear the
    result is [ESP_FAIL] and nothing reaches the client. *)
Theorem publish_ok_iff (env : publish_env) (battery_voltage soil_moisture : F32.float)
  (device_name : string) (st : state) :
  let r := mqtt_publisher_publish_telemetry env battery_voltage soil_moisture
             device_name st in
  (fst r = ESP_OK <->
   client st <> NULL /\ mqtt_connected st = true /\
   (exists topic, base_topic st = Some topic) /\
   0 <= snprintf_len env < 192 /\ 0 <= publish_msg_id env) /\
  (forall msg, snd r = Some msg ->
     client st <> NULL /\ mqtt_connected st = true /\
     0 <= snprintf_len env < 192 /\
     base_topic st = Some (msg_topic msg) /\
     msg_battery msg = battery_voltage /\
     msg_soil_moisture msg = soil_moisture /\
     msg_device msg = device_name) /\
  (mqtt_connected st = false -> r = (ESP_FAIL, None)) /\
  (fst r = ESP_OK \/ fst r = ESP_FAIL \/ fst r = ESP_ERR_INVALID_STATE).
Proof.
  intros r. subst r. unfold mqtt_publisher_publish_telemetry.
  assert (Hcodes : ESP_FAIL <> ESP_OK /\ ESP_ERR_INVALID_STATE <> ESP_OK)
    by (split; discriminate).
  destruct Hcodes as [Hfail Hstate].
  pose proof (non_null_true (client st)) as Hnn.
  destruct (non_null (client st)); cbn [negb orb];
    [|repeat split; cbn [fst snd]; intros;
      repeat match goal with H : _ /\ _ |- _ => destruct H end;
      try discriminate; try tauto; intuition congruence].
  assert (Hc : client st <> NULL) by (apply Hnn; reflexivity). clear Hnn.
  destruct (mqtt_connected st); cbn [negb];
    [|repeat split; cbn [fst snd]; intros;
      repeat match goal with H : _ /\ _ |- _ => destruct H end;
      try discriminate; try tauto].
  destruct (base_topic st) as [topic|];
    [|repeat split; cbn [fst snd]; intros;
      repeat match goal with
             | H : _ /\ _ |- _ => destruct H
             | H : exists _, _ |- _ => destruct H
             end;
      try discriminate; try tauto].
  rewrite Z.geb_leb.
  destruct (Z.ltb_spec (snprintf_len env) 0) as [H1|H1]; cbn [orb];
    [repeat split; cbn [fst snd]; intros;
     repeat match goal with H : _ /\ _ |- _ => destruct H end;
     try discriminate; try tauto; try lia|].
  destruct (Z.leb_spec 192 (snprintf_len env)) as [H2|H2];
    [repeat split; cbn [fst snd]; intros;
     repeat match goal with H : _ /\ _ |- _ => destruct H end;
     try discriminate; try tauto; try lia|].
  destruct (Z.ltb_spec (publish_msg_id env) 0) as [H3|H3]; cbn [fst snd].
  - repeat split; intros;
      repeat match goal with
             | H : _ /\ _ |- _ => destruct H
             | H : Some _ = Some _ |- _ => injection H as <-
             end;
      try discriminate; try tauto; try lia; auto.
  - repeat split; intros;
      repeat match goal with
             | H : _ /\ _ |- _ => destruct H
             | H : Some _ = Some _ |- _ => injection H as <-
             end;
      try discriminate; try tauto; try lia; eauto.
Qed.

Lemma deliver_keeps_false (events : list Z) :
  forall st : state,
    mqtt_connected st = false -> mqtt_connected (deliver events st) = false.
Proof.
  induction events as [|e events IH]; intros st Hst; [exact Hst|].
  unfold deliver in *. cbn [fold_left]. apply IH, handler_clears_flag, Hst.
Qed.

Lemma wait_mqtt_keeps_false (events : nat -> list Z) (fuel : nat) :
  forall (wait_count : nat) (m : state),
    mqtt_connected m = false ->
    mqtt_connected (Main.wait_mqtt events wait_count fuel m) = false.
Proof.
  induction fuel as [|fuel IH]; intros wait_count m Hm; cbn [Main.wait_mqtt]; [exact Hm|].
  unfold mqtt_publisher_is_connected. rewrite Hm.
  apply IH, deliver_keeps_false, Hm.
Qed.

Lemma mqtt_init_keeps_flag (env : init_env) (config : option string) (st : state) :
  mqtt_connected (snd (mqtt_publisher_init env config st)) = mqtt_connected st.
Proof.
  unfold mqtt_publisher_init. destruct config; [|reflexivity].
  split_matches; reflexivity.
Qed.

Lemma publish_once_not_connected (penv : Main.publish_env) (sys : Main.system) :
  mqtt_connected (Main.mqtt sys) = false ->
  exists sys', Main.publish_telemetry_once penv sys = (ESP_FAIL, sys', None).
Proof.
  intros Hm. unfold Main.publish_telemetry_once.
  unfold mqtt_publisher_is_connected.
  rewrite (wait_mqtt_keeps_false _ _ 0%nat (Main.mqtt sys) Hm). cbn [negb]. eauto.
Qed.

Lemma init_system_keeps_mqtt (env : Main.init_env) (sys sys' : Main.system)
  (err : esp_err_t) :
  Main.init_system env sys = Main.Returns (err, sys') ->
  Main.mqtt sys' = Main.mqtt sys.
Proof.
  unfold Main.init_system.
  destruct (Main.init_nvs env sys) as [[ret sys0]|] eqn:Hnvs; [|discriminate].
  assert (H0 : Main.mqtt sys0 = Main.mqtt sys).
  { revert Hnvs. unfold Main.init_nvs.
    split_matches; try discriminate; intros [= _ <-]; reflexivity. }
  split_matches; intros [= _ <-]; exact H0.
Qed.

Lemma setup_wifi_keeps_mqtt (env : Main.wifi_env) (sys : Main.system) :
  Main.mqtt (snd (Main.setup_wifi env sys)) = Main.mqtt sys.
Proof. unfold Main.setup_wifi. split_matches; reflexivity. Qed.

Lemma setup_mqtt_keeps_flag (f : Nvs.faults) (prefix : string) (env : init_env)
  (sys : Main.system) :
  mqtt_connected (Main.mqtt (snd (Main.setup_mqtt f prefix env sys)))
  = mqtt_connected (Main.mqtt sys).
Proof.
  unfold Main.setup_mqtt.
  pose proof (mqtt_init_keeps_flag env
    (Some (Main.truncate 128
       (prefix ++
        match WifiCredentials.wifi_credentials_load_device_id f 33 (Main.store sys) with
        | Some id => id
        | None => Main.truncate 33 Main.DEFAULT_DEVICE_ID
        end)))
    (Main.mqtt sys)) as H.
  destruct (mqtt_publisher_init _ _ _) as [err m]. exact H.
Qed.

(** X13: with every event handled to completion before the flag is
    polled, a boot never publishes: from the boot state the connected
    flag is clear whenever [publish_telemetry_once] polls it, so it
    returns [ESP_FAIL] after its 30 polls and hands no message to the
    client, and no trace of [app_main] contains a published message. *)
Theorem boot_never_publishes (env : Main.boot_env) (s : Nvs.store) :
  (forall penv sys,
     mqtt_connected (Main.mqtt sys) = false ->
     exists sys', Main.publish_telemetry_once penv sys = (ESP_FAIL, sys', None)) /\
  (forall sent,
     In (Main.PublishTelemetry sent) (Main.app_main env (Main.boot_system s)) ->
     sent = None).
Proof.
  split; [intros penv sys; apply publish_once_not_connected|].
  intros sent. unfold Main.app_main.
  destruct (Main.init_system (Main.init env) (Main.boot_system s)) as [[err sys1]|] eqn:Hinit;
    [|cbn; intuition discriminate].
  apply init_system_keeps_mqtt in Hinit.
  destruct (negb (err =? ESP_OK)); [cbn; intuition discriminate|].
  pose proof (setup_wifi_keeps_mqtt (Main.wifi env) sys1) as Hw.
  destruct (Main.setup_wifi (Main.wifi env) sys1) as [[err2| |] sys2];
    [|cbn; intuition discriminate..].
  cbn [snd] in Hw.
  destruct (negb (err2 =? ESP_OK)); [cbn; intuition discriminate|].
  pose proof (setup_mqtt_keeps_flag (Main.nvs_faults (Main.wifi env))
                (Main.topic_prefix env) (Main.mqtt_init env) sys2) as Hm.
  destruct (Main.setup_mqtt _ _ _ sys2) as [err3 sys3]. cbn [snd] in Hm.
  destruct (negb (err3 =? ESP_OK)); [cbn; intuition discriminate|].
  assert (Hflag : mqtt_connected (Main.mqtt sys3) = false)
    by (rewrite Hm, Hw, Hinit; reflexivity).
  destruct (publish_once_not_connected (Main.publish env) sys3 Hflag) as [sys4 Hp].
  rewrite Hp. cbn [In]. intros [H|[H|[H|[H|[H|[]]]]]]; try discriminate H.
  injection H as <-. reflexivity.
Qed.

Lemma boot_never_publishes_witness :
  exists sys',
    Main.publish_telemetry_once (Main.publish Examples.boot_sensors_fail)
      (Main.boot_system Examples.provisioned_store)
    = (ESP_FAIL, sys', None).
Proof.
  apply (proj1 (boot_never_publishes Examples.boot_sensors_fail Examples.provisioned_store)).
  reflexivity.
Defined.

End MqttPublishing.

(** ** main.c: the course of a boot *)

Section BootCourse.

Import Main.

Ltac split_all :=
  repeat match goal with
         | |- context [match ?x with _ => _ end] => destruct x eqn:?
         end.

Ltac trace_leaf :=
  cbn;
  repeat match goal with |- _ /\ _ => split end;
  try lia; try reflexivity;
  try (repeat constructor; fail);
  try (intros; discriminate);
  try (intros; reflexivity);
  try (intros n [= <-]; reflexivity);
  try (intros _; assumption);
  try (intros _; split; assumption);
  try (intros sent H;
       repeat (destruct H as [H|H]; [discriminate H|]);
       contradiction).

Lemma init_system_aborts (env : init_env) (sys : system) :
  init_system env sys = Aborts -> nvs_erase_fails env.
Proof.
  unfold init_system, init_nvs, nvs_erase_fails.
  destruct (Z.eqb_spec (nvs_flash_init env) ESP_ERR_NVS_NO_FREE_PAGES) as [Hp|Hp];
    [|destruct (Z.eqb_spec (nvs_flash_init env) ESP_ERR_NVS_NEW_VERSION_FOUND) as [Hv|Hv]];
    cbn [orb].
  1,2: destruct (Z.eqb_spec (nvs_flash_erase env) ESP_OK) as [He|He]; cbn [negb];
       [split_all; discriminate | intros _; tauto].
  split_all; discriminate.
Qed.

(** X14: every trace of [app_main] starts with system initialisation, has
    two to five steps, and ends in deep sleep for
    [DEEP_SLEEP_INTERVAL_SEC], a restart, an abort or an unbounded wait;
    no other step ends a boot and deep sleep is never entered with
    another interval.  The abort comes only from a failing NVS erase,
    the unbounded wait only from a provisioning session the operator
    never completes, and a boot that reaches telemetry publishing always
    ends in deep sleep. *)
Theorem app_main_ends (env : boot_env) (sys : system) :
  let trace := app_main env sys in
  let final := List.last trace InitSystem in
  hd_error trace = Some InitSystem /\
  (2 <= length trace <= 5)%nat /\
  Boot.terminal final = true /\
  Forall (fun s => Boot.terminal s = false) (removelast trace) /\
  (forall n, final = DeepSleep n -> n = DEEP_SLEEP_INTERVAL_SEC) /\
  (final = Abort -> nvs_erase_fails (init env)) /\
  (final = WaitForever ->
   wifi_provisioning_start (wifi env) = ESP_OK /\
   provisioning_completes (wifi env) = false) /\
  (forall sent, In (PublishTelemetry sent) trace ->
     final = DeepSleep DEEP_SLEEP_INTERVAL_SEC).
Proof.
  intros trace final. subst final trace. unfold app_main.
  destruct (init_system (init env) sys) as [[err sys1]|] eqn:Hinit.
  2:{ apply init_system_aborts in Hinit. trace_leaf. }
  destruct (negb (err =? ESP_OK)); [trace_leaf|].
  unfold setup_wifi.
  destruct (negb (WifiCredentials.wifi_credentials_is_provisioned _ _)).
  - destruct (Z.eqb_spec (wifi_provisioning_start (wifi env)) ESP_OK) as [Hs|Hs];
      cbn [negb]; [|trace_leaf].
    destruct (provisioning_completes (wifi env)) eqn:Hc; trace_leaf.
  - destruct (negb (wifi_manager_init_sta (wifi env) =? ESP_OK)) eqn:Hsta.
    + rewrite Hsta. trace_leaf.
    + destruct (negb (wifi_manager_wait_connected (wifi env))); [trace_leaf|].
      cbn [Z.eqb ESP_OK negb].
      destruct (setup_mqtt _ _ _ sys1) as [err3 sys3].
      destruct (negb (err3 =? ESP_OK)); [trace_leaf|].
      destruct (publish_telemetry_once _ sys3) as [[e4 s4] sent4]. trace_leaf.
Qed.

End BootCourse.

(** ** wifi_credentials.c: what is written can be read back *)

Section CredentialStore.

Import WifiCredentials.

Ltac read_step call :=
  let H := fresh "Hcall" in
  destruct (Z.eqb_spec call ESP_OK) as [H|H];
  cbv beta iota zeta;
  cbv beta iota delta [negb].

(** The provisioned check, when its two NVS calls go through, reads the
    stored flag. *)
Lemma is_provisioned_reads (f : Nvs.faults) (s : Nvs.store) :
  f Nvs.Open = ESP_OK -> f (Nvs.GetU8 NVS_KEY_PROVISIONED) = ESP_OK ->
  wifi_credentials_is_provisioned f s =
  match s !! NVS_KEY_PROVISIONED with
  | Some (Nvs.U8 v) => v =? 1
  | _ => false
  end.
Proof.
  intros Ho Hg. unfold wifi_credentials_is_provisioned, Nvs.nvs_open, Nvs.nvs_get_u8.
  rewrite Ho, Hg. cbn [Z.eqb ESP_OK negb].
  destruct (s !! NVS_KEY_PROVISIONED) as [[v|v]|]; reflexivity.
Qed.

(** Without a stored flag nothing is provisioned, whatever NVS answers. *)
Lemma is_provisioned_no_flag (f : Nvs.faults) (s : Nvs.store) :
  s !! NVS_KEY_PROVISIONED = None -> wifi_credentials_is_provisioned f s = false.
Proof.
  intros Hs. unfold wifi_credentials_is_provisioned, Nvs.nvs_open, Nvs.nvs_get_u8.
  destruct (f Nvs.Open =? ESP_OK); cbn [negb]; [|reflexivity].
  rewrite Hs.
  destruct (Z.eqb_spec (f (Nvs.GetU8 NVS_KEY_PROVISIONED)) ESP_OK) as [H|H].
  - reflexivity.
  - rewrite (proj2 (Z.eqb_neq _ _) H). reflexivity.
Qed.

Lemma get_str_reads (f : Nvs.faults) (key : string) (len : nat) (s : Nvs.store) :
  f (Nvs.GetStr key) = ESP_OK ->
  Nvs.nvs_get_str f key len s =
  match s !! key with
  | Some (Nvs.Str v) =>
      if (String.length v <? len)%nat then (ESP_OK, Some v)
      else (Nvs.ESP_ERR_NVS_INVALID_LENGTH, None)
  | _ => (Nvs.ESP_ERR_NVS_NOT_FOUND, None)
  end.
Proof. intros Hg. unfold Nvs.nvs_get_str. rewrite Hg. reflexivity. Qed.

Lemma get_str_absent (f : Nvs.faults) (key : string) (len : nat) (s : Nvs.store) :
  s !! key = None -> snd (Nvs.nvs_get_str f key len s) = None /\
                     fst (Nvs.nvs_get_str f key len s) <> ESP_OK.
Proof.
  intros Hs. unfold Nvs.nvs_get_str. rewrite Hs.
  destruct (Z.eqb_spec (f (Nvs.GetStr key)) ESP_OK) as [H|H]; cbn [fst snd].
  - split; [reflexivity|discriminate].
  - split; [reflexivity|exact H].
Qed.

Lemma load_reads (f : Nvs.faults) (n1 n2 : nat) (s : Nvs.store) :
  Boot.reads_ok f ->
  wifi_credentials_load f n1 n2 s =
  match s !! NVS_KEY_SSID, s !! NVS_KEY_PASSWORD with
  | Some (Nvs.Str a), Some (Nvs.Str b) =>
      if (String.length a <? n1)%nat && (String.length b <? n2)%nat
      then Some (a, b) else None
  | _, _ => None
  end.
Proof.
  intros (Ho & Hs & Hp & _ & _). unfold wifi_credentials_load, Nvs.nvs_open.
  rewrite Ho. cbn [Z.eqb ESP_OK negb].
  rewrite (get_str_reads f NVS_KEY_SSID n1 s Hs), (get_str_reads f NVS_KEY_PASSWORD n2 s Hp).
  destruct (s !! NVS_KEY_SSID) as [[a|a]|];
    [destruct (String.length a <? n1)%nat|..];
    destruct (s !! NVS_KEY_PASSWORD) as [[b|b]|];
    try destruct (String.length b <? n2)%nat; reflexivity.
Qed.

Lemma load_device_id_reads (f : Nvs.faults) (n : nat) (s : Nvs.store) :
  Boot.reads_ok f ->
  wifi_credentials_load_device_id f n s =
  match s !! NVS_KEY_DEVICE_ID with
  | Some (Nvs.Str v) => if (String.length v <? n)%nat then Some v else None
  | _ => None
  end.
Proof.
  intros (Ho & _ & _ & Hd & _). unfold wifi_credentials_load_device_id, Nvs.nvs_open.
  rewrite Ho. cbn [Z.eqb ESP_OK negb].
  rewrite (get_str_reads f NVS_KEY_DEVICE_ID n s Hd).
  destruct (s !! NVS_KEY_DEVICE_ID) as [[v|v]|]; try reflexivity.
  destruct (String.length v <? n)%nat; reflexivity.
Qed.

(** Reads depend on the store only through the key they ask for. *)
Lemma is_provisioned_same_flag (f : Nvs.faults) (s s' : Nvs.store) :
  s' !! NVS_KEY_PROVISIONED = s !! NVS_KEY_PROVISIONED ->
  wifi_credentials_is_provisioned f s' = wifi_credentials_is_provisioned f s.
Proof.
  intros H. unfold wifi_credentials_is_provisioned, Nvs.nvs_get_u8. rewrite H. reflexivity.
Qed.

Lemma load_same_keys (f : Nvs.faults) (n1 n2 : nat) (s s' : Nvs.store) :
  s' !! NVS_KEY_SSID = s !! NVS_KEY_SSID ->
  s' !! NVS_KEY_PASSWORD = s !! NVS_KEY_PASSWORD ->
  wifi_credentials_load f n1 n2 s' = wifi_credentials_load f n1 n2 s.
Proof.
  intros H1 H2. unfold wifi_credentials_load, Nvs.nvs_get_str. rewrite H1, H2. reflexivity.
Qed.

Lemma load_device_id_same_key (f : Nvs.faults) (n : nat) (s s' : Nvs.store) :
  s' !! NVS_KEY_DEVICE_ID = s !! NVS_KEY_DEVICE_ID ->
  wifi_credentials_load_device_id f n s' = wifi_credentials_load_device_id f n s.
Proof.
  intros H. unfold wifi_credentials_load_device_id, Nvs.nvs_get_str. rewrite H. reflexivity.
Qed.

(** The store after [wifi_credentials_save_device_id]: the one key
    written, or nothing. *)
Lemma save_device_id_store (f : Nvs.faults) (device_id : string) (s : Nvs.store) :
  let r := wifi_credentials_save_device_id f device_id s in
  (snd r = s /\ fst r <> ESP_OK) \/
  snd r = <[NVS_KEY_DEVICE_ID := Nvs.Str device_id]> s.
Proof.
  cbv zeta. unfold wifi_credentials_save_device_id, Nvs.nvs_open, Nvs.nvs_set_str.
  destruct (Z.eqb_spec (f Nvs.Open) ESP_OK) as [Ho|Ho]; cbn [negb].
  2:{ left. split; [reflexivity|exact Ho]. }
  destruct (Z.eqb_spec (f (Nvs.SetStr NVS_KEY_DEVICE_ID)) ESP_OK) as [Hs|Hs].
  - cbn [Z.eqb ESP_OK negb]. right. reflexivity.
  - rewrite (proj2 (Z.eqb_neq _ _) Hs). cbn [negb]. left. split; [reflexivity|exact Hs].
Qed.

(** The store after [wifi_credentials_save]: a prefix of its three
    writes, all three when it returns [ESP_OK]. *)
Lemma save_store_prefix (f : Nvs.faults) (ssid password : string) (s : Nvs.store) :
  let r := wifi_credentials_save f ssid password s in
  let s1 := <[NVS_KEY_SSID := Nvs.Str ssid]> s in
  let s2 := <[NVS_KEY_PASSWORD := Nvs.Str password]> s1 in
  let s3 := <[NVS_KEY_PROVISIONED := Nvs.U8 1]> s2 in
  (r = (f Nvs.Open, s) /\ f Nvs.Open <> ESP_OK) \/
  (r = (f (Nvs.SetStr NVS_KEY_SSID), s) /\ f (Nvs.SetStr NVS_KEY_SSID) <> ESP_OK) \/
  (r = (f (Nvs.SetStr NVS_KEY_PASSWORD), s1) /\
   f (Nvs.SetStr NVS_KEY_PASSWORD) <> ESP_OK) \/
  (r = (f (Nvs.SetU8 NVS_KEY_PROVISIONED), s2) /\
   f (Nvs.SetU8 NVS_KEY_PROVISIONED) <> ESP_OK) \/
  r = (f Nvs.Commit, s3).
Proof.
  cbv zeta.
  unfold wifi_credentials_save, Nvs.nvs_open, Nvs.nvs_set_str, Nvs.nvs_set_u8, Nvs.nvs_commit.
  destruct (Z.eqb_spec (f Nvs.Open) ESP_OK) as [Ho|Ho]; cbn [negb]; [|auto].
  destruct (Z.eqb_spec (f (Nvs.SetStr NVS_KEY_SSID)) ESP_OK) as [H1|H1].
  2:{ rewrite (proj2 (Z.eqb_neq _ _) H1). cbn [negb]. auto. }
  cbn [Z.eqb ESP_OK negb].
  destruct (Z.eqb_spec (f (Nvs.SetStr NVS_KEY_PASSWORD)) ESP_OK) as [H2|H2].
  2:{ rewrite (proj2 (Z.eqb_neq _ _) H2). cbn [negb]. auto. }
  cbn [Z.eqb ESP_OK negb].
  destruct (Z.eqb_spec (f (Nvs.SetU8 NVS_KEY_PROVISIONED)) ESP_OK) as [H3|H3].
  2:{ rewrite (proj2 (Z.eqb_neq _ _) H3). cbn [negb]. auto 6. }
  cbn [Z.eqb ESP_OK negb]. auto 6.
Qed.

(** X15: credentials saved with [ESP_OK] are read back as saved: the
    device then counts as provisioned, and [wifi_credentials_load]
    returns the same SSID and password when both fit the caller's
    buffers with their terminators, and fails when one does not; the
    stored device id is not touched.  Reads are through any NVS session
    whose calls go through. *)
Theorem credentials_round_trip (f f2 : Nvs.faults) (ssid password : string)
  (s : Nvs.store) (n1 n2 n3 : nat) :
  fst (wifi_credentials_save f ssid password s) = ESP_OK ->
  Boot.reads_ok f2 ->
  let s' := snd (wifi_credentials_save f ssid password s) in
  wifi_credentials_is_provisioned f2 s' = true /\
  wifi_credentials_load f2 n1 n2 s' =
    (if (String.length ssid <? n1)%nat && (String.length password <? n2)%nat
     then Some (ssid, password) else None) /\
  wifi_credentials_load_device_id f2 n3 s' = wifi_credentials_load_device_id f2 n3 s.
Proof.
  intros Hok Hr s'. subst s'.
  destruct (save_ok_stores f ssid password s Hok) as (Hp & Hs & Hw).
  cbv zeta in Hp, Hs, Hw. unfold Identity.provisioned in Hp.
  split; [|split].
  - destruct Hr as (Ho & _ & _ & _ & Hg).
    rewrite (is_provisioned_reads f2 _ Ho Hg), Hp. reflexivity.
  - rewrite (load_reads f2 n1 n2 _ Hr), Hs, Hw. reflexivity.
  - apply load_device_id_same_key.
    destruct (wifi_credentials_save f ssid password s) as [err s'] eqn:Hsave.
    cbn [fst snd] in *. subst err. apply save_ok_store in Hsave. subst s'.
    rewrite !lookup_insert_ne by discriminate. reflexivity.
Qed.

Lemma credentials_round_trip_witness :
  wifi_credentials_load Nvs.no_faults 33 65
    (snd (wifi_credentials_save Nvs.no_faults "garden" "secret" ∅))
  = Some ("garden", "secret").
Proof.
  apply (proj1 (proj2 (credentials_round_trip Nvs.no_faults Nvs.no_faults
                         "garden" "secret" ∅ 33 65 33 eq_refl
                         (conj eq_refl (conj eq_refl (conj eq_refl (conj eq_refl eq_refl))))))).
Defined.

(** X16: a save that fails part-way is not undone: when the SSID write
    goes through and the password write fails, the new SSID stays in the
    store beside the old password, the provisioned flag is as before,
    and a device that was provisioned loads the new SSID with the old
    password. *)
Theorem failed_save_mixes_credentials (f f2 : Nvs.faults) (ssid password : string)
  (old_ssid old_password : string) (s : Nvs.store) (n1 n2 : nat) :
  f Nvs.Open = ESP_OK ->
  f (Nvs.SetStr NVS_KEY_SSID) = ESP_OK ->
  f (Nvs.SetStr NVS_KEY_PASSWORD) <> ESP_OK ->
  s !! NVS_KEY_SSID = Some (Nvs.Str old_ssid) ->
  s !! NVS_KEY_PASSWORD = Some (Nvs.Str old_password) ->
  Boot.reads_ok f2 ->
  let r := wifi_credentials_save f ssid password s in
  fst r = f (Nvs.SetStr NVS_KEY_PASSWORD) /\
  wifi_credentials_is_provisioned f2 (snd r) = wifi_credentials_is_provisioned f2 s /\
  wifi_credentials_load f2 n1 n2 (snd r) =
    (if (String.length ssid <? n1)%nat && (String.length old_password <? n2)%nat
     then Some (ssid, old_password) else None).
Proof.
  intros Ho H1 H2 Hs Hp Hr r. subst r.
  assert (Hsave : wifi_credentials_save f ssid password s
                  = (f (Nvs.SetStr NVS_KEY_PASSWORD), <[NVS_KEY_SSID := Nvs.Str ssid]> s)).
  { unfold wifi_credentials_save, Nvs.nvs_open, Nvs.nvs_set_str.
    rewrite Ho, H1. cbn [Z.eqb ESP_OK negb].
    rewrite (proj2 (Z.eqb_neq _ _) H2). cbv beta iota zeta.
    rewrite (proj2 (Z.eqb_neq _ _) H2). reflexivity. }
  rewrite Hsave. cbn [fst snd]. split; [reflexivity|]. split.
  - apply is_provisioned_same_flag. rewrite lookup_insert_ne by discriminate. reflexivity.
  - rewrite (load_reads f2 n1 n2 _ Hr).
    rewrite lookup_insert_eq, lookup_insert_ne, Hp by discriminate. reflexivity.
Qed.

Lemma failed_save_mixes_credentials_witness :
  wifi_credentials_load Nvs.no_faults 33 65
    (snd (wifi_credentials_save Scenarios.password_write_fails "garden" "tulip"
            Examples.provisioned_store))
  = Some ("garden", "secret").
Proof.
  apply (proj2 (proj2 (failed_save_mixes_credentials
                         Scenarios.password_write_fails Nvs.no_faults
                         "garden" "tulip" "home" "secret" Examples.provisioned_store 33 65
                         eq_refl eq_refl ltac:(discriminate)
                         ltac:(vm_compute; reflexivity) ltac:(vm_compute; reflexivity)
                         (conj eq_refl (conj eq_refl (conj eq_refl (conj eq_refl eq_refl))))))).
Defined.

Lemma clear_store (f : Nvs.faults) (s : Nvs.store) :
  let r := wifi_credentials_clear f s in
  (r = (f Nvs.Open, s) /\ f Nvs.Open <> ESP_OK) \/
  (r = (f Nvs.EraseAll, s) /\ f Nvs.EraseAll <> ESP_OK) \/
  (r = (f Nvs.Commit, ∅) /\ f Nvs.Open = ESP_OK /\ f Nvs.EraseAll = ESP_OK).
Proof.
  cbv zeta. unfold wifi_credentials_clear, Nvs.nvs_open, Nvs.nvs_erase_all, Nvs.nvs_commit.
  destruct (Z.eqb_spec (f Nvs.Open) ESP_OK) as [Ho|Ho]; cbn [negb]; [|auto].
  destruct (Z.eqb_spec (f Nvs.EraseAll) ESP_OK) as [He|He].
  - cbn [Z.eqb ESP_OK]. auto.
  - rewrite (proj2 (Z.eqb_neq _ _) He). auto.
Qed.

Lemma nothing_in_empty_store (f : Nvs.faults) (n1 n2 n3 : nat) :
  wifi_credentials_is_provisioned f ∅ = false /\
  wifi_credentials_load f n1 n2 ∅ = None /\
  wifi_credentials_load_device_id f n3 ∅ = None.
Proof.
  split; [apply is_provisioned_no_flag, lookup_empty|]. split.
  - unfold wifi_credentials_load.
    destruct (negb (Nvs.nvs_open f =? ESP_OK)); [reflexivity|].
    destruct (get_str_absent f NVS_KEY_SSID n1 ∅ (lookup_empty _)) as [_ Hne].
    destruct (Nvs.nvs_get_str f NVS_KEY_SSID n1 ∅) as [err v]. cbn [fst] in Hne.
    rewrite (proj2 (Z.eqb_neq _ _) Hne). reflexivity.
  - unfold wifi_credentials_load_device_id.
    destruct (negb (Nvs.nvs_open f =? ESP_OK)); [reflexivity|].
    destruct (get_str_absent f NVS_KEY_DEVICE_ID n3 ∅ (lookup_empty _)) as [_ Hne].
    destruct (Nvs.nvs_get_str f NVS_KEY_DEVICE_ID n3 ∅) as [err v]. cbn [fst] in Hne.
    rewrite (proj2 (Z.eqb_neq _ _) Hne). reflexivity.
Qed.

(** X17: [wifi_credentials_clear] wipes the whole identity or nothing:
    the store afterwards is empty or unchanged; after a clear that
    returns [ESP_OK] the device is not provisioned and neither
    credentials nor a device id can be loaded, through any later NVS
    session; and a clear that cannot open the namespace or whose erase
    fails returns that error and leaves the store as it was. *)
Theorem clear_wipes_identity (f f2 : Nvs.faults) (s : Nvs.store) (n1 n2 n3 : nat) :
  let r := wifi_credentials_clear f s in
  (snd r = ∅ \/ snd r = s) /\
  (fst r = ESP_OK ->
   wifi_credentials_is_provisioned f2 (snd r) = false /\
   wifi_credentials_load f2 n1 n2 (snd r) = None /\
   wifi_credentials_load_device_id f2 n3 (snd r) = None) /\
  (f Nvs.Open <> ESP_OK \/ f Nvs.EraseAll <> ESP_OK ->
   snd r = s /\ fst r <> ESP_OK).
Proof.
  intros r. subst r.
  destruct (clear_store f s) as [[H Hne]|[[H Hne]|(H & Ho & He)]];
    cbv zeta in H; rewrite H; cbn [fst snd].
  - split; [auto|]. split; [intros Hok; contradiction|]. intros _. auto.
  - split; [auto|]. split; [intros Hok; contradiction|]. intros _. auto.
  - split; [auto|]. split; [intros _; apply nothing_in_empty_store|].
    intros [Hf|Hf]; contradiction.
Qed.

Lemma clear_wipes_identity_witness :
  wifi_credentials_is_provisioned Nvs.no_faults
    (snd (wifi_credentials_clear Nvs.no_faults Examples.provisioned_store)) = false.
Proof.
  apply (proj1 (proj2 (clear_wipes_identity Nvs.no_faults Nvs.no_faults
                         Examples.provisioned_store 33 65 33))).
  reflexivity.
Defined.

(** X18: a device id saved with [ESP_OK] is read back as saved when it
    fits the caller's buffer with its terminator, and cannot be loaded
    when it does not; saving a device id, whether it succeeds or fails,
    changes neither the provisioned flag nor the credentials read back. *)
Theorem device_id_round_trip (f f2 : Nvs.faults) (device_id : string)
  (s : Nvs.store) (n1 n2 n3 : nat) :
  Boot.reads_ok f2 ->
  let r := wifi_credentials_save_device_id f device_id s in
  (fst r = ESP_OK ->
   wifi_credentials_load_device_id f2 n3 (snd r) =
     if (String.length device_id <? n3)%nat then Some device_id else None) /\
  wifi_credentials_is_provisioned f2 (snd r) = wifi_credentials_is_provisioned f2 s /\
  wifi_credentials_load f2 n1 n2 (snd r) = wifi_credentials_load f2 n1 n2 s.
Proof.
  intros Hr r. subst r.
  destruct (save_device_id_store f device_id s) as [[H Hne]|H]; cbv zeta in *.
  - split; [intros Hok; contradiction|]. rewrite H. split; reflexivity.
  - rewrite H. split; [|split].
    + intros _. rewrite (load_device_id_reads f2 n3 _ Hr), lookup_insert_eq. reflexivity.
    + apply is_provisioned_same_flag. rewrite lookup_insert_ne by discriminate. reflexivity.
    + apply load_same_keys; rewrite lookup_insert_ne by discriminate; reflexivity.
Qed.

Lemma device_id_round_trip_witness :
  wifi_credentials_load_device_id Nvs.no_faults 33
    (snd (wifi_credentials_save_device_id Nvs.no_faults "sensor07" Examples.provisioned_store))
  = Some "sensor07".
Proof.
  apply (proj1 (device_id_round_trip Nvs.no_faults Nvs.no_faults "sensor07"
                  Examples.provisioned_store 33 65 33
                  (conj eq_refl (conj eq_refl (conj eq_refl (conj eq_refl eq_refl)))))).
  reflexivity.
Defined.

End CredentialStore.

(** ** wifi_provisioning.c: the form parser *)

Section FormParsing.

Import WifiProvisioning Text.

Lemma append_cons (c : ascii) (a rest : string) :
  (String c a ++ rest)%string = String c (a ++ rest)%string.
Proof. reflexivity. Qed.

Lemma append_nil (rest : string) : (EmptyString ++ rest)%string = rest.
Proof. reflexivity. Qed.

Lemma url_decode_length (s : string) :
  String.length (url_decode s) = String.length s.
Proof. induction s as [|c s IH]; cbn; [reflexivity|]. rewrite IH. reflexivity. Qed.

Lemma url_decode_idem (s : string) : url_decode (url_decode s) = url_decode s.
Proof.
  induction s as [|c s IH]; cbn [url_decode]; [reflexivity|]. rewrite IH.
  destruct (Ascii.eqb c "+") eqn:Hc; [reflexivity|]. rewrite Hc. reflexivity.
Qed.

Lemma url_decode_no_plus (s : string) : has_char "+" (url_decode s) = false.
Proof.
  induction s as [|c s IH]; cbn [url_decode has_char]; [reflexivity|]. rewrite IH.
  destruct (Ascii.eqb c "+") eqn:Hc; [reflexivity|]. rewrite Hc. reflexivity.
Qed.

Lemma url_decode_plain (s : string) : has_char "+" s = false -> url_decode s = s.
Proof.
  induction s as [|c s IH]; cbn [url_decode has_char]; [reflexivity|].
  intros H. apply Bool.orb_false_iff in H as [Hc Hs]. rewrite Hc, (IH Hs). reflexivity.
Qed.

Lemma url_decode_keeps (c : ascii) (s : string) :
  c <> "+"%char -> c <> " "%char ->
  has_char c (url_decode s) = has_char c s.
Proof.
  intros Hp Hs. induction s as [|d s IH]; cbn [url_decode has_char]; [reflexivity|].
  rewrite IH. f_equal.
  destruct (Ascii.eqb_spec d "+") as [->|Hd]; [|reflexivity].
  rewrite (proj2 (Ascii.eqb_neq _ _)) by congruence.
  rewrite (proj2 (Ascii.eqb_neq _ _)) by congruence. reflexivity.
Qed.

(** X19: [url_decode] only turns each ['+'] into a space: it keeps the
    length, leaves no ['+'], is idempotent, is the identity on a string
    without ['+'], and any other byte but the space occurs after it
    exactly when it occurred before, so percent escapes stay as
    received. *)
Theorem url_decode_only_plus (s : string) :
  String.length (url_decode s) = String.length s /\
  has_char "+" (url_decode s) = false /\
  url_decode (url_decode s) = url_decode s /\
  (has_char "+" s = false -> url_decode s = s) /\
  (forall c : ascii, c <> "+"%char -> c <> " "%char ->
     has_char c (url_decode s) = has_char c s).
Proof.
  split; [apply url_decode_length|]. split; [apply url_decode_no_plus|].
  split; [apply url_decode_idem|]. split; [apply url_decode_plain|].
  intros c. apply url_decode_keeps.
Qed.

Lemma url_decode_only_plus_witness :
  has_char "%" (url_decode "p%40ss+word") = has_char "%" "p%40ss+word".
Proof.
  apply (proj2 (proj2 (proj2 (proj2 (url_decode_only_plus "p%40ss+word"))))); discriminate.
Defined.

Lemma before_amp_no_amp (s : string) : has_char "&" (before_amp s) = false.
Proof.
  induction s as [|c s IH]; cbn [before_amp]; [reflexivity|].
  destruct (Ascii.eqb c "&") eqn:Hc; [reflexivity|].
  cbn [has_char]. rewrite Hc, IH. reflexivity.
Qed.

Lemma before_amp_plain (a : string) : has_char "&" a = false -> before_amp a = a.
Proof.
  induction a as [|c a IH]; cbn [before_amp has_char]; [reflexivity|].
  intros H. apply Bool.orb_false_iff in H as [Hc Ha]. rewrite Hc, (IH Ha). reflexivity.
Qed.

Lemma before_amp_app (a rest : string) :
  has_char "&" a = false -> before_amp (a ++ String "&" rest) = a.
Proof.
  induction a as [|c a IH]; [reflexivity|].
  rewrite append_cons. cbn [before_amp has_char].
  intros H. apply Bool.orb_false_iff in H as [Hc Ha]. rewrite Hc, (IH Ha). reflexivity.
Qed.

Lemma copy_form_field_bound (start : string) (key_len dst_len : nat) (v : string) :
  copy_form_field start key_len dst_len = Some v ->
  (String.length v < dst_len)%nat /\ has_char "&" v = false.
Proof.
  unfold copy_form_field.
  destruct (Nat.leb_spec dst_len (String.length (before_amp (advance key_len start))))
    as [Hle|Hlt]; [discriminate|].
  intros [= <-]. split; [exact Hlt|apply before_amp_no_amp].
Qed.

Lemma has_char_amp_decode (s : string) :
  has_char "&" s = false -> has_char "&" (url_decode s) = false.
Proof. intros H. rewrite url_decode_keeps by discriminate. exact H. Qed.

(** X20: fields that [parse_form_fields] returns fit their buffers with
    the terminator, and hold neither ['&'] nor ['+']; with the buffers
    of [save_post_handler] an SSID has at most 32 bytes, a password at
    most 64 and a device id at most 32. *)
Theorem parsed_fields_fit (buf : string) (n1 n2 n3 : nat)
  (ssid password device_id : string) :
  parse_form_fields buf n1 n2 n3 = Some (ssid, password, device_id) ->
  ((String.length ssid < n1)%nat /\ (String.length password < n2)%nat /\
   (String.length device_id < n3)%nat) /\
  (has_char "&" ssid = false /\ has_char "&" password = false /\
   has_char "&" device_id = false) /\
  (has_char "+" ssid = false /\ has_char "+" password = false /\
   has_char "+" device_id = false).
Proof.
  unfold parse_form_fields.
  destruct (strstr buf "ssid=") as [s1|]; [|discriminate].
  destruct (strstr buf "password=") as [s2|]; [|discriminate].
  destruct (strstr buf "device_id=") as [s3|]; [|discriminate].
  destruct (copy_form_field s1 5 n1) as [a|] eqn:Ha; [|discriminate].
  destruct (copy_form_field s2 9 n2) as [b|] eqn:Hb; [|discriminate].
  destruct (copy_form_field s3 10 n3) as [c|] eqn:Hc; [|discriminate].
  intros [= <- <- <-].
  apply copy_form_field_bound in Ha as [Ha1 Ha2].
  apply copy_form_field_bound in Hb as [Hb1 Hb2].
  apply copy_form_field_bound in Hc as [Hc1 Hc2].
  rewrite !url_decode_length, !url_decode_no_plus.
  rewrite !has_char_amp_decode by assumption. auto 10.
Qed.

Lemma parsed_fields_fit_witness :
  ((String.length "my net" < 33)%nat /\ (String.length "p%40ss" < 65)%nat /\
   (String.length "sensor07" < 33)%nat) /\
  (has_char "&" "my net" = false /\ has_char "&" "p%40ss" = false /\
   has_char "&" "sensor07" = false) /\
  (has_char "+" "my net" = false /\ has_char "+" "p%40ss" = false /\
   has_char "+" "sensor07" = false).
Proof.
  apply (parsed_fields_fit "ssid=my+net&password=p%40ss&device_id=sensor07" 33 65 33).
  vm_compute. reflexivity.
Defined.

Lemma prefix_blocked (needle : string) :
  forall a rest : string,
    has_char "&" needle = false -> last_char needle = Some "="%char ->
    has_char "=" a = false ->
    String.prefix needle (a ++ String "&" rest) = false.
Proof.
  induction needle as [|c n IH]; intros a rest Hamp Hlast Ha; [discriminate Hlast|].
  cbn [has_char] in Hamp. apply Bool.orb_false_iff in Hamp as [Hc Hn].
  destruct a as [|d a]; rewrite ?append_cons, ?append_nil; cbn [String.prefix].
  - destruct (ascii_dec c "&") as [->|_]; [discriminate Hc|reflexivity].
  - destruct (ascii_dec c d) as [<-|_]; [|reflexivity].
    cbn [has_char] in Ha. apply Bool.orb_false_iff in Ha as [Hd Ha].
    destruct n as [|c2 n2].
    + cbn [last_char] in Hlast. injection Hlast as ->. discriminate Hd.
    + apply IH; [exact Hn|exact Hlast|exact Ha].
Qed.

Lemma strstr_through (needle : string) (a rest : string) :
  has_char "&" needle = false -> last_char needle = Some "="%char ->
  has_char "=" a = false ->
  strstr (a ++ String "&" rest) needle = strstr rest needle.
Proof.
  intros Hamp Hlast. induction a as [|d a IH]; intros Ha.
  - pose proof (prefix_blocked needle "" rest Hamp Hlast eq_refl) as Hp.
    rewrite ?append_cons, ?append_nil in *. cbn [strstr]. rewrite Hp. reflexivity.
  - pose proof (prefix_blocked needle (String d a) rest Hamp Hlast Ha) as Hp.
    rewrite ?append_cons, ?append_nil in *. cbn [strstr]. rewrite Hp. apply IH.
    cbn [has_char] in Ha. apply Bool.orb_false_iff in Ha as [_ Ha]. exact Ha.
Qed.

Lemma strstr_cons (c : ascii) (rest needle : string) :
  String.prefix needle (String c rest) = false ->
  strstr (String c rest) needle = strstr rest needle.
Proof. intros H. cbn [strstr]. rewrite H. reflexivity. Qed.

Lemma strstr_here (s needle : string) :
  String.prefix needle s = true -> strstr s needle = Some s.
Proof. intros H. destruct s; cbn [strstr]; rewrite H; reflexivity. Qed.

Lemma prefix_nil (s : string) : String.prefix "" s = true.
Proof. destruct s; reflexivity. Qed.

Lemma prefix_cons_same (c : ascii) (n s : string) :
  String.prefix (String c n) (String c s) = String.prefix n s.
Proof. cbn [String.prefix]. destruct (ascii_dec c c); [reflexivity|contradiction]. Qed.

Ltac key_here := rewrite !prefix_cons_same; apply prefix_nil.

Lemma plain_parts (s : string) :
  plain s = true -> has_char "&" s = false /\ has_char "=" s = false.
Proof.
  unfold plain. intros H. apply andb_prop in H as [H1 H2].
  apply Bool.negb_true_iff in H1, H2. auto.
Qed.

Lemma copy_form_field_value (a rest : string) (n : nat) :
  has_char "&" a = false ->
  (copy_form_field (a ++ String "&" rest) 0 n
   = if (String.length a <? n)%nat then Some a else None) /\
  (copy_form_field a 0 n = if (String.length a <? n)%nat then Some a else None).
Proof.
  intros Ha. unfold copy_form_field. cbn [advance].
  rewrite (before_amp_app a rest Ha), (before_amp_plain a Ha).
  rewrite Nat.leb_antisym. destruct (String.length a <? n)%nat; auto.
Qed.

Lemma copy_form_field_advance (c : ascii) (start : string) (k n : nat) :
  copy_form_field (String c start) (S k) n = copy_form_field start k n.
Proof. reflexivity. Qed.

(** X21: a body with the three fields in the order of the form, whose
    values hold neither ['&'] nor ['='], parses to exactly these values
    with each ['+'] turned into a space, provided every value fits its
    buffer with the terminator; if one does not fit, parsing fails. *)
Theorem parse_form_round_trip (ssid password device_id : string) (n1 n2 n3 : nat) :
  plain ssid = true -> plain password = true -> plain device_id = true ->
  parse_form_fields (form_body ssid password device_id) n1 n2 n3 =
  if (String.length ssid <? n1)%nat && (String.length password <? n2)%nat
     && (String.length device_id <? n3)%nat
  then Some (url_decode ssid, url_decode password, url_decode device_id)
  else None.
Proof.
  intros Ha Hb Hc.
  apply plain_parts in Ha as [Ha1 Ha2].
  apply plain_parts in Hb as [Hb1 Hb2].
  apply plain_parts in Hc as [Hc1 Hc2].
  unfold parse_form_fields, form_body. rewrite !append_cons, !append_nil.
  rewrite (strstr_here _ "ssid=") by key_here.
  rewrite !(strstr_cons _ _ "password=") by reflexivity.
  rewrite (strstr_through "password=") by (reflexivity || assumption).
  rewrite (strstr_here _ "password=") by key_here.
  rewrite !(strstr_cons _ _ "device_id=") by reflexivity.
  rewrite (strstr_through "device_id=") by (reflexivity || assumption).
  rewrite !(strstr_cons _ _ "device_id=") by reflexivity.
  rewrite (strstr_through "device_id=") by (reflexivity || assumption).
  rewrite (strstr_here _ "device_id=") by key_here.
  rewrite !copy_form_field_advance.
  rewrite (proj1 (copy_form_field_value ssid _ n1 Ha1)).
  rewrite (proj1 (copy_form_field_value password _ n2 Hb1)).
  rewrite (proj2 (copy_form_field_value device_id "" n3 Hc1)).
  destruct (String.length ssid <? n1)%nat; [|reflexivity].
  destruct (String.length password <? n2)%nat; [|reflexivity].
  destruct (String.length device_id <? n3)%nat; reflexivity.
Qed.

Lemma parse_form_round_trip_witness :
  parse_form_fields (form_body "my+net" "p%40ss" "sensor07") 33 65 33
  = Some ("my net"%string, "p%40ss"%string, "sensor07"%string).
Proof.
  apply (parse_form_round_trip "my+net" "p%40ss" "sensor07" 33 65 33); reflexivity.
Defined.

Lemma parsed_fields_bounds (buf : string) (ssid password device_id : string) :
  parse_form_fields buf 33 65 33 = Some (ssid, password, device_id) ->
  (String.length ssid < 33)%nat /\ (String.length password < 65)%nat /\
  (String.length device_id < 33)%nat.
Proof.
  unfold parse_form_fields.
  destruct (strstr buf "ssid=") as [s1|]; [|discriminate].
  destruct (strstr buf "password=") as [s2|]; [|discriminate].
  destruct (strstr buf "device_id=") as [s3|]; [|discriminate].
  destruct (copy_form_field s1 5 33) as [a|] eqn:Ha; [|discriminate].
  destruct (copy_form_field s2 9 65) as [b|] eqn:Hb; [|discriminate].
  destruct (copy_form_field s3 10 33) as [c|] eqn:Hc; [|discriminate].
  intros [= <- <- <-].
  apply copy_form_field_bound in Ha as [Ha1 _].
  apply copy_form_field_bound in Hb as [Hb1 _].
  apply copy_form_field_bound in Hc as [Hc1 _].
  rewrite !url_decode_length. auto.
Qed.

End FormParsing.

(** ** wifi_provisioning.c: the POST handler *)

Section PostHandler.

Import WifiCredentials WifiProvisioning Text.

(** What the receive loop leaves in the buffer. *)
Lemma receive_some (req : request) (buf : string) :
  receive req = Some buf ->
  exists stream : string,
    body req = Some stream /\
    (Z.to_nat (total_len req) <= String.length stream)%nat /\
    buf = String.substring 0 (Z.to_nat (total_len req)) stream.
Proof.
  unfold receive. destruct (body req) as [stream|]; [|discriminate].
  destruct (Nat.ltb_spec (String.length stream) (Z.to_nat (total_len req))) as [Hlt|Hge];
    [discriminate|].
  intros [= <-]. exists stream. auto.
Qed.

Lemma receive_none (req : request) :
  receive req = None <->
  body req = None \/
  exists stream : string,
    body req = Some stream /\ (String.length stream < Z.to_nat (total_len req))%nat.
Proof.
  unfold receive. destruct (body req) as [stream|].
  - destruct (Nat.ltb_spec (String.length stream) (Z.to_nat (total_len req))) as [Hlt|Hge].
    + split; [intros _; right; exists stream; auto|reflexivity].
    + split; [discriminate|]. intros [H|(s2 & [= <-] & Hlt)]; [discriminate H|lia].
  - split; [auto|reflexivity].
Qed.

(** A content length above [INT_MAX] is a negative [total_len]. *)
Lemma total_len_huge (req : request) :
  2 ^ 31 <= content_len req < 2 ^ 32 -> total_len req < 0.
Proof.
  intros H. unfold total_len, i32.
  replace (content_len req + 2 ^ 31)
    with (content_len req - 2 ^ 31 + 1 * 2 ^ 32) by lia.
  rewrite Z.mod_add by lia. rewrite Z.mod_small by lia. lia.
Qed.

(** The handler either fails, or both saves returned [ESP_OK]. *)
Lemma post_cases (f : Nvs.faults) (req : request) (s : Nvs.store) :
  let r := save_post_handler f req s in
  (result r = ESP_FAIL /\ status r = 500 /\ restarted r = false) \/
  (exists (buf ssid password device_id : string) (s1 : Nvs.store),
     0 < total_len req /\ malloc_ok req = true /\ receive req = Some buf /\
     parse_form_fields (c_str buf) 33 65 33 = Some (ssid, password, device_id) /\
     wifi_credentials_save f ssid password s = (ESP_OK, s1) /\
     fst (wifi_credentials_save_device_id f device_id s1) = ESP_OK /\
     r = {| result := ESP_OK; status := 200;
            store_after := snd (wifi_credentials_save_device_id f device_id s1);
            restarted := true |}).
Proof.
  cbv zeta. unfold save_post_handler.
  destruct (Z.leb_spec (total_len req) 0) as [Hlen|Hlen]; [left; auto|].
  destruct (malloc_ok req) eqn:Hm; cbn [negb]; [|left; auto].
  destruct (receive req) as [buf|] eqn:Hb; [|left; auto].
  destruct (parse_form_fields (c_str buf) 33 65 33) as [[[ssid password] device_id]|]
    eqn:Hparse; [|left; auto].
  destruct (wifi_credentials_save f ssid password s) as [err s1] eqn:Hsave.
  destruct (Z.eqb_spec err ESP_OK) as [->|Herr]; cbn [negb]; [|left; auto].
  destruct (wifi_credentials_save_device_id f device_id s1) as [err2 s2] eqn:Hid.
  destruct (Z.eqb_spec err2 ESP_OK) as [->|Herr2]; cbn [negb]; [|left; auto].
  right. exists buf, ssid, password, device_id, s1.
  rewrite Hid. cbn [fst snd]. auto 10.
Qed.

Lemma post_refused (f : Nvs.faults) (req : request) (s : Nvs.store) :
  total_len req <= 0 \/ malloc_ok req = false \/ receive req = None \/
  (exists buf, receive req = Some buf /\ parse_form_fields (c_str buf) 33 65 33 = None) ->
  save_post_handler f req s = failure s.
Proof.
  unfold save_post_handler.
  intros [H|[H|[H|(buf & Hb & Hp)]]].
  - rewrite (proj2 (Z.leb_le _ _) H). reflexivity.
  - rewrite H. destruct (total_len req <=? 0); reflexivity.
  - rewrite H. destruct (total_len req <=? 0); [reflexivity|].
    destruct (negb (malloc_ok req)); reflexivity.
  - rewrite Hb, Hp. destruct (total_len req <=? 0); [reflexivity|].
    destruct (negb (malloc_ok req)); reflexivity.
Qed.

(** X22: [save_post_handler] answers 200 and goes on to restart exactly
    when it returns [ESP_OK], and 500 without restarting exactly when it
    returns [ESP_FAIL]; it returns nothing else.  It works on
    [int total_len], the content length converted to [int], and on the
    first [total_len] bytes the connection delivers.  The request is
    refused before the store is touched when [total_len <= 0], which
    includes every content length above [INT_MAX], when the allocation
    fails, when a receive fails or the connection delivers fewer than
    [total_len] bytes, and when these first [total_len] bytes do not
    parse; bytes after them play no part. *)
Theorem post_outcomes (f : Nvs.faults) (req : request) (s : Nvs.store) :
  let r := save_post_handler f req s in
  ((result r = ESP_OK /\ status r = 200 /\ restarted r = true) \/
   (result r = ESP_FAIL /\ status r = 500 /\ restarted r = false)) /\
  (total_len req <= 0 \/ 2 ^ 31 <= content_len req < 2 ^ 32 \/
   malloc_ok req = false \/ body req = None \/
   (exists stream, body req = Some stream /\
      ((String.length stream < Z.to_nat (total_len req))%nat \/
       parse_form_fields
         (c_str (String.substring 0 (Z.to_nat (total_len req)) stream)) 33 65 33 = None)) ->
   r = failure s) /\
  (forall req2 stream stream2,
     content_len req2 = content_len req -> malloc_ok req2 = malloc_ok req ->
     body req = Some stream -> body req2 = Some stream2 ->
     String.substring 0 (Z.to_nat (total_len req)) stream
     = String.substring 0 (Z.to_nat (total_len req)) stream2 ->
     (Z.to_nat (total_len req) <= String.length stream)%nat ->
     (Z.to_nat (total_len req) <= String.length stream2)%nat ->
     save_post_handler f req2 s = r).
Proof.
  intros r. subst r. split; [|split].
  - destruct (post_cases f req s) as [H|(b & a1 & a2 & a3 & s1 & _ & _ & _ & _ & _ & _ & H)];
      cbv zeta in H; [right; exact H|left]. rewrite H. auto.
  - intros [H|[H|[H|[H|(stream & Hb & [Hlt|Hp])]]]]; apply post_refused.
    + auto.
    + left. apply total_len_huge in H. lia.
    + auto.
    + right. right. left. apply receive_none. auto.
    + right. right. left. apply receive_none. right. exists stream. auto.
    + destruct (Nat.lt_ge_cases (String.length stream) (Z.to_nat (total_len req)))
        as [Hlt|Hge].
      * right. right. left. apply receive_none. right. exists stream. auto.
      * right. right. right.
        exists (String.substring 0 (Z.to_nat (total_len req)) stream). split; [|exact Hp].
        unfold receive. rewrite Hb, (proj2 (Nat.ltb_ge _ _) Hge). reflexivity.
  - intros req2 stream stream2 Hc Hm Hb Hb2 Hcut Hl1 Hl2.
    assert (Ht : total_len req2 = total_len req) by (unfold total_len; rewrite Hc; reflexivity).
    unfold save_post_handler, receive. rewrite Ht, Hm, Hb, Hb2. cbv zeta. rewrite Hcut.
    rewrite (proj2 (Nat.ltb_ge _ _) Hl1), (proj2 (Nat.ltb_ge _ _) Hl2). reflexivity.
Qed.

Lemma post_outcomes_witness :
  save_post_handler Nvs.no_faults Scenarios.huge_declared_form Examples.provisioned_store
  = failure Examples.provisioned_store.
Proof.
  apply (proj1 (proj2 (post_outcomes Nvs.no_faults Scenarios.huge_declared_form
                         Examples.provisioned_store))).
  right. left. cbn. lia.
Defined.

(** The handler parses the declared bytes only: a body whose device id
    is too long is accepted when the content length cuts it short. *)
Example post_parses_declared_bytes_only :
  parse_form_fields
    "ssid=a&password=b&device_id=xxxxxxxxxxxxxxxxxxxxxxxxxxxxxxxxxxxxxxxx" 33 65 33 = None /\
  result (save_post_handler Nvs.no_faults Scenarios.cut_device_id_form ∅) = ESP_OK /\
  wifi_credentials_load_device_id Nvs.no_faults 33
    (store_after (save_post_handler Nvs.no_faults Scenarios.cut_device_id_form ∅))
  = Some "xxxxxxxxxxxx"%string.
Proof. repeat split; vm_compute; reflexivity. Qed.

(** X23: whatever a successful POST stored can be used on the next boot:
    the fields parsed from the first [total_len] bytes of the body are
    stored, the device counts as provisioned, [wifi_credentials_load]
    with the buffers of [wifi_manager_init_sta] (33 and 65 bytes)
    returns the parsed SSID and password, and
    [wifi_credentials_load_device_id] with the buffer of [setup_mqtt]
    (33 bytes) returns the parsed device id. *)
Theorem post_success_loadable (f f2 : Nvs.faults) (req : request) (s : Nvs.store) :
  result (save_post_handler f req s) = ESP_OK ->
  Boot.reads_ok f2 ->
  let s' := store_after (save_post_handler f req s) in
  exists stream ssid password device_id : string,
    body req = Some stream /\
    0 < total_len req /\
    (Z.to_nat (total_len req) <= String.length stream)%nat /\
    parse_form_fields
      (c_str (String.substring 0 (Z.to_nat (total_len req)) stream)) 33 65 33
    = Some (ssid, password, device_id) /\
    wifi_credentials_is_provisioned f2 s' = true /\
    wifi_credentials_load f2 33 65 s' = Some (ssid, password) /\
    wifi_credentials_load_device_id f2 33 s' = Some device_id.
Proof.
  intros Hok Hr s'. subst s'.
  destruct (post_cases f req s)
    as [[H _]|(buf & ssid & password & device_id & s1 & Hlen & _ & Hb & Hp & Hsave & Hid & H)];
    cbv zeta in H; [rewrite H in Hok; discriminate Hok|].
  rewrite H. cbn [store_after].
  destruct (receive_some req buf Hb) as (stream & Hbody & Hfit & ->).
  exists stream, ssid, password, device_id.
  split; [exact Hbody|]. split; [exact Hlen|]. split; [exact Hfit|]. split; [exact Hp|].
  destruct (parsed_fields_bounds _ _ _ _ Hp) as (L1 & L2 & L3).
  apply save_ok_store in Hsave.
  destruct (save_device_id_store f device_id s1) as [[_ Hne]|Hs2]; cbv zeta in *;
    [contradiction|].
  rewrite Hs2, Hsave. split; [|split].
  - destruct Hr as (Ho & _ & _ & _ & Hg).
    rewrite (is_provisioned_reads f2 _ Ho Hg).
    rewrite lookup_insert_ne, lookup_insert_eq by discriminate. reflexivity.
  - rewrite (load_reads f2 33 65 _ Hr).
    rewrite (lookup_insert_ne _ NVS_KEY_DEVICE_ID NVS_KEY_SSID) by discriminate.
    rewrite (lookup_insert_ne _ NVS_KEY_PROVISIONED NVS_KEY_SSID) by discriminate.
    rewrite (lookup_insert_ne _ NVS_KEY_PASSWORD NVS_KEY_SSID) by discriminate.
    rewrite lookup_insert_eq.
    rewrite (lookup_insert_ne _ NVS_KEY_DEVICE_ID NVS_KEY_PASSWORD) by discriminate.
    rewrite (lookup_insert_ne _ NVS_KEY_PROVISIONED NVS_KEY_PASSWORD) by discriminate.
    rewrite lookup_insert_eq.
    rewrite (proj2 (Nat.ltb_lt _ _) L1), (proj2 (Nat.ltb_lt _ _) L2). reflexivity.
  - rewrite (load_device_id_reads f2 33 _ Hr), lookup_insert_eq.
    rewrite (proj2 (Nat.ltb_lt _ _) L3). reflexivity.
Qed.

Lemma post_success_loadable_witness :
  wifi_credentials_load Nvs.no_faults 33 65
    (store_after (save_post_handler Nvs.no_faults Scenarios.short_declared_form ∅))
  = Some ("my net"%string, "p%40ss"%string) /\
  wifi_credentials_load_device_id Nvs.no_faults 33
    (store_after (save_post_handler Nvs.no_faults Scenarios.short_declared_form ∅))
  = Some "sensor0"%string.
Proof.
  destruct (post_success_loadable Nvs.no_faults Nvs.no_faults
              Scenarios.short_declared_form ∅ ltac:(vm_compute; reflexivity)
              (conj eq_refl (conj eq_refl (conj eq_refl (conj eq_refl eq_refl)))))
    as (stream & ssid & password & device_id & Hb & _ & _ & Hp & _ & Hl & Hd).
  injection Hb as <-. vm_compute in Hp. injection Hp as <- <- <-.
  split; [exact Hl|exact Hd].
Defined.

(** X24: the two saves of the handler are not one transaction: when the
    credentials parsed from the received bytes are saved and the write
    of the device id fails, the handler answers 500 and does not
    restart, yet the device is left provisioned with the posted SSID and
    password, and the device id read back is the one from before. *)
Theorem failed_post_leaves_device_provisioned (f f2 : Nvs.faults) (req : request)
  (s : Nvs.store) (buf ssid password device_id : string) :
  0 < total_len req -> malloc_ok req = true -> receive req = Some buf ->
  parse_form_fields (c_str buf) 33 65 33 = Some (ssid, password, device_id) ->
  fst (wifi_credentials_save f ssid password s) = ESP_OK ->
  f (Nvs.SetStr NVS_KEY_DEVICE_ID) <> ESP_OK ->
  Boot.reads_ok f2 ->
  let r := save_post_handler f req s in
  result r = ESP_FAIL /\ status r = 500 /\ restarted r = false /\
  wifi_credentials_is_provisioned f2 (store_after r) = true /\
  wifi_credentials_load f2 33 65 (store_after r) = Some (ssid, password) /\
  wifi_credentials_load_device_id f2 33 (store_after r)
  = wifi_credentials_load_device_id f2 33 s.
Proof.
  intros Hlen Hm Hb Hp Hsave Hfail Hr r. subst r.
  destruct (parsed_fields_bounds _ _ _ _ Hp) as (L1 & L2 & L3).
  pose proof (save_ok_stores f ssid password s Hsave) as (Hprov & Hs1 & Hs2).
  cbv zeta in Hprov, Hs1, Hs2. unfold Identity.provisioned in Hprov.
  assert (Hkeep : snd (wifi_credentials_save f ssid password s) !! NVS_KEY_DEVICE_ID
                  = s !! NVS_KEY_DEVICE_ID).
  { destruct (wifi_credentials_save f ssid password s) as [err s1] eqn:E.
    cbn [fst snd] in *. subst err. apply save_ok_store in E. subst s1.
    rewrite !lookup_insert_ne by discriminate. reflexivity. }
  unfold save_post_handler.
  rewrite (proj2 (Z.leb_gt _ _) Hlen), Hm, Hb, Hp. cbn [negb].
  destruct (wifi_credentials_save f ssid password s) as [err s1]. cbn [fst snd] in *.
  subst err. cbn [Z.eqb ESP_OK negb].
  assert (Hid : wifi_credentials_save_device_id f device_id s1
                = (if f Nvs.Open =? ESP_OK then f (Nvs.SetStr NVS_KEY_DEVICE_ID)
                   else f Nvs.Open, s1) /\
                fst (wifi_credentials_save_device_id f device_id s1) <> ESP_OK).
  { unfold wifi_credentials_save_device_id, Nvs.nvs_open, Nvs.nvs_set_str.
    destruct (Z.eqb_spec (f Nvs.Open) ESP_OK) as [Ho|Ho]; cbn [negb fst].
    - rewrite (proj2 (Z.eqb_neq _ _) Hfail). cbv beta iota zeta.
      rewrite (proj2 (Z.eqb_neq _ _) Hfail). cbn [negb fst]. auto.
    - auto. }
  destruct Hid as [Hid Hne]. rewrite Hid in *. cbn [fst] in Hne.
  rewrite (proj2 (Z.eqb_neq _ _) Hne). cbn [negb failure result status restarted store_after].
  split; [reflexivity|]. split; [reflexivity|]. split; [reflexivity|].
  split; [|split].
  - destruct Hr as (Ho & _ & _ & _ & Hg).
    rewrite (is_provisioned_reads f2 _ Ho Hg), Hprov. reflexivity.
  - rewrite (load_reads f2 33 65 _ Hr), Hs1, Hs2.
    rewrite (proj2 (Nat.ltb_lt _ _) L1), (proj2 (Nat.ltb_lt _ _) L2). reflexivity.
  - apply load_device_id_same_key. exact Hkeep.
Qed.

Lemma failed_post_leaves_device_provisioned_witness :
  wifi_credentials_is_provisioned Nvs.no_faults
    (store_after (save_post_handler Scenarios.device_id_write_fails Examples.filled_form ∅))
  = true.
Proof.
  apply (proj1 (proj2 (proj2 (proj2
           (failed_post_leaves_device_provisioned
              Scenarios.device_id_write_fails Nvs.no_faults Examples.filled_form ∅
              "ssid=my+net&password=p%40ss&device_id=sensor07" "my net" "p%40ss" "sensor07"
              ltac:(reflexivity) eq_refl ltac:(vm_compute; reflexivity)
              ltac:(vm_compute; reflexivity)
              ltac:(vm_compute; reflexivity) ltac:(discriminate)
              (conj eq_refl (conj eq_refl (conj eq_refl (conj eq_refl eq_refl))))))))).
Defined.

End PostHandler.

(** ** wifi_manager.c *)

Section StationLink.

Import WifiManager.

(** What one event does to the flag and to the connect counter. *)
Lemma handler_effect (b : esp_event_base_t) (id : Z) (st : state) :
  wifi_connected (wifi_event_handler b id st)
  = match last_link_event [(b, id)] with
    | Some v => v
    | None => wifi_connected st
    end /\
  connect_calls (wifi_event_handler b id st)
  = (connect_calls st + (if asks_connect (b, id) then 1 else 0))%nat.
Proof.
  unfold wifi_event_handler, asks_connect, last_link_event. cbn [fst snd].
  destruct b; cbn [is_wifi is_ip andb].
  - destruct (Z.eqb_spec id WIFI_EVENT_STA_START) as [->|Hs]; cbn [orb].
    + cbn. split; [reflexivity|lia].
    + destruct (id =? WIFI_EVENT_STA_DISCONNECTED); cbn; split; try reflexivity; lia.
  - destruct (id =? IP_EVENT_STA_GOT_IP); cbn; split; try reflexivity; lia.
  - cbn. split; [reflexivity|lia].
Qed.

Lemma deliver_cons (e : esp_event_base_t * Z) (events : list (esp_event_base_t * Z))
  (st : state) :
  deliver (e :: events) st = deliver events (wifi_event_handler (fst e) (snd e) st).
Proof. reflexivity. Qed.

(** X25: after any sequence of events, [wifi_connected] is decided by the
    last event that is a disconnect or an address: true after an
    address, false after a disconnect, unchanged when the sequence holds
    neither; and [esp_wifi_connect] has been called once for every
    station start and every disconnect, and for nothing else. *)
Theorem wifi_flag_follows_last_link_event (events : list (esp_event_base_t * Z)) :
  forall st : state,
    wifi_manager_is_connected (deliver events st)
    = match last_link_event events with
      | Some v => v
      | None => wifi_manager_is_connected st
      end /\
    connect_calls (deliver events st)
    = (connect_calls st + length (List.filter asks_connect events))%nat.
Proof.
  unfold wifi_manager_is_connected.
  induction events as [|[b id] events IH]; intros st.
  - cbn. split; [reflexivity|lia].
  - rewrite deliver_cons. cbn [fst snd].
    destruct (IH (wifi_event_handler b id st)) as [IH1 IH2].
    destruct (handler_effect b id st) as [H1 H2].
    rewrite IH1, IH2, H1, H2. cbn [last_link_event List.filter].
    split.
    + destruct (last_link_event events) as [v|]; [reflexivity|].
      destruct (is_wifi b && (id =? WIFI_EVENT_STA_DISCONNECTED)); [reflexivity|].
      destruct (is_ip b && (id =? IP_EVENT_STA_GOT_IP)); reflexivity.
    + destruct (asks_connect (b, id)); cbn [length]; lia.
Qed.

Lemma wait_loop_spec (events : nat -> list (esp_event_base_t * Z)) (st0 : state) :
  forall (fuel elapsed : nat),
    let r := wait_loop events elapsed fuel (after_seconds events elapsed st0) in
    (elapsed <= fst r <= elapsed + fuel)%nat /\
    snd r = after_seconds events (fst r) st0 /\
    (forall j, (elapsed <= j < fst r)%nat ->
       wifi_connected (after_seconds events j st0) = false) /\
    ((fst r < elapsed + fuel)%nat -> wifi_connected (snd r) = true).
Proof.
  induction fuel as [|fuel IH]; intros elapsed; cbv zeta; cbn [wait_loop].
  - cbn [fst snd]. split; [lia|]. split; [reflexivity|]. split; intros; lia.
  - destruct (wifi_connected (after_seconds events elapsed st0)) eqn:Hflag.
    + cbn [fst snd]. split; [lia|]. split; [reflexivity|]. split; [intros; lia|].
      intros _. exact Hflag.
    + specialize (IH (S elapsed)). cbv zeta in IH. cbn [after_seconds] in IH.
      destruct IH as (Hk & Hs & Hbefore & Hafter).
      set (r := wait_loop events (S elapsed) fuel
                  (deliver (events elapsed) (after_seconds events elapsed st0))) in *.
      split; [lia|]. split; [exact Hs|]. split.
      * intros j Hj. destruct (Nat.eq_dec j elapsed) as [->|Hne]; [exact Hflag|].
        apply Hbefore. lia.
      * intros Hlt. apply Hafter. lia.
Qed.

(** X26: [wifi_manager_wait_connected] polls the flag once a second, at
    most [timeout_sec] times after the first look: it stops at the first
    poll that finds the station connected and returns the flag it last
    saw, so it returns true exactly when one of the polls at seconds
    [0 .. timeout_sec] finds the flag set, and a false result has waited
    the whole timeout. *)
Theorem wait_connected_polls (events : nat -> list (esp_event_base_t * Z))
  (timeout_sec : Z) (st : state) :
  let r := wifi_manager_wait_connected events timeout_sec st in
  exists k : nat,
    (k <= Z.to_nat timeout_sec)%nat /\
    snd r = after_seconds events k st /\
    fst r = wifi_connected (snd r) /\
    (forall j, (j < k)%nat -> wifi_connected (after_seconds events j st) = false) /\
    (fst r = false -> k = Z.to_nat timeout_sec) /\
    (fst r = true <->
     exists j, (j <= Z.to_nat timeout_sec)%nat /\
               wifi_connected (after_seconds events j st) = true).
Proof.
  cbv zeta. unfold wifi_manager_wait_connected.
  pose proof (wait_loop_spec events st (Z.to_nat timeout_sec) 0%nat) as H.
  cbv zeta in H. cbn [after_seconds] in H.
  destruct (wait_loop events 0 (Z.to_nat timeout_sec) st) as [k st'].
  cbn [fst snd] in *. destruct H as (Hk & Hs & Hbefore & Hafter).
  exists k. split; [lia|]. split; [exact Hs|]. split; [reflexivity|].
  split; [intros j Hj; apply Hbefore; lia|]. split.
  - intros Hfalse. destruct (Nat.eq_dec k (Z.to_nat timeout_sec)) as [E|E]; [exact E|].
    rewrite Hafter in Hfalse by lia. discriminate Hfalse.
  - split.
    + intros Htrue. exists k. split; [lia|]. rewrite <- Hs. exact Htrue.
    + intros (j & Hj & Hflag).
      destruct (Nat.lt_ge_cases j k) as [Hlt|Hge].
      * rewrite Hbefore in Hflag by lia. discriminate Hflag.
      * destruct (Nat.eq_dec k (Z.to_nat timeout_sec)) as [E|E].
        -- assert (j = k) by lia. subst j. rewrite Hs. exact Hflag.
        -- apply Hafter. lia.
Qed.

Lemma wait_connected_polls_witness :
  fst (wifi_manager_wait_connected
         (fun i => if Nat.eqb i 2 then [(IP_EVENT, IP_EVENT_STA_GOT_IP)] else [])
         30 boot_state) = true.
Proof.
  destruct (wait_connected_polls
              (fun i => if Nat.eqb i 2 then [(IP_EVENT, IP_EVENT_STA_GOT_IP)] else [])
              30 boot_state) as (k & _ & _ & _ & _ & _ & H).
  apply (proj2 H). exists 3%nat. split; [vm_compute; lia|reflexivity].
Defined.

Lemma substring_length_le (n : nat) :
  forall s : string, (String.length (String.substring 0 n s) <= n)%nat.
Proof.
  induction n as [|n IH]; intros [|c s]; cbn; try lia.
  specialize (IH s). lia.
Qed.

Lemma substring_all (n : nat) :
  forall s : string, (String.length s <= n)%nat -> String.substring 0 n s = s.
Proof.
  induction n as [|n IH]; intros [|c s]; cbn; intros H; try reflexivity; try lia.
  rewrite IH by lia. reflexivity.
Qed.

Lemma strncpy_keeps_iff (n : nat) (s : string) :
  strncpy n s = s <-> (String.length s <= n)%nat.
Proof.
  unfold strncpy. split.
  - intros H. rewrite <- H. apply substring_length_le.
  - apply substring_all.
Qed.

(** X27: the station configuration that [wifi_manager_init_sta] hands to
    [esp_wifi_set_config] is built from the credentials loaded with
    buffers of 33 and 65 bytes, cut to 31 and 63 bytes: the configured
    SSID is the stored one exactly when the stored one has at most 31
    bytes, the configured password the stored one exactly when it has at
    most 63, although the store and the form accept 32 and 64. *)
Theorem init_sta_config_truncates (env : init_env) (f : Nvs.faults) (s : Nvs.store)
  (err : esp_err_t) (cfg : sta_config) :
  wifi_manager_init_sta env f s = (err, Some cfg) ->
  exists ssid password : string,
    WifiCredentials.wifi_credentials_load f 33 65 s = Some (ssid, password) /\
    cfg = {| sta_ssid := strncpy 31 ssid; sta_password := strncpy 63 password |} /\
    (String.length (sta_ssid cfg) <= 31)%nat /\
    (String.length (sta_password cfg) <= 63)%nat /\
    (sta_ssid cfg = ssid <-> (String.length ssid <= 31)%nat) /\
    (sta_password cfg = password <-> (String.length password <= 63)%nat) /\
    esp_wifi_set_config env = ESP_OK.
Proof.
  unfold wifi_manager_init_sta.
  destruct (negb (esp_wifi_init env =? ESP_OK)); [discriminate|].
  destruct (negb (register_wifi_handler env =? ESP_OK)); [discriminate|].
  destruct (negb (register_ip_handler env =? ESP_OK)); [discriminate|].
  destruct (WifiCredentials.wifi_credentials_load f 33 65 s) as [[ssid password]|];
    [|discriminate].
  destruct (negb (esp_wifi_set_mode env =? ESP_OK)); [discriminate|].
  destruct (Z.eqb_spec (esp_wifi_set_config env) ESP_OK) as [Hc|Hc]; cbn [negb];
    [|discriminate].
  intros H. exists ssid, password. split; [reflexivity|].
  assert (Hcfg : cfg = {| sta_ssid := strncpy 31 ssid; sta_password := strncpy 63 password |}).
  { destruct (negb (esp_wifi_start env =? ESP_OK)); injection H as _ <-; reflexivity. }
  subst cfg. cbn [sta_ssid sta_password].
  split; [reflexivity|].
  split; [apply substring_length_le|]. split; [apply substring_length_le|].
  split; [apply strncpy_keeps_iff|]. split; [apply strncpy_keeps_iff|exact Hc].
Qed.

Lemma init_sta_config_truncates_witness :
  exists ssid password : string,
    WifiCredentials.wifi_credentials_load Nvs.no_faults 33 65 Scenarios.long_ssid_store
    = Some (ssid, password) /\
    {| sta_ssid := "0123456789abcdef0123456789abcde"; sta_password := "secret" |}
    = {| sta_ssid := strncpy 31 ssid; sta_password := strncpy 63 password |} /\
    (String.length "0123456789abcdef0123456789abcde" <= 31)%nat /\
    (String.length "secret" <= 63)%nat /\
    ("0123456789abcdef0123456789abcde"%string = ssid <-> (String.length ssid <= 31)%nat) /\
    ("secret"%string = password <-> (String.length password <= 63)%nat) /\
    esp_wifi_set_config Scenarios.wifi_init_ok = ESP_OK.
Proof.
  apply (init_sta_config_truncates Scenarios.wifi_init_ok Nvs.no_faults
           Scenarios.long_ssid_store ESP_OK
           {| sta_ssid := "0123456789abcdef0123456789abcde"; sta_password := "secret" |}).
  vm_compute. reflexivity.
Defined.

End StationLink.

(** ** main.c: the WiFi and MQTT phases *)

Section BootPhases.

Import Main.

Lemma string_length_app (a b : string) :
  String.length (a ++ b) = (String.length a + String.length b)%nat.
Proof.
  induction a as [|c a IH]; [reflexivity|].
  rewrite append_cons. cbn [String.length]. rewrite IH. reflexivity.
Qed.




(** X29: [setup_mqtt] publishes under the stored device id when one can
    be loaded into the 33-byte buffer and under [DEFAULT_DEVICE_ID]
    otherwise; the id has at most 32 bytes, the topic is the prefix
    followed by the id, cut to 127 bytes, and is whole when the two fit;
    the topic is handed to the publisher whether or not the client
    starts, the store is not written, and the result is [ESP_OK]
    exactly when the client is created, registered and started. *)
Theorem setup_mqtt_topic (f : Nvs.faults) (prefix : string)
  (env : MqttPublisher.init_env) (sys : system) :
  let r := setup_mqtt f prefix env sys in
  let id := device_id_buffer (snd r) in
  let topic := mqtt_topic_buffer (snd r) in
  id = match WifiCredentials.wifi_credentials_load_device_id f 33 (store sys) with
       | Some v => v
       | None => DEFAULT_DEVICE_ID
       end /\
  (String.length id <= 32)%nat /\
  (String.length topic <= 127)%nat /\
  ((String.length prefix + String.length id <= 127)%nat -> topic = (prefix ++ id)%string) /\
  MqttPublisher.base_topic (mqtt (snd r)) = Some topic /\
  store (snd r) = store sys /\
  (fst r = ESP_OK <->
   MqttPublisher.client_init env <> NULL /\
   MqttPublisher.register_event env = ESP_OK /\
   MqttPublisher.client_start env = ESP_OK).
Proof.
  cbv zeta. unfold setup_mqtt.
  set (id := match WifiCredentials.wifi_credentials_load_device_id f 33 (store sys) with
             | Some v => v
             | None => truncate 33 DEFAULT_DEVICE_ID
             end).
  assert (Hid : id = match WifiCredentials.wifi_credentials_load_device_id f 33 (store sys) with
                     | Some v => v
                     | None => DEFAULT_DEVICE_ID
                     end).
  { subst id. destruct (WifiCredentials.wifi_credentials_load_device_id _ _ _); reflexivity. }
  assert (Hlen : (String.length id <= 32)%nat).
  { rewrite Hid.
    destruct (WifiCredentials.wifi_credentials_load_device_id f 33 (store sys)) as [v|] eqn:Hl;
      [|vm_compute; lia].
    revert Hl.
    unfold WifiCredentials.wifi_credentials_load_device_id, Nvs.nvs_get_str.
    destruct (negb (Nvs.nvs_open f =? ESP_OK)); [discriminate|].
    destruct (f (Nvs.GetStr WifiCredentials.NVS_KEY_DEVICE_ID) =? ESP_OK);
      [|destruct (negb _); discriminate].
    destruct (store sys !! WifiCredentials.NVS_KEY_DEVICE_ID) as [[w|w]|];
      try (cbn; discriminate).
    destruct (Nat.ltb_spec (String.length w) 33) as [Hw|Hw]; [|cbn; discriminate].
    cbn. intros [= <-]. lia. }
  set (topic := truncate 128 (prefix ++ id)).
  unfold MqttPublisher.mqtt_publisher_init.
  set (st1 := {| MqttPublisher.client := MqttPublisher.client_init env;
                 MqttPublisher.mqtt_connected := MqttPublisher.mqtt_connected (mqtt sys);
                 MqttPublisher.base_topic := Some topic |}).
  unfold non_null. cbn [MqttPublisher.client st1].
  destruct (Z.eqb_spec (MqttPublisher.client_init env) NULL) as [Hc|Hc]; cbn [negb].
  all: destruct (Z.eqb_spec (MqttPublisher.register_event env) ESP_OK) as [Hr|Hr]; cbn [negb].
  all: destruct (Z.eqb_spec (MqttPublisher.client_start env) ESP_OK) as [Hst|Hst]; cbn [negb].
  all: cbn [fst snd device_id_buffer mqtt_topic_buffer mqtt store MqttPublisher.base_topic st1].
  all: (split; [exact Hid|]); (split; [exact Hlen|]);
       (split; [apply substring_length_le|]);
       (split; [intros Hfit; subst topic; unfold truncate; apply substring_all;
                rewrite string_length_app; cbn; lia|]);
       (split; [reflexivity|]); (split; [reflexivity|]).
  all: split; [intros H; try discriminate H; try contradiction; auto
              |intros (H1 & H2 & H3); try contradiction; try reflexivity].
Qed.

End BootPhases.

(** ** factory_reset.c: no press, no reset *)

Section ResetButton.

Import FactoryReset.

Lemma released_poll_keeps_boot (f : Nvs.faults) (p : poll) (s : Nvs.store) :
  raw_pressed p = false ->
  factory_reset_check f p (boot_world s) = boot_world s.
Proof.
  unfold raw_pressed. intros Hp.
  unfold factory_reset_check, is_button_pressed. cbn [boot_world button boot_state
    reset_triggered last_stable_state].
  rewrite Hp. reflexivity.
Qed.

(** X30: without the button reading down there is no reset: a run of
    [factory_reset_check] since boot in which every poll reads the
    button released, at whatever times the polls come and however many
    there are, leaves the button state, the store and the effects as
    they were at boot; in particular nothing is cleared and the chip is
    not restarted. *)
Theorem no_press_no_reset (f : Nvs.faults) (polls : list poll) (s : Nvs.store) :
  Forall (fun p => raw_pressed p = false) polls ->
  run f polls (boot_world s) = boot_world s /\
  triggers (run f polls (boot_world s)) = 0%nat /\
  nvs (run f polls (boot_world s)) = s.
Proof.
  intros Hall.
  assert (Hrun : run f polls (boot_world s) = boot_world s).
  { induction Hall as [|p polls Hp _ IH]; [reflexivity|].
    unfold run in *. cbn [fold_left].
    rewrite (released_poll_keeps_boot f p s Hp). exact IH. }
  rewrite Hrun. repeat split.
Qed.

Lemma no_press_no_reset_witness :
  nvs (run Nvs.no_faults
         [Scenarios.released_at 0; Scenarios.released_at 4000; Scenarios.released_at 9000]
         (boot_world Examples.provisioned_store))
  = Examples.provisioned_store.
Proof.
  apply (proj2 (proj2 (no_press_no_reset Nvs.no_faults
           [Scenarios.released_at 0; Scenarios.released_at 4000; Scenarios.released_at 9000]
           Examples.provisioned_store
           ltac:(repeat constructor)))).
Defined.

End ResetButton.
